(** * The AF_UNIX transport of the vhost-user library

  A shallow embedding of [lib/librte_vhost/trans_af_unix.c]: the
  fd-passing channel ([read_fd_message], [send_fd_message]), the connection
  manager ([vhost_user_add_connection], [vhost_user_read_cb]), client
  start-up and the reconnect thread, and endpoint teardown
  ([af_unix_socket_cleanup]).

  Everything outside the file (system calls, the fdset dispatcher, the
  device registry, the owner's callbacks, malloc) is the environment: a call
  is recorded as an [event], and a call whose result the code looks at
  takes that result from a script of answers held in the world. RTE_LOG
  lines are not events; [read_fd_message], whose two failures the log line
  tells apart, returns its line with the outcome. *)

From Stdlib Require Import ZArith String List Lia Bool.
From stdpp Require Import base option list gmap.
Import ListNotations.

Local Open Scope Z_scope.

(** ** Constants of the platform headers (Linux) *)

Module Sys.
Definition EINTR : Z := 4.
Definition EINVAL : Z := 22.
Definition EPIPE : Z := 32.
Definition EISCONN : Z := 106.
Definition ECONNREFUSED : Z := 111.
Definition O_NONBLOCK : Z := 2048.
Definition F_GETFL : Z := 3.
Definition F_SETFL : Z := 4.
Definition MSG_CTRUNC : Z := 8.
Definition MSG_TRUNC : Z := 32.
Definition MSG_NOSIGNAL : Z := 16384.
Definition SOL_SOCKET : Z := 1.
Definition SCM_RIGHTS : Z := 1.
Definition PATH_MAX : Z := 4096.
(** [sizeof(((struct sockaddr_un * )0)->sun_path)] *)
Definition SUN_PATH_LEN : nat := 108.
Definition sizeof_int : Z := 4.

(** C [int]: 32 bits, two's complement. *)
Definition to_int (z : Z) : Z := (z + 2 ^ 31) mod 2 ^ 32 - 2 ^ 31.
End Sys.

(** ** Control-message layout: the CMSG macros of <sys/socket.h>

  The macros depend on [sizeof(size_t)], 8 on LP64 and 4 on ILP32; they are
  written out here as glibc has them, over that one parameter. *)

Module Cmsg.
Section Layout.
(** [sizeof(size_t)] *)
Variable word : Z.

Definition size_t_mod : Z := 2 ^ (8 * word).
(** conversion to [size_t] *)
Definition to_size_t (z : Z) : Z := z mod size_t_mod.

(** [struct cmsghdr { size_t cmsg_len; int cmsg_level; int cmsg_type; }] *)
Definition sizeof_cmsghdr : Z := word + 2 * Sys.sizeof_int.

(** [(len + sizeof(size_t) - 1) & ~(sizeof(size_t) - 1)] *)
Definition CMSG_ALIGN (len : Z) : Z :=
  Z.land (to_size_t (len + word - 1)) (to_size_t (Z.lnot (word - 1))).

Definition CMSG_SPACE (len : Z) : Z :=
  to_size_t (CMSG_ALIGN len + CMSG_ALIGN sizeof_cmsghdr).

Definition CMSG_LEN (len : Z) : Z :=
  to_size_t (CMSG_ALIGN sizeof_cmsghdr + len).
End Layout.

Definition LP64 : Z := 8.
Definition ILP32 : Z := 4.
End Cmsg.

(** ** The fd-passing channel: receive *)

Module FdChannel.

(** One ancillary record as the CMSG iteration macros present it; the
    payload is given in [int]-sized words, the way [memcpy] reads it. *)
Record cmsghdr := {
  cmsg_len : Z;
  cmsg_level : Z;
  cmsg_type : Z;
  cmsg_data : list Z
}.

(** What one [recvmsg] leaves behind: its return value, [msg_flags], and
    the records CMSG_FIRSTHDR / CMSG_NXTHDR walk through. *)
Record recvmsg_result := {
  rv : Z;
  msg_flags : Z;
  msg_control : list cmsghdr
}.

(** The caller's memory at [fds], indexed in [int]s from the pointer: slots
    [0 .. max_fds-1] are the caller's array, higher indices are whatever
    lies behind it. *)
Definition memory := Z -> Z.

Definition store (m : memory) (i v : Z) : memory :=
  fun j => if Z.eq_dec j i then v else m j.

(** [memcpy(fds, CMSG_DATA(cmsg), n * sizeof(int))], word by word *)
Fixpoint memcpy_ints (m : memory) (i : Z) (src : list Z) (n : nat) : memory :=
  match n with
  | O => m
  | S k => memcpy_ints (store m i (nth 0 src 0)) (i + 1) (tl src) k
  end.

(** [while (got_fds < max_fds) fds[got_fds++] = -1;] with the number of
    iterations left as the decreasing argument *)
Fixpoint clear_unused (m : memory) (got_fds : Z) (n : nat) : memory :=
  match n with
  | O => m
  | S k => clear_unused (store m got_fds (-1)) (got_fds + 1) k
  end.

Record read_outcome := {
  ret : Z;            (* the function's return value *)
  fd_num : Z;         (* the caller's [*fd_num] afterwards *)
  fds : memory;       (* the caller's memory at [fds] afterwards *)
  copied : Z;         (* how many descriptors [memcpy] wrote *)
  logged : option string
}.

(** The kernel reported truncated data (MSG_TRUNC, bit 5) or truncated
    control information (MSG_CTRUNC, bit 3). *)
Definition truncated (k : recvmsg_result) : Prop :=
  Z.testbit (msg_flags k) 5 = true \/ Z.testbit (msg_flags k) 3 = true.

Section Receive.
Variable word : Z.

(** [sizeof(control)], the value given to [msg_controllen] *)
Definition controllen (max_fds : Z) : Z :=
  Cmsg.CMSG_SPACE word (Cmsg.to_size_t word max_fds * Sys.sizeof_int).

Definition is_rights (c : cmsghdr) : bool :=
  (cmsg_level c =? Sys.SOL_SOCKET) && (cmsg_type c =? Sys.SCM_RIGHTS).

(** [(cmsg->cmsg_len - CMSG_LEN(0)) / sizeof(int)], computed in [size_t]
    and stored into an [int] *)
Definition count_fds (c : cmsghdr) : Z :=
  Sys.to_int
    (Cmsg.to_size_t word (cmsg_len c - Cmsg.CMSG_LEN word 0) / Sys.sizeof_int).

(** the byte count given to [memcpy], in whole [int]s *)
Definition memcpy_words (got_fds : Z) : nat :=
  Z.to_nat (Cmsg.to_size_t word (Cmsg.to_size_t word got_fds * Sys.sizeof_int)
            / Sys.sizeof_int).

(** The array [control] is on the function's frame: this is the function
    once the frame is there, and [Frame.read_fd_message_on] is the function
    on a stack of a given size. *)
Definition read_fd_message (fds0 : memory) (fd_num0 : Z) (max_fds : Z)
    (k : recvmsg_result) : read_outcome :=
  (* *fd_num = 0; *)
  let fd_num1 := 0 in
  if rv k <=? 0 then
    {| ret := rv k; fd_num := fd_num1; fds := fds0; copied := 0;
       logged := Some "recvmsg failed"%string |}
  else if negb (Z.land (msg_flags k) (Z.lor Sys.MSG_TRUNC Sys.MSG_CTRUNC) =? 0) then
    {| ret := -1; fd_num := fd_num1; fds := fds0; copied := 0;
       logged := Some "truncted msg"%string |}
  else
    match List.find is_rights (msg_control k) with
    | Some c =>
        let got_fds := count_fds c in
        let m := memcpy_ints fds0 0 (cmsg_data c) (memcpy_words got_fds) in
        {| ret := rv k; fd_num := got_fds;
           fds := clear_unused m got_fds (Z.to_nat (max_fds - got_fds));
           copied := Z.of_nat (memcpy_words got_fds);
           logged := None |}
    | None =>
        {| ret := rv k; fd_num := fd_num1;
           fds := clear_unused fds0 0 (Z.to_nat (max_fds - 0));
           copied := 0; logged := None |}
    end.

(** A record the kernel can have written into the control buffer the code
    supplied: it has a whole header, it does not extend past
    [msg_controllen], and it carries the payload its length announces. *)
Definition fits (max_fds : Z) (c : cmsghdr) : Prop :=
  Cmsg.CMSG_LEN word 0 <= cmsg_len c <= controllen max_fds /\
  Z.of_nat (length (cmsg_data c)) = (cmsg_len c - Cmsg.CMSG_LEN word 0) / Sys.sizeof_int.
End Receive.

End FdChannel.

(** ** The world the transport runs in *)

Module World.

(** The two kinds of intrusive list of the file, each with the mutex that
    guards it: an endpoint's [conn_list] / [conn_mutex], and the global
    [reconn_list]. *)
Inductive tailq :=
| ConnQ (v : nat)
| ReconnQ.

(** The read callbacks the file registers with the dispatcher. *)
Inductive callback :=
| vhost_user_read_cb_ptr
| vhost_user_server_new_connection_ptr.

(** [struct vhost_device_ops]: which of the owner's hooks are non-NULL. *)
Record vhost_device_ops := {
  new_connection : bool;
  destroy_connection : bool
}.

(** The fields of [struct vhost_user_socket] the transport reads. *)
Record vhost_user_socket := {
  path : string;
  is_server : bool;
  reconnect : bool;
  use_builtin_virtio_net : bool;
  vdpa_dev_id : Z;
  dequeue_zero_copy : bool;
  notify_ops : vhost_device_ops
}.

(** [struct vhost_user_connection]; the TAILQ link is the position in the
    endpoint's [conn_list]. *)
Record vhost_user_connection := {
  vsocket : nat;
  connfd : Z;
  vid : Z
}.

(** [struct af_unix_socket]; [conn_list] holds the addresses of the linked
    connection records, head first. *)
Record af_unix_socket := {
  socket : vhost_user_socket;
  conn_list : list Z;
  socket_fd : Z;
  un : string
}.

(** [struct vhost_user_reconnect] *)
Record vhost_user_reconnect := {
  r_un : string;
  r_fd : Z;
  r_vsocket : nat
}.

(** Calls into the environment and list operations, in program order. A
    call whose result the code inspects carries that result. *)
Inductive event :=
| EMalloc (p : Z)
| EFree (p : Z)
| EClose (fd : Z)
| ESocket (fd : Z)
| EFcntl (fd cmd arg r : Z)
| EConnect (fd : Z) (addr : string) (r : Z)
| ESendmsg (fd : Z) (buf : list Z) (buflen : Z) (control : option (Z * list Z))
           (flags r : Z)
| EUnlink (p : string)
| ESleep (seconds : Z)
| ENewDevice (vid : Z)
| ESetIfname (vid : Z) (name : string) (len : Z)
| ESetBuiltinVirtioNet (vid : Z) (enable : bool)
| EAttachVdpaDevice (vid did : Z)
| EEnableDequeueZeroCopy (vid : Z)
| EGetDevice (vid dev : Z)
| EDestroyDeviceNotify (dev : Z)
| EDestroyDevice (vid : Z)
| EMsgHandler (vid fd r : Z)
| ENewConnection (vid r : Z)
| EDestroyConnection (vid : Z)
| EFdsetAdd (fd : Z) (cb : callback) (dat : Z) (r : Z)
| EFdsetDel (fd : Z)
| EFdsetTryDel (fd r : Z)
| EFdsetPipeNotify
| ELock (q : tailq)
| EUnlock (q : tailq)
| EMutexDestroy (q : tailq)
| EInsertTail (q : tailq) (p : Z)
| ERemove (q : tailq) (p : Z)
| ESetRemove.

(** Program state: the endpoints and the two heaps of malloc'ed records,
    keyed by address, the global reconnect list, [errno], and the answers
    the environment will give to the calls still to come. *)
Record world := {
  sockets : gmap nat af_unix_socket;
  conns : gmap Z vhost_user_connection;
  reconns : gmap Z vhost_user_reconnect;
  reconn_list : list Z;
  errno : Z;
  script : list Z
}.

Definition set_sockets (f : gmap nat af_unix_socket -> gmap nat af_unix_socket)
    (w : world) : world :=
  {| sockets := f (sockets w); conns := conns w; reconns := reconns w;
     reconn_list := reconn_list w; errno := errno w; script := script w |}.

Definition set_conns (f : gmap Z vhost_user_connection -> gmap Z vhost_user_connection)
    (w : world) : world :=
  {| sockets := sockets w; conns := f (conns w); reconns := reconns w;
     reconn_list := reconn_list w; errno := errno w; script := script w |}.

Definition set_reconns (f : gmap Z vhost_user_reconnect -> gmap Z vhost_user_reconnect)
    (w : world) : world :=
  {| sockets := sockets w; conns := conns w; reconns := f (reconns w);
     reconn_list := reconn_list w; errno := errno w; script := script w |}.

Definition set_reconn_list (f : list Z -> list Z) (w : world) : world :=
  {| sockets := sockets w; conns := conns w; reconns := reconns w;
     reconn_list := f (reconn_list w); errno := errno w; script := script w |}.

Definition set_errno (e : Z) (w : world) : world :=
  {| sockets := sockets w; conns := conns w; reconns := reconns w;
     reconn_list := reconn_list w; errno := e; script := script w |}.

Definition set_script (l : list Z) (w : world) : world :=
  {| sockets := sockets w; conns := conns w; reconns := reconns w;
     reconn_list := reconn_list w; errno := errno w; script := l |}.

Definition set_conn_list (f : list Z -> list Z) (a : af_unix_socket) : af_unix_socket :=
  {| socket := socket a; conn_list := f (conn_list a);
     socket_fd := socket_fd a; un := un a |}.

(** A computation: from a world to a result, the next world and the events
    it caused; [None] when the environment has no answer left, when a
    dangling pointer is followed, or when a loop runs out of fuel. *)
Definition M (A : Type) : Type := world -> option (A * world * list event).

Definition ret {A} (a : A) : M A := fun w => Some (a, w, []).

Definition bind {A B} (c : M A) (k : A -> M B) : M B :=
  fun w =>
    match c w with
    | None => None
    | Some (a, w1, t1) =>
        match k a w1 with
        | None => None
        | Some (b, w2, t2) => Some (b, w2, t1 ++ t2)
        end
    end.

Definition stuck {A} : M A := fun _ => None.

Definition emit (e : event) : M unit := fun w => Some (tt, w, [e]).

Definition gets {A} (f : world -> A) : M A := fun w => Some (f w, w, []).

Definition modify (f : world -> world) : M unit := fun w => Some (tt, f w, []).

(** the environment's next answer *)
Definition ask : M Z :=
  fun w =>
    match script w with
    | [] => None
    | a :: rest => Some (a, set_script rest w, [])
    end.

Definition from_option {A} (o : option A) : M A :=
  match o with
  | Some a => ret a
  | None => stuck
  end.

Definition when (b : bool) (c : M unit) : M unit := if b then c else ret tt.

End World.

Declare Scope world_scope.
Delimit Scope world_scope with world.
Notation "'do' x <- c ; k" := (World.bind c (fun x => k))
(at level 10, x name, c at level 100, k at level 200,
 format "'[v' 'do'  x  <-  c ; '/' k ']'") : world_scope.
Notation "'run' c ; k" := (World.bind c (fun _ => k))
(at level 10, c at level 100, k at level 200,
 format "'[v' 'run'  c ; '/' k ']'") : world_scope.

(** ** Calls into the environment *)

Module Env.
Import World.
Local Open Scope world_scope.

(** A system call that sets [errno] when it fails and whose [errno] the
    code then reads: the environment answers with the return value and,
    if that is negative, with the error number. *)
Definition syscall_errno : M Z :=
  do r <- ask;
  if r <? 0 then (do e <- ask; run modify (set_errno e); ret r) else ret r.

Definition close (fd : Z) : M unit := emit (EClose fd).
Definition unlink (p : string) : M unit := emit (EUnlink p).
Definition sleep (n : Z) : M unit := emit (ESleep n).

Definition socket_call : M Z :=
  do fd <- ask; run emit (ESocket fd); ret fd.

Definition fcntl (fd cmd arg : Z) : M Z :=
  do r <- ask; run emit (EFcntl fd cmd arg r); ret r.

Definition connect (fd : Z) (addr : string) : M Z :=
  do r <- syscall_errno; run emit (EConnect fd addr r); ret r.

Definition sendmsg (fd : Z) (buf : list Z) (buflen : Z)
    (control : option (Z * list Z)) (flags : Z) : M Z :=
  do r <- syscall_errno; run emit (ESendmsg fd buf buflen control flags r); ret r.

(** device registry *)
Definition vhost_new_device : M Z :=
  do v <- ask; run emit (ENewDevice v); ret v.
Definition vhost_set_ifname (v : Z) (name : string) (len : Z) : M unit :=
  emit (ESetIfname v name len).
Definition vhost_set_builtin_virtio_net (v : Z) (enable : bool) : M unit :=
  emit (ESetBuiltinVirtioNet v enable).
Definition vhost_attach_vdpa_device (v did : Z) : M unit :=
  emit (EAttachVdpaDevice v did).
Definition vhost_enable_dequeue_zero_copy (v : Z) : M unit :=
  emit (EEnableDequeueZeroCopy v).
Definition get_device (v : Z) : M Z :=
  do dev <- ask; run emit (EGetDevice v dev); ret dev.
Definition vhost_destroy_device_notify (dev : Z) : M unit :=
  emit (EDestroyDeviceNotify dev).
Definition vhost_destroy_device (v : Z) : M unit := emit (EDestroyDevice v).

(** protocol handler *)
Definition vhost_user_msg_handler (v fd : Z) : M Z :=
  do r <- ask; run emit (EMsgHandler v fd r); ret r.

(** the owner's hooks *)
Definition call_new_connection (v : Z) : M Z :=
  do r <- ask; run emit (ENewConnection v r); ret r.
Definition call_destroy_connection (v : Z) : M unit := emit (EDestroyConnection v).

(** dispatcher *)
Definition fdset_add (fd : Z) (cb : callback) (dat : Z) : M Z :=
  do r <- ask; run emit (EFdsetAdd fd cb dat r); ret r.
Definition fdset_del (fd : Z) : M unit := emit (EFdsetDel fd).
Definition fdset_try_del (fd : Z) : M Z :=
  do r <- ask; run emit (EFdsetTryDel fd r); ret r.
Definition fdset_pipe_notify : M unit := emit EFdsetPipeNotify.

Definition pthread_mutex_lock (q : tailq) : M unit := emit (ELock q).
Definition pthread_mutex_unlock (q : tailq) : M unit := emit (EUnlock q).
Definition pthread_mutex_destroy (q : tailq) : M unit := emit (EMutexDestroy q).

(** ** Heap and lists *)

(** The content of a fresh block is indeterminate in C; the code writes
    every field before it reads one, and zeros stand for that content. *)
Definition fresh_connection : vhost_user_connection :=
  {| vsocket := O; connfd := 0; vid := 0 |}.
Definition fresh_reconnect : vhost_user_reconnect :=
  {| r_un := EmptyString; r_fd := 0; r_vsocket := O |}.

(** [malloc(sizeof( *conn))]: the address comes from the environment, 0 is
    NULL. *)
Definition malloc_connection : M Z :=
  do p <- ask;
  run emit (EMalloc p);
  run when (negb (p =? 0)) (modify (set_conns (insert p fresh_connection)));
  ret p.

Definition free_connection (p : Z) : M unit :=
  run emit (EFree p); modify (set_conns (delete p)).

Definition malloc_reconnect : M Z :=
  do p <- ask;
  run emit (EMalloc p);
  run when (negb (p =? 0)) (modify (set_reconns (insert p fresh_reconnect)));
  ret p.

Definition free_reconnect (p : Z) : M unit :=
  run emit (EFree p); modify (set_reconns (delete p)).

(** dereferencing a pointer *)
Definition load_connection (p : Z) : M vhost_user_connection :=
  do w <- gets conns; from_option (w !! p).
Definition load_reconnect (p : Z) : M vhost_user_reconnect :=
  do w <- gets reconns; from_option (w !! p).
Definition load_socket (v : nat) : M af_unix_socket :=
  do w <- gets sockets; from_option (w !! v).

Definition store_connection (p : Z) (c : vhost_user_connection) : M unit :=
  modify (set_conns (insert p c)).
Definition store_reconnect (p : Z) (r : vhost_user_reconnect) : M unit :=
  modify (set_reconns (insert p r)).
Definition update_socket (v : nat) (f : af_unix_socket -> af_unix_socket) : M unit :=
  modify (set_sockets (alter f v)).

Definition remove_ptr (p : Z) (l : list Z) : list Z :=
  List.filter (fun x => negb (x =? p)) l.

Definition TAILQ_INSERT_TAIL (q : tailq) (p : Z) : M unit :=
  run emit (EInsertTail q p);
  match q with
  | ConnQ v => update_socket v (set_conn_list (fun l => l ++ [p]))
  | ReconnQ => modify (set_reconn_list (fun l => l ++ [p]))
  end.

Definition TAILQ_REMOVE (q : tailq) (p : Z) : M unit :=
  run emit (ERemove q p);
  match q with
  | ConnQ v => update_socket v (set_conn_list (remove_ptr p))
  | ReconnQ => modify (set_reconn_list (remove_ptr p))
  end.
End Env.

(** ** The transport *)

Module AfUnix.
Import World Env.
Local Open Scope world_scope.

Section Send.
(** [sizeof(size_t)] *)
Variable word : Z.

(** [do { ret = sendmsg(sockfd, &msgh, MSG_NOSIGNAL); }
     while (ret < 0 && errno == EINTR);] *)
Fixpoint sendmsg_retry (fuel : nat) (sockfd : Z) (buf : list Z) (buflen : Z)
    (control : option (Z * list Z)) : M Z :=
  match fuel with
  | O => stuck
  | S f =>
      do r <- sendmsg sockfd buf buflen control Sys.MSG_NOSIGNAL;
      do e <- gets errno;
      if (r <? 0) && (e =? Sys.EINTR)
      then sendmsg_retry f sockfd buf buflen control
      else ret r
  end.

(** [fds = None] is a NULL [fds]. The array [control] is on the function's
    frame: this is the function once the frame is there, and
    [Frame.send_fd_message_on] is the function on a stack of a given size. *)
Definition send_fd_message (fuel : nat) (sockfd : Z) (buf : list Z) (buflen : Z)
    (fds : option (list Z)) (fd_num : Z) : M Z :=
  let fdsize := Cmsg.to_size_t word (Cmsg.to_size_t word fd_num * Sys.sizeof_int) in
  let sizeof_control := Cmsg.CMSG_SPACE word fdsize in
  match fds with
  | Some arr =>
      if fd_num >? 0 then
        (* CMSG_FIRSTHDR is NULL when msg_controllen < sizeof(struct cmsghdr) *)
        if sizeof_control <? Cmsg.sizeof_cmsghdr word then
          run modify (set_errno Sys.EINVAL); ret (-1)
        else
          let cmsg := (Cmsg.CMSG_LEN word fdsize,
                       firstn (Z.to_nat (fdsize / Sys.sizeof_int)) arr) in
          do r <- sendmsg_retry fuel sockfd buf buflen (Some cmsg);
          if r <? 0 then ret r else ret r
      else
        do r <- sendmsg_retry fuel sockfd buf buflen None;
        if r <? 0 then ret r else ret r
  | None =>
      do r <- sendmsg_retry fuel sockfd buf buflen None;
      if r <? 0 then ret r else ret r
  end.
End Send.

Definition strnlen (s : string) (maxlen : Z) : Z :=
  Z.min (Z.of_nat (String.length s)) maxlen.

(** the [err:] and [err_cleanup:] labels of [vhost_user_add_connection] *)
Definition add_connection_err (conn fd : Z) : M unit :=
  run free_connection conn; close fd.

Definition add_connection_err_cleanup (v conn fd : Z) : M unit :=
  run vhost_destroy_device v; add_connection_err conn fd.

(** [vsocket = None] is a NULL endpoint. *)
Definition vhost_user_add_connection (fd : Z) (vsocket : option nat) : M unit :=
  match vsocket with
  | None => ret tt
  | Some vs =>
      do conn <- malloc_connection;
      if conn =? 0 then close fd
      else
        do v <- vhost_new_device;
        if v =? -1 then add_connection_err conn fd
        else
          do af <- load_socket vs;
          let s := socket af in
          run vhost_set_ifname v (path s) (strnlen (path s) Sys.PATH_MAX);
          run vhost_set_builtin_virtio_net v (use_builtin_virtio_net s);
          run vhost_attach_vdpa_device v (vdpa_dev_id s);
          run when (dequeue_zero_copy s) (vhost_enable_dequeue_zero_copy v);
          do r <- (if new_connection (notify_ops s)
                   then call_new_connection v else ret 0);
          if r <? 0 then add_connection_err_cleanup v conn fd
          else
            run store_connection conn {| vsocket := vs; connfd := fd; vid := v |};
            do r <- fdset_add fd vhost_user_read_cb_ptr conn;
            if r <? 0 then
              run when (destroy_connection (notify_ops s))
                    (call_destroy_connection v);
              add_connection_err_cleanup v conn fd
            else
              run pthread_mutex_lock (ConnQ vs);
              run TAILQ_INSERT_TAIL (ConnQ vs) conn;
              run pthread_mutex_unlock (ConnQ vs);
              fdset_pipe_notify
  end.

Definition set_socket_fd (fd : Z) (name : string) (a : af_unix_socket) : af_unix_socket :=
  {| socket := socket a; conn_list := conn_list a; socket_fd := fd; un := name |}.

(** [strncpy] into [sun_path] and the terminating NUL in its last byte *)
Definition sun_path_of (p : string) : string :=
  String.substring 0 (Sys.SUN_PATH_LEN - 1) p.

Definition create_unix_socket (vs : nat) : M Z :=
  do fd <- socket_call;
  if fd <? 0 then ret (-1)
  else
    do af <- load_socket vs;
    do failed <- (if is_server (socket af) then ret false
                  else do r <- fcntl fd Sys.F_SETFL Sys.O_NONBLOCK;
                       ret (negb (r =? 0)));
    if failed then run close fd; ret (-1)
    else
      run update_socket vs (set_socket_fd fd (sun_path_of (path (socket af))));
      ret 0.

Definition vhost_user_connect_nonblock (fd : Z) (addr : string) : M Z :=
  do r <- connect fd addr;
  do e <- gets errno;
  if (r <? 0) && negb (e =? Sys.EISCONN) then ret (-1)
  else
    do flags <- fcntl fd Sys.F_GETFL 0;
    if flags <? 0 then ret (-2)
    else if negb (Z.land flags Sys.O_NONBLOCK =? 0) then
      do r <- fcntl fd Sys.F_SETFL (Z.land flags (Z.lnot Sys.O_NONBLOCK));
      if negb (r =? 0) then ret (-2) else ret 0
    else ret 0.

Definition vhost_user_start_client (vs : nat) : M Z :=
  do af <- load_socket vs;
  let fd := socket_fd af in
  do r <- vhost_user_connect_nonblock fd (un af);
  if r =? 0 then
    run vhost_user_add_connection fd (Some vs); ret 0
  else if (r =? -2) || negb (reconnect (socket af)) then
    run close fd; ret (-1)
  else
    do reconn <- malloc_reconnect;
    if reconn =? 0 then run close fd; ret (-1)
    else
      run store_reconnect reconn {| r_un := un af; r_fd := fd; r_vsocket := vs |};
      run pthread_mutex_lock ReconnQ;
      run TAILQ_INSERT_TAIL ReconnQ reconn;
      run pthread_mutex_unlock ReconnQ;
      ret 0.

(** [dat] is the connection record the callback was registered with; the
    result is the caller's [*remove] afterwards. *)
Definition vhost_user_read_cb (connfd dat remove : Z) : M Z :=
  do conn <- load_connection dat;
  let vs := vsocket conn in
  do r <- vhost_user_msg_handler (vid conn) connfd;
  if r <? 0 then
    do dev <- get_device (vid conn);
    run close connfd;
    run emit ESetRemove;
    run when (negb (dev =? 0)) (vhost_destroy_device_notify dev);
    do af <- load_socket vs;
    run when (destroy_connection (notify_ops (socket af)))
          (call_destroy_connection (vid conn));
    run vhost_destroy_device (vid conn);
    run pthread_mutex_lock (ConnQ vs);
    run TAILQ_REMOVE (ConnQ vs) dat;
    run pthread_mutex_unlock (ConnQ vs);
    run free_connection dat;
    run when (reconnect (socket af))
          (do _ <- create_unix_socket vs;
           do _ <- vhost_user_start_client vs;
           ret tt);
    ret 1
  else ret remove.

(** the [remove_fd:] label of the reconnect thread *)
Definition reconnect_remove_fd (p : Z) : M unit :=
  run TAILQ_REMOVE ReconnQ p; free_reconnect p.

(** The body of the [for] loop of the reconnect thread for the entry at
    [p]; returning is moving on to [next]. *)
Definition reconnect_entry (p : Z) : M unit :=
  do reconn <- load_reconnect p;
  do r <- vhost_user_connect_nonblock (r_fd reconn) (r_un reconn);
  if r =? -2 then
    run close (r_fd reconn);
    reconnect_remove_fd p
  else if r =? -1 then ret tt
  else
    run vhost_user_add_connection (r_fd reconn) (Some (r_vsocket reconn));
    reconnect_remove_fd p.

(** The [for] loop from the entry at the head of [l] on; [next] is read
    before the entry is handled. *)
Fixpoint reconnect_entries (l : list Z) : M unit :=
  match l with
  | [] => ret tt
  | p :: next => run reconnect_entry p; reconnect_entries next
  end.

(** one turn of the thread's [while (1)] *)
Definition reconnect_sweep : M unit :=
  run pthread_mutex_lock ReconnQ;
  do l <- gets reconn_list;
  run reconnect_entries l;
  run pthread_mutex_unlock ReconnQ;
  sleep 1.

(** The thread never returns; [vhost_user_client_reconnect n] is its first
    [n] turns. *)
Fixpoint vhost_user_client_reconnect (n : nat) : M unit :=
  match n with
  | O => ret tt
  | S k => run reconnect_sweep; vhost_user_client_reconnect k
  end.

Fixpoint remove_reconnect_from (vs : nat) (l : list Z) : M bool :=
  match l with
  | [] => ret false
  | p :: next =>
      do reconn <- load_reconnect p;
      if Nat.eqb (r_vsocket reconn) vs then
        run TAILQ_REMOVE ReconnQ p;
        run close (r_fd reconn);
        run free_reconnect p;
        ret true
      else remove_reconnect_from vs next
  end.

Definition vhost_user_remove_reconnect (vs : nat) : M bool :=
  run pthread_mutex_lock ReconnQ;
  do l <- gets reconn_list;
  do found <- remove_reconnect_from vs l;
  run pthread_mutex_unlock ReconnQ;
  ret found.

(** The [for] loop of [af_unix_socket_cleanup] from the current record on:
    [true] when it ran to the end of the list, [false] when it released
    the mutex and jumped back to [again]. *)
Fixpoint cleanup_connections (vs : nat) (l : list Z) : M bool :=
  match l with
  | [] => ret true
  | p :: next =>
      do conn <- load_connection p;
      do r <- fdset_try_del (connfd conn);
      if r =? -1 then
        run pthread_mutex_unlock (ConnQ vs); ret false
      else
        run close (connfd conn);
        run vhost_destroy_device (vid conn);
        run TAILQ_REMOVE (ConnQ vs) p;
        run free_connection p;
        cleanup_connections vs next
  end.

(** from the [again:] label on; one unit of fuel per pass over the list *)
Fixpoint cleanup_again (fuel : nat) (vs : nat) : M unit :=
  match fuel with
  | O => stuck
  | S f =>
      run pthread_mutex_lock (ConnQ vs);
      do af <- load_socket vs;
      do finished <- cleanup_connections vs (conn_list af);
      if finished then
        run pthread_mutex_unlock (ConnQ vs);
        pthread_mutex_destroy (ConnQ vs)
      else cleanup_again f vs
  end.

Definition af_unix_socket_cleanup (fuel : nat) (vs : nat) : M unit :=
  do af <- load_socket vs;
  run (if is_server (socket af) then
         run fdset_del (socket_fd af);
         run close (socket_fd af);
         unlink (path (socket af))
       else if reconnect (socket af) then
         do _ <- vhost_user_remove_reconnect vs; ret tt
       else ret tt);
  cleanup_again fuel vs.

End AfUnix.

(** ** Vocabulary for stating properties of runs *)

Module Trace.
Import World.

Definition ends_with (t suffix : list event) : Prop :=
  exists pre, t = pre ++ suffix.

Definition starts_with (t prefix : list event) : Prop :=
  exists post, t = prefix ++ post.


(** [a] happens in [t], and [b] after it *)
Definition precedes (a b : event) (t : list event) : Prop :=
  exists pre mid post, t = pre ++ a :: mid ++ b :: post.

(** The three ways [vhost_user_add_connection] can fail once the record
    is allocated, read off the events of the run. *)
Definition device_creation_failed (t : list event) : Prop :=
  In (ENewDevice (-1)) t.

Definition new_connection_failed (t : list event) : Prop :=
  exists v r, In (ENewConnection v r) t /\ r < 0.

Definition registration_failed (t : list event) : Prop :=
  exists fd cb dat r, In (EFdsetAdd fd cb dat r) t /\ r < 0.

(** What the system calls of one [vhost_user_connect_nonblock] were and
    what it returned; [e] is [errno] afterwards. *)
Inductive connect_outcome (fd : Z) (addr : string) (e : Z) : list event -> Z -> Prop :=
| connect_pending (c : Z) :
    c < 0 -> e <> Sys.EISCONN ->
    connect_outcome fd addr e [EConnect fd addr c] (-1)
| connect_flags_unknown (c fl : Z) :
    0 <= c \/ e = Sys.EISCONN -> fl < 0 ->
    connect_outcome fd addr e [EConnect fd addr c; EFcntl fd Sys.F_GETFL 0 fl] (-2)
| connect_flags_stuck (c fl r : Z) :
    0 <= c \/ e = Sys.EISCONN -> 0 <= fl ->
    Z.land fl Sys.O_NONBLOCK <> 0 -> r <> 0 ->
    connect_outcome fd addr e
      [EConnect fd addr c; EFcntl fd Sys.F_GETFL 0 fl;
       EFcntl fd Sys.F_SETFL (Z.land fl (Z.lnot Sys.O_NONBLOCK)) r] (-2)
| connect_made_blocking (c fl : Z) :
    0 <= c \/ e = Sys.EISCONN -> 0 <= fl ->
    Z.land fl Sys.O_NONBLOCK <> 0 ->
    connect_outcome fd addr e
      [EConnect fd addr c; EFcntl fd Sys.F_GETFL 0 fl;
       EFcntl fd Sys.F_SETFL (Z.land fl (Z.lnot Sys.O_NONBLOCK)) 0] 0
| connect_was_blocking (c fl : Z) :
    0 <= c \/ e = Sys.EISCONN -> 0 <= fl ->
    Z.land fl Sys.O_NONBLOCK = 0 ->
    connect_outcome fd addr e [EConnect fd addr c; EFcntl fd Sys.F_GETFL 0 fl] 0.

(** Answers of [n] calls of [sendmsg] that each fail with EINTR. *)
Fixpoint interrupted (n : nat) : list Z :=
  match n with
  | O => []
  | S k => -1 :: Sys.EINTR :: interrupted k
  end.

(** The answer of a call of [sendmsg] that returns [r], with [errno] set
    to [e] when it fails. *)
Definition sendmsg_answer (r e : Z) : list Z :=
  if r <? 0 then [r; e] else [r].

(** [errno] after [n] interrupted calls of [sendmsg] and one that returned
    [r], with [e] its error number if it failed. *)
Definition errno_after (n : nat) (r e : Z) (w : world) : Z :=
  if r <? 0 then e else match n with O => errno w | S _ => Sys.EINTR end.



End Trace.

(** ** Concrete worlds

    One endpoint, at address 0, on [/tmp/vhost.sock] with descriptor 3. *)

Module Demo.
Import World.

Definition sock_path : string := "/tmp/vhost.sock".

Definition hooks : vhost_device_ops :=
  {| new_connection := true; destroy_connection := true |}.

Definition endpoint_at (fd : Z) (server reconn : bool) (l : list Z) : af_unix_socket :=
  {| socket := {| path := sock_path; is_server := server; reconnect := reconn;
                  use_builtin_virtio_net := true; vdpa_dev_id := -1;
                  dequeue_zero_copy := false; notify_ops := hooks |};
     conn_list := l; socket_fd := fd; un := sock_path |}.

Definition endpoint (server reconn : bool) (l : list Z) : af_unix_socket :=
  endpoint_at 3 server reconn l.

Definition world_of (af : af_unix_socket) (C : gmap Z vhost_user_connection)
    (R : gmap Z vhost_user_reconnect) (RL : list Z) (e : Z) (answers : list Z) : world :=
  {| sockets := {[ O := af ]}; conns := C; reconns := R; reconn_list := RL;
     errno := e; script := answers |}.

(** a live connection on descriptor [fd] with device [v] *)
Definition live (fd v : Z) : vhost_user_connection :=
  {| vsocket := O; connfd := fd; vid := v |}.

(** a parked connect attempt of the endpoint *)
Definition parked : vhost_user_reconnect :=
  {| r_un := sock_path; r_fd := 3; r_vsocket := O |}.
End Demo.


(** ** Endpoints as they are configured *)

Module Config.
Import World.

End Config.

(** ** A callback in flight during teardown *)

Module Race.
Import World Env AfUnix.
Local Open Scope world_scope.

(** [af_unix_socket_cleanup] with another thread in the window its retry
    leaves open. A busy answer of [fdset_try_del] says that a callback of
    the dispatcher is executing on the descriptor; the teardown then
    releases the list mutex and jumps back to [again:]. [in_flight] is
    what that callback does before the teardown takes the mutex again;
    from there on the teardown runs alone. With nothing in flight this is
    [af_unix_socket_cleanup] itself. *)
Definition af_unix_socket_cleanup_during (in_flight : M unit) (fuel : nat)
    (vs : nat) : M unit :=
  do af <- load_socket vs;
  run (if is_server (socket af) then
         run fdset_del (socket_fd af);
         run close (socket_fd af);
         unlink (path (socket af))
       else if reconnect (socket af) then
         do _ <- vhost_user_remove_reconnect vs; ret tt
       else ret tt);
  run pthread_mutex_lock (ConnQ vs);
  do af1 <- load_socket vs;
  do finished <- cleanup_connections vs (conn_list af1);
  if finished then
    run pthread_mutex_unlock (ConnQ vs);
    pthread_mutex_destroy (ConnQ vs)
  else
    run in_flight;
    cleanup_again fuel vs.
End Race.

(** ** The control buffers on the stack *)

Module Frame.
Import World AfUnix.

(** [send_fd_message] and [read_fd_message] keep their control buffer in
    a variable-length array of their own frame,
    [char control[CMSG_SPACE(n * sizeof(int))]], allocated on entry before
    any other statement. [stack] is what is left of the stack, in bytes;
    where the array does not fit the behaviour is undefined, and the run
    has no result. *)
Definition send_controllen (word fd_num : Z) : Z :=
  let fdsize := Cmsg.to_size_t word (Cmsg.to_size_t word fd_num * Sys.sizeof_int) in
  Cmsg.CMSG_SPACE word fdsize.

Definition send_fd_message_on (word stack : Z) (fuel : nat) (sockfd : Z)
    (buf : list Z) (buflen : Z) (fds : option (list Z)) (fd_num : Z) : M Z :=
  if stack <? send_controllen word fd_num then stuck
  else send_fd_message word fuel sockfd buf buflen fds fd_num.

Definition read_fd_message_on (word stack : Z) (fds0 : FdChannel.memory)
    (fd_num0 max_fds : Z) (k : FdChannel.recvmsg_result) :
    option FdChannel.read_outcome :=
  if stack <? FdChannel.controllen word max_fds then None
  else Some (FdChannel.read_fd_message word fds0 fd_num0 max_fds k).
End Frame.

(** ** Soundness of the connection lists *)

Module Sound.
Import World.

(** Every endpoint's list holds distinct addresses of allocated records,
    each pointing back to the endpoint whose list it is on. *)
Definition linked_ok (w : world) : Prop :=
  forall vs af,
    sockets w !! vs = Some af ->
    List.NoDup (conn_list af) /\
    forall p, In p (conn_list af) ->
      exists c, conns w !! p = Some c /\ vsocket c = vs.

(** The reconnect registry of [w'] is a part of that of [w]: the entries
    still listed are listed in [w], in the same order and with the same
    records, and no address free in [w] is allocated in [w']. *)
Definition shrunk (w w' : world) : Prop :=
  sublist (reconn_list w') (reconn_list w) /\
  (forall x, In x (reconn_list w') -> reconns w' !! x = reconns w !! x) /\
  (forall x, reconns w !! x = None -> reconns w' !! x = None).
End Sound.

(** ** Setting the transport up *)

(** The functions that set an endpoint up and the two callbacks the
    running transport does not call itself make calls of their own:
    [bind], [listen], [accept], [pthread_mutex_init], [TAILQ_INIT],
    [rte_ctrl_thread_create], [eventfd_write]. Their runs are traces of
    these calls and of the events of the functions above, over the same
    world and answered from the same script. *)
Module Setup.
Import World.

Inductive setup_event : Type :=
| Ran (e : event)
| EBind (fd : Z) (addr : string) (r : Z)
| EListen (fd backlog r : Z)
| EAccept (fd r : Z)
| EMutexInit (q : tailq) (r : Z)
| ETailqInit (q : tailq)
| EThreadCreate (name : string) (r : Z)
| EEventfdWrite (fd v r : Z).

Definition SetupM (A : Type) : Type := world -> option (A * world * list setup_event).

Definition sret {A} (a : A) : SetupM A := fun w => Some (a, w, []).

Definition sbind {A B} (c : SetupM A) (k : A -> SetupM B) : SetupM B :=
  fun w =>
    match c w with
    | None => None
    | Some (a, w1, t1) =>
        match k a w1 with
        | None => None
        | Some (b, w2, t2) => Some (b, w2, t1 ++ t2)
        end
    end.

(** a run of the functions above, inside a run of the set-up *)
Definition lift {A} (c : M A) : SetupM A :=
  fun w =>
    match c w with
    | None => None
    | Some (a, w1, t1) => Some (a, w1, List.map Ran t1)
    end.

Definition semit (e : setup_event) : SetupM unit := fun w => Some (tt, w, [e]).

End Setup.

Declare Scope setup_scope.
Delimit Scope setup_scope with setup.
Notation "'do' x <- c ; k" := (Setup.sbind c (fun x => k))
  (at level 10, x name, c at level 100, k at level 200,
   format "'[v' 'do'  x  <-  c ; '/' k ']'") : setup_scope.
Notation "'run' c ; k" := (Setup.sbind c (fun _ => k))
  (at level 10, c at level 100, k at level 200,
   format "'[v' 'run'  c ; '/' k ']'") : setup_scope.

Module Startup.
Import World Env AfUnix Setup.
Local Open Scope setup_scope.

Definition MAX_VIRTIO_BACKLOG : Z := 128.

(** system calls that set [errno] when they fail *)
Definition bind_call (fd : Z) (addr : string) : SetupM Z :=
  do r <- lift syscall_errno; run semit (EBind fd addr r); sret r.

Definition listen (fd backlog : Z) : SetupM Z :=
  do r <- lift syscall_errno; run semit (EListen fd backlog r); sret r.

Definition accept (fd : Z) : SetupM Z :=
  do r <- lift syscall_errno; run semit (EAccept fd r); sret r.

Definition eventfd_write (fd v : Z) : SetupM Z :=
  do r <- lift syscall_errno; run semit (EEventfdWrite fd v r); sret r.

(** calls that return their error number *)
Definition pthread_mutex_init (q : tailq) : SetupM Z :=
  do r <- lift ask; run semit (EMutexInit q r); sret r.

Definition rte_ctrl_thread_create (name : string) : SetupM Z :=
  do r <- lift ask; run semit (EThreadCreate name r); sret r.

Definition TAILQ_INIT (q : tailq) : SetupM unit :=
  run semit (ETailqInit q);
  match q with
  | ConnQ v => lift (update_socket v (set_conn_list (fun _ => [])))
  | ReconnQ => lift (modify (set_reconn_list (fun _ => [])))
  end.

(** The dispatcher's callback for a listening descriptor; [dat] is the
    endpoint it was registered with. *)
Definition vhost_user_server_new_connection (fd : Z) (dat : option nat) : SetupM unit :=
  do fd' <- accept fd;
  if fd' <? 0 then sret tt
  else lift (vhost_user_add_connection fd' dat).

(** the [err:] label of [vhost_user_start_server] *)
Definition start_server_err (fd : Z) : SetupM Z :=
  run lift (close fd); sret (-1).

(** The endpoint's address stands for the pointer to it that the
    dispatcher keeps for the callback. *)
Definition vhost_user_start_server (vs : nat) : SetupM Z :=
  do af <- lift (load_socket vs);
  let fd := socket_fd af in
  do r <- bind_call fd (un af);
  if r <? 0 then start_server_err fd
  else
    do r <- listen fd MAX_VIRTIO_BACKLOG;
    if r <? 0 then start_server_err fd
    else
      do r <- lift (fdset_add fd vhost_user_server_new_connection_ptr (Z.of_nat vs));
      if r <? 0 then start_server_err fd
      else sret 0.

(** the thread's start is the event; its turns are
    [vhost_user_client_reconnect] *)
Definition vhost_user_reconnect_init : SetupM Z :=
  do r <- pthread_mutex_init ReconnQ;
  if r <? 0 then sret r
  else
    run TAILQ_INIT ReconnQ;
    do r <- rte_ctrl_thread_create "vhost_reconn";
    run (if negb (r =? 0) then lift (pthread_mutex_destroy ReconnQ) else sret tt);
    sret r.

Definition af_unix_socket_init (vs : nat) : SetupM Z :=
  run TAILQ_INIT (ConnQ vs);
  do r <- pthread_mutex_init (ConnQ vs);
  if negb (r =? 0) then sret (-1)
  else lift (create_unix_socket vs).

Definition af_unix_socket_start (vs : nat) : SetupM Z :=
  do af <- lift (load_socket vs);
  if is_server (socket af) then vhost_user_start_server vs
  else lift (vhost_user_start_client vs).

(** [callfd] is [vq->callfd]. *)
Definition af_unix_vring_call (callfd : Z) : SetupM Z :=
  run (if 0 <=? callfd
       then do _ <- eventfd_write callfd 1; sret tt
       else sret tt);
  sret 0.

End Startup.
(** * Properties *)

(** ** Symbolic execution of world computations *)

Module Exec.
Import World Env AfUnix.

#[global] Arguments bind {_ _} _ _ _ /.
#[global] Arguments ret {_} _ _ /.
#[global] Arguments stuck {_} _ /.
#[global] Arguments emit _ _ /.
#[global] Arguments gets {_} _ _ /.
#[global] Arguments modify _ _ /.
#[global] Arguments ask _ /.
#[global] Arguments from_option {_} _ /.
#[global] Arguments when _ _ /.
#[global] Arguments set_script _ _ /.
#[global] Arguments set_conns _ _ /.
#[global] Arguments set_sockets _ _ /.
#[global] Arguments set_reconns _ _ /.
#[global] Arguments set_reconn_list _ _ /.
#[global] Arguments set_errno _ _ /.
#[global] Arguments syscall_errno /.
#[global] Arguments close _ /.
#[global] Arguments unlink _ /.
#[global] Arguments sleep _ /.
#[global] Arguments socket_call /.
#[global] Arguments fcntl _ _ _ /.
#[global] Arguments connect _ _ /.
#[global] Arguments sendmsg _ _ _ _ _ /.
#[global] Arguments vhost_new_device /.
#[global] Arguments vhost_set_ifname _ _ _ /.
#[global] Arguments vhost_set_builtin_virtio_net _ _ /.
#[global] Arguments vhost_attach_vdpa_device _ _ /.
#[global] Arguments vhost_enable_dequeue_zero_copy _ /.
#[global] Arguments get_device _ /.
#[global] Arguments vhost_destroy_device_notify _ /.
#[global] Arguments vhost_destroy_device _ /.
#[global] Arguments vhost_user_msg_handler _ _ /.
#[global] Arguments call_new_connection _ /.
#[global] Arguments call_destroy_connection _ /.
#[global] Arguments fdset_add _ _ _ /.
#[global] Arguments fdset_del _ /.
#[global] Arguments fdset_try_del _ /.
#[global] Arguments fdset_pipe_notify /.
#[global] Arguments pthread_mutex_lock _ /.
#[global] Arguments pthread_mutex_unlock _ /.
#[global] Arguments pthread_mutex_destroy _ /.
#[global] Arguments malloc_connection /.
#[global] Arguments free_connection _ /.
#[global] Arguments malloc_reconnect /.
#[global] Arguments free_reconnect _ /.
#[global] Arguments load_connection _ /.
#[global] Arguments load_reconnect _ /.
#[global] Arguments load_socket _ /.
#[global] Arguments store_connection _ _ /.
#[global] Arguments store_reconnect _ _ /.
#[global] Arguments update_socket _ _ /.
#[global] Arguments TAILQ_INSERT_TAIL _ _ /.
#[global] Arguments TAILQ_REMOVE _ _ /.
#[global] Arguments add_connection_err _ _ /.
#[global] Arguments add_connection_err_cleanup _ _ _ /.
#[global] Arguments reconnect_remove_fd _ /.

(** The functions of the file are unfolded where their own properties are
    proved and nowhere else. *)
#[global] Arguments send_fd_message : simpl never.
#[global] Arguments vhost_user_add_connection : simpl never.
#[global] Arguments create_unix_socket : simpl never.
#[global] Arguments vhost_user_connect_nonblock : simpl never.
#[global] Arguments vhost_user_start_client : simpl never.
#[global] Arguments vhost_user_read_cb : simpl never.
#[global] Arguments reconnect_entry : simpl never.
#[global] Arguments reconnect_sweep : simpl never.
#[global] Arguments vhost_user_remove_reconnect : simpl never.
#[global] Arguments af_unix_socket_cleanup : simpl never.

(** One step: compute, reuse a test already decided, or split on the next
    answer of the script, the next test, or the next pointer looked up. *)
Ltac exec_step :=
  match goal with
  | H : ?b = _ |- context [if ?b then _ else _] => rewrite H
  | H : ?m !! ?k = _ |- context [?m !! ?k] => rewrite H
  | |- context [match ?l with [] => _ | _ :: _ => _ end] => is_var l; destruct l
  | |- context [if negb ?b then _ else _] => destruct b eqn:?
  | |- context [if ?a && _ then _ else _] => destruct a eqn:?
  | |- context [if ?a || _ then _ else _] => destruct a eqn:?
  | |- context [if ?b then _ else _] => destruct b eqn:?
  | |- context [match ?m !! ?k with Some _ => _ | None => _ end] =>
      destruct (m !! k) eqn:?
  end.

Ltac exec := cbn; repeat (exec_step; cbn).

(** turn the decided tests into arithmetic facts *)
Ltac tests :=
  repeat match goal with
    | H : (_ =? _) = true |- _ => apply Z.eqb_eq in H
    | H : (_ =? _) = false |- _ => apply Z.eqb_neq in H
    | H : (_ <? _) = true |- _ => apply Z.ltb_lt in H
    | H : (_ <? _) = false |- _ => apply Z.ltb_ge in H
    | H : (_ >? _) = true |- _ => apply Z.gtb_gt in H
    | H : (_ >? _) = false |- _ => rewrite Z.gtb_ltb in H; apply Z.ltb_ge in H
    | H : negb _ = true |- _ => apply negb_true_iff in H
    | H : negb _ = false |- _ => apply negb_false_iff in H
    | H : (_ && _) = true |- _ => apply andb_true_iff in H; destruct H
    | H : (_ || _) = false |- _ => apply orb_false_iff in H; destruct H
    end.

(** a run that ended: name its parts, or dismiss it if it got stuck *)
Ltac ended :=
  match goal with
  | |- None = Some _ -> _ => discriminate
  | |- Some _ = Some _ -> _ =>
      let H := fresh "Hrun" in intros H; injection H as; subst
  end.

(** a split of a written-out trace at the place a suffix or block demands *)
Ltac split_trace :=
  lazymatch goal with
  | |- Trace.ends_with ?t ?s =>
      let n := eval cbv in (length t - length s)%nat in
      exists (firstn n t); reflexivity
  | |- exists pre, ?t = pre ++ ?s =>
      let n := eval cbv in (length t - length s)%nat in
      exists (firstn n t); reflexivity
  end.

(** membership in a written-out trace, case by case *)
Ltac in_trace :=
  repeat match goal with
    | H : In _ [] |- _ => destruct H
    | H : In _ (_ :: _) |- _ =>
        destruct H as [H | H]; [try discriminate; try (injection H as; subst) |]
    end.
End Exec.

(** ** Lists of pointers and traces *)

Module ListFacts.
Import World Env.

Lemma in_remove_ptr (x q : Z) (l : list Z) :
  In x (remove_ptr q l) <-> In x l /\ x <> q.
Proof.
  unfold remove_ptr. rewrite filter_In. split; intros [H1 H2]; split; try assumption.
  - apply negb_true_iff, Z.eqb_neq in H2. exact H2.
  - apply negb_true_iff, Z.eqb_neq. exact H2.
Qed.

Lemma remove_ptr_head (p : Z) (l : list Z) :
  ~ In p l -> remove_ptr p (p :: l) = l.
Proof.
  intros Hn. unfold remove_ptr. cbn. rewrite Z.eqb_refl. cbn.
  induction l as [| q l IH]; [reflexivity |].
  cbn. destruct (Z.eqb_spec q p) as [-> | Hne].
  - exfalso. apply Hn. left. reflexivity.
  - cbn. f_equal. apply IH. intros Hin. apply Hn. right. exact Hin.
Qed.

End ListFacts.

(** ** The layout of control messages *)

Module LayoutFacts.

Lemma land_align (k n y : Z) :
  0 <= k <= n -> 0 <= y < 2 ^ n ->
  Z.land y (Z.lnot (2 ^ k - 1) mod 2 ^ n) = 2 ^ k * (y / 2 ^ k).
Proof.
  intros Hk Hy.
  rewrite <- (Z.land_ones (Z.lnot (2 ^ k - 1)) n) by lia.
  rewrite (Z.land_comm (Z.lnot _)), Z.land_assoc.
  rewrite (Z.land_ones y n) by lia. rewrite (Z.mod_small y) by lia.
  rewrite <- Z.ldiff_land.
  replace (2 ^ k - 1) with (Z.ones k) by (rewrite Z.ones_equiv; lia).
  rewrite Z.ldiff_ones_r by lia.
  rewrite Z.shiftl_mul_pow2, Z.shiftr_div_pow2 by lia. lia.
Qed.

Lemma CMSG_ALIGN_LP64 (x : Z) :
  0 <= x < 2 ^ 63 -> Cmsg.CMSG_ALIGN Cmsg.LP64 x = 8 * ((x + 7) / 8).
Proof.
  intros Hx. unfold Cmsg.CMSG_ALIGN, Cmsg.to_size_t, Cmsg.size_t_mod, Cmsg.LP64.
  change (8 * 8) with 64. rewrite (Z.mod_small (x + 8 - 1)) by lia.
  change (8 - 1) with (2 ^ 3 - 1).
  rewrite land_align by lia. change (2 ^ 3) with 8. f_equal. f_equal. lia.
Qed.

Lemma CMSG_ALIGN_ILP32 (x : Z) :
  0 <= x < 2 ^ 31 -> Cmsg.CMSG_ALIGN Cmsg.ILP32 x = 4 * ((x + 3) / 4).
Proof.
  intros Hx. unfold Cmsg.CMSG_ALIGN, Cmsg.to_size_t, Cmsg.size_t_mod, Cmsg.ILP32.
  change (8 * 4) with 32. rewrite (Z.mod_small (x + 4 - 1)) by lia.
  change (4 - 1) with (2 ^ 2 - 1).
  rewrite land_align by lia. change (2 ^ 2) with 4. f_equal. f_equal. lia.
Qed.

Lemma CMSG_SPACE_LP64 (x : Z) :
  0 <= x < 2 ^ 62 -> Cmsg.CMSG_SPACE Cmsg.LP64 x = 8 * ((x + 7) / 8) + 16.
Proof.
  intros Hx. unfold Cmsg.CMSG_SPACE. rewrite CMSG_ALIGN_LP64 by lia.
  replace (Cmsg.CMSG_ALIGN Cmsg.LP64 (Cmsg.sizeof_cmsghdr Cmsg.LP64)) with 16
    by (vm_compute; reflexivity).
  unfold Cmsg.to_size_t, Cmsg.size_t_mod, Cmsg.LP64. change (8 * 8) with 64.
  apply Z.mod_small.
  pose proof (Z.div_mod (x + 7) 8 ltac:(lia)) as Hd.
  pose proof (Z.mod_pos_bound (x + 7) 8 ltac:(lia)) as Hm.
  change (2 ^ 64) with 18446744073709551616.
  change (2 ^ 62) with 4611686018427387904 in Hx. lia.
Qed.

Lemma CMSG_SPACE_ILP32 (x : Z) :
  0 <= x < 2 ^ 30 -> Cmsg.CMSG_SPACE Cmsg.ILP32 x = 4 * ((x + 3) / 4) + 12.
Proof.
  intros Hx. unfold Cmsg.CMSG_SPACE. rewrite CMSG_ALIGN_ILP32 by lia.
  replace (Cmsg.CMSG_ALIGN Cmsg.ILP32 (Cmsg.sizeof_cmsghdr Cmsg.ILP32)) with 12
    by (vm_compute; reflexivity).
  unfold Cmsg.to_size_t, Cmsg.size_t_mod, Cmsg.ILP32. change (8 * 4) with 32.
  apply Z.mod_small.
  pose proof (Z.div_mod (x + 3) 4 ltac:(lia)) as Hd.
  pose proof (Z.mod_pos_bound (x + 3) 4 ltac:(lia)) as Hm.
  change (2 ^ 32) with 4294967296.
  change (2 ^ 30) with 1073741824 in Hx. lia.
Qed.

End LayoutFacts.

(** ** Receiving *)

Module ReceiveFacts.
Import FdChannel LayoutFacts.

Lemma trunc_mask_bits (n : Z) :
  Z.testbit (Z.lor Sys.MSG_TRUNC Sys.MSG_CTRUNC) n = (n =? 3) || (n =? 5).
Proof.
  destruct (Z.ltb_spec n 0) as [Hneg | Hnn].
  - rewrite Z.testbit_neg_r by assumption.
    destruct (Z.eqb_spec n 3); [lia |]. destruct (Z.eqb_spec n 5); [lia | reflexivity].
  - destruct (Z.ltb_spec n 6) as [Hsmall | Hbig].
    + assert (Hc : n = 0 \/ n = 1 \/ n = 2 \/ n = 3 \/ n = 4 \/ n = 5) by lia.
      destruct Hc as [-> | [-> | [-> | [-> | [-> | ->]]]]]; reflexivity.
    + rewrite Z.bits_above_log2; [| cbv; discriminate | change (5 < n); lia].
      destruct (Z.eqb_spec n 3); [lia |]. destruct (Z.eqb_spec n 5); [lia | reflexivity].
Qed.

Lemma truncated_iff (k : recvmsg_result) :
  truncated k <->
  Z.land (msg_flags k) (Z.lor Sys.MSG_TRUNC Sys.MSG_CTRUNC) <> 0.
Proof.
  unfold truncated. split.
  - intros H E.
    assert (Hb : forall n, Z.testbit (msg_flags k) n && ((n =? 3) || (n =? 5)) = false).
    { intros n. rewrite <- trunc_mask_bits, <- Z.land_spec, E. apply Z.bits_0. }
    destruct H as [H | H].
    + specialize (Hb 5). rewrite H in Hb. discriminate.
    + specialize (Hb 3). rewrite H in Hb. discriminate.
  - intros H.
    destruct (Z.testbit (msg_flags k) 5) eqn:E5; [left; reflexivity |].
    destruct (Z.testbit (msg_flags k) 3) eqn:E3; [right; reflexivity |].
    exfalso. apply H. apply Z.bits_inj'. intros n _.
    rewrite Z.land_spec, trunc_mask_bits, Z.bits_0.
    destruct (Z.eqb_spec n 3) as [-> | ?]; [rewrite E3; reflexivity |].
    destruct (Z.eqb_spec n 5) as [-> | ?]; [rewrite E5; reflexivity |].
    apply andb_false_r.
Qed.

Lemma clear_unused_spec (n : nat) (m : memory) (g i : Z) :
  clear_unused m g n i =
  if (g <=? i) && (i <? g + Z.of_nat n) then -1 else m i.
Proof.
  revert m g. induction n as [| n IH]; intros m g.
  - cbn [clear_unused].
    destruct (Z.leb_spec g i), (Z.ltb_spec i (g + Z.of_nat 0)); simpl; try reflexivity; lia.
  - cbn [clear_unused]. rewrite IH. unfold store.
    destruct (Z.eq_dec i g) as [-> | Hne].
    + destruct (Z.leb_spec (g + 1) g); [lia |].
      destruct (Z.leb_spec g g), (Z.ltb_spec g (g + Z.of_nat (S n))); simpl; try reflexivity; lia.
    + destruct (Z.leb_spec (g + 1) i), (Z.ltb_spec i (g + 1 + Z.of_nat n)),
        (Z.leb_spec g i), (Z.ltb_spec i (g + Z.of_nat (S n))); simpl; try reflexivity; lia.
Qed.

Lemma memcpy_ints_spec (n : nat) (m : memory) (src : list Z) (i j : Z) :
  memcpy_ints m i src n j =
  if (i <=? j) && (j <? i + Z.of_nat n) then nth (Z.to_nat (j - i)) src 0 else m j.
Proof.
  revert m src i. induction n as [| n IH]; intros m src i.
  - cbn [memcpy_ints].
    destruct (Z.leb_spec i j), (Z.ltb_spec j (i + Z.of_nat 0)); simpl; try reflexivity; lia.
  - cbn [memcpy_ints]. rewrite IH. unfold store.
    destruct (Z.eq_dec j i) as [-> | Hne].
    + destruct (Z.leb_spec (i + 1) i); [lia |].
      destruct (Z.leb_spec i i), (Z.ltb_spec i (i + Z.of_nat (S n))); simpl; try lia.
      rewrite Z.sub_diag. reflexivity.
    + destruct (Z.leb_spec (i + 1) j), (Z.ltb_spec j (i + 1 + Z.of_nat n)),
        (Z.leb_spec i j), (Z.ltb_spec j (i + Z.of_nat (S n))); simpl; try reflexivity; try lia.
      replace (Z.to_nat (j - i)) with (S (Z.to_nat (j - (i + 1)))) by lia.
      destruct src; [destruct (Z.to_nat (j - (i + 1))) |]; reflexivity.
Qed.

Lemma to_int_small (z : Z) : 0 <= z < 2 ^ 31 -> Sys.to_int z = z.
Proof.
  intros Hz. unfold Sys.to_int.
  change (2 ^ 31) with 2147483648 in *. change (2 ^ 32) with 4294967296.
  rewrite Z.mod_small by lia. lia.
Qed.

(** On LP64 a record that fits the control buffer carries at most one
    descriptor more than the capacity, and none more when the capacity is
    even; the count, the number of words copied and [*fd_num] agree. *)
Lemma count_fds_bound_LP64 (max_fds : Z) (c : cmsghdr) :
  0 <= max_fds < 2 ^ 28 ->
  fits Cmsg.LP64 max_fds c ->
  0 <= count_fds Cmsg.LP64 c <= max_fds + max_fds mod 2 /\
  Z.of_nat (memcpy_words Cmsg.LP64 (count_fds Cmsg.LP64 c)) = count_fds Cmsg.LP64 c.
Proof.
  intros Hmax [[Hlo Hhi] _].
  change (Cmsg.CMSG_LEN Cmsg.LP64 0) with 16 in Hlo.
  unfold controllen in Hhi.
  change (2 ^ 28) with 268435456 in Hmax.
  assert (Hsz : Cmsg.to_size_t Cmsg.LP64 max_fds = max_fds).
  { unfold Cmsg.to_size_t, Cmsg.size_t_mod, Cmsg.LP64. change (2 ^ (8 * 8)) with 18446744073709551616.
    apply Z.mod_small. lia. }
  rewrite Hsz in Hhi. unfold Sys.sizeof_int in Hhi.
  rewrite CMSG_SPACE_LP64 in Hhi by (change (2 ^ 62) with 4611686018427387904; lia).
  pose proof (Z.div_mod (max_fds * 4 + 7) 8 ltac:(lia)) as Hq.
  pose proof (Z.mod_pos_bound (max_fds * 4 + 7) 8 ltac:(lia)) as Hqm.
  pose proof (Z.div_mod max_fds 2 ltac:(lia)) as Hp.
  pose proof (Z.mod_pos_bound max_fds 2 ltac:(lia)) as Hpm.
  set (d := cmsg_len c - 16) in *.
  assert (Hd : 0 <= d <= 8 * ((max_fds * 4 + 7) / 8)) by (unfold d; lia).
  assert (Hcount : count_fds Cmsg.LP64 c = d / 4).
  { unfold count_fds. change (Cmsg.CMSG_LEN Cmsg.LP64 0) with 16. fold d.
    unfold Cmsg.to_size_t, Cmsg.size_t_mod, Cmsg.LP64, Sys.sizeof_int.
    change (2 ^ (8 * 8)) with 18446744073709551616.
    rewrite (Z.mod_small d) by lia.
    apply to_int_small. change (2 ^ 31) with 2147483648.
    split; [apply Z.div_pos; lia |]. apply Z.div_lt_upper_bound; lia. }
  pose proof (Z.div_mod d 4 ltac:(lia)) as Hd4.
  pose proof (Z.mod_pos_bound d 4 ltac:(lia)) as Hd4m.
  rewrite Hcount. split; [lia |].
  unfold memcpy_words, Cmsg.to_size_t, Cmsg.size_t_mod, Cmsg.LP64, Sys.sizeof_int.
  change (2 ^ (8 * 8)) with 18446744073709551616.
  rewrite (Z.mod_small (d / 4)) by lia.
  rewrite (Z.mod_small (d / 4 * 4)) by lia.
  rewrite Z.div_mul by lia. lia.
Qed.

(** On ILP32 the control buffer has no padding and the capacity bounds the
    count. *)
Lemma count_fds_bound_ILP32 (max_fds : Z) (c : cmsghdr) :
  0 <= max_fds < 2 ^ 28 ->
  fits Cmsg.ILP32 max_fds c ->
  0 <= count_fds Cmsg.ILP32 c <= max_fds /\
  Z.of_nat (memcpy_words Cmsg.ILP32 (count_fds Cmsg.ILP32 c)) = count_fds Cmsg.ILP32 c.
Proof.
  intros Hmax [[Hlo Hhi] _].
  change (Cmsg.CMSG_LEN Cmsg.ILP32 0) with 12 in Hlo.
  unfold controllen in Hhi.
  change (2 ^ 28) with 268435456 in Hmax.
  assert (Hsz : Cmsg.to_size_t Cmsg.ILP32 max_fds = max_fds).
  { unfold Cmsg.to_size_t, Cmsg.size_t_mod, Cmsg.ILP32. change (2 ^ (8 * 4)) with 4294967296.
    apply Z.mod_small. lia. }
  rewrite Hsz in Hhi. unfold Sys.sizeof_int in Hhi.
  rewrite CMSG_SPACE_ILP32 in Hhi by (change (2 ^ 30) with 1073741824; lia).
  pose proof (Z.div_mod (max_fds * 4 + 3) 4 ltac:(lia)) as Hq.
  pose proof (Z.mod_pos_bound (max_fds * 4 + 3) 4 ltac:(lia)) as Hqm.
  set (d := cmsg_len c - 12) in *.
  assert (Hd : 0 <= d <= 4 * ((max_fds * 4 + 3) / 4)) by (unfold d; lia).
  assert (Hcount : count_fds Cmsg.ILP32 c = d / 4).
  { unfold count_fds. change (Cmsg.CMSG_LEN Cmsg.ILP32 0) with 12. fold d.
    unfold Cmsg.to_size_t, Cmsg.size_t_mod, Cmsg.ILP32, Sys.sizeof_int.
    change (2 ^ (8 * 4)) with 4294967296.
    rewrite (Z.mod_small d) by lia.
    apply to_int_small. change (2 ^ 31) with 2147483648.
    split; [apply Z.div_pos; lia |]. apply Z.div_lt_upper_bound; lia. }
  pose proof (Z.div_mod d 4 ltac:(lia)) as Hd4.
  pose proof (Z.mod_pos_bound d 4 ltac:(lia)) as Hd4m.
  rewrite Hcount. split; [lia |].
  unfold memcpy_words, Cmsg.to_size_t, Cmsg.size_t_mod, Cmsg.ILP32, Sys.sizeof_int.
  change (2 ^ (8 * 4)) with 4294967296.
  rewrite (Z.mod_small (d / 4)) by lia.
  rewrite (Z.mod_small (d / 4 * 4)) by lia.
  rewrite Z.div_mul by lia. lia.
Qed.


(** Every successful receive leaves the sentinel in the slots from the
    reported count up to the capacity. *)
Lemma read_fd_message_marks_unfilled (word : Z) (fds0 : memory)
    (fd_num0 max_fds : Z) (k : recvmsg_result) (i : Z) :
  0 < rv k -> ~ truncated k ->
  fd_num (read_fd_message word fds0 fd_num0 max_fds k) <= i < max_fds ->
  fds (read_fd_message word fds0 fd_num0 max_fds k) i = -1.
Proof.
  intros Hrv Htr. rewrite truncated_iff in Htr. unfold read_fd_message.
  destruct (Z.leb_spec (rv k) 0); [lia |].
  destruct (Z.eqb_spec (Z.land (msg_flags k) (Z.lor Sys.MSG_TRUNC Sys.MSG_CTRUNC)) 0);
    [| contradiction].
  cbn [negb]. destruct (find is_rights (msg_control k)) as [c |]; cbn [fd_num fds].
  - intros Hi. rewrite clear_unused_spec.
    destruct (Z.leb_spec (count_fds word c) i); [| lia].
    destruct (Z.ltb_spec i (count_fds word c + Z.of_nat (Z.to_nat (max_fds - count_fds word c))));
      [reflexivity | lia].
  - intros Hi. rewrite clear_unused_spec.
    destruct (Z.leb_spec 0 i); [| lia].
    destruct (Z.ltb_spec i (0 + Z.of_nat (Z.to_nat (max_fds - 0)))); [reflexivity | lia].
Qed.

(** A successful receive that found a rights record reports its count and
    has its descriptors in the first slots, provided the count is one
    [memcpy] can be asked for. *)
Lemma read_fd_message_copies_record (word : Z) (fds0 : memory)
    (fd_num0 max_fds : Z) (k : recvmsg_result) (c : cmsghdr) :
  0 < rv k -> ~ truncated k ->
  find is_rights (msg_control k) = Some c ->
  Z.of_nat (memcpy_words word (count_fds word c)) = count_fds word c ->
  fd_num (read_fd_message word fds0 fd_num0 max_fds k) = count_fds word c /\
  copied (read_fd_message word fds0 fd_num0 max_fds k) = count_fds word c /\
  forall i, 0 <= i < count_fds word c ->
    fds (read_fd_message word fds0 fd_num0 max_fds k) i =
    nth (Z.to_nat i) (cmsg_data c) 0.
Proof.
  intros Hrv Htr Hfind Hwords. rewrite truncated_iff in Htr. unfold read_fd_message.
  destruct (Z.leb_spec (rv k) 0); [lia |].
  destruct (Z.eqb_spec (Z.land (msg_flags k) (Z.lor Sys.MSG_TRUNC Sys.MSG_CTRUNC)) 0);
    [| contradiction].
  cbn [negb]. rewrite Hfind. cbn [fd_num fds copied].
  split; [reflexivity |]. split; [exact Hwords |].
  intros i Hi. rewrite clear_unused_spec.
  destruct (Z.leb_spec (count_fds word c) i); [lia |]. cbn [andb].
  rewrite memcpy_ints_spec, Hwords.
  destruct (Z.leb_spec 0 i); [| lia].
  destruct (Z.ltb_spec i (0 + count_fds word c)); [| lia].
  cbn [andb]. rewrite Z.sub_0_r. reflexivity.
Qed.

(** With an even capacity on LP64 the claim of C4 holds: what is copied is
    within the capacity and is what is reported. *)
Lemma read_fd_message_even_capacity (fds0 : memory) (fd_num0 max_fds : Z)
    (k : recvmsg_result) (c : cmsghdr) :
  0 <= max_fds < 2 ^ 28 -> max_fds mod 2 = 0 ->
  0 < rv k -> ~ truncated k ->
  find is_rights (msg_control k) = Some c ->
  fits Cmsg.LP64 max_fds c ->
  0 <= copied (read_fd_message Cmsg.LP64 fds0 fd_num0 max_fds k) <= max_fds /\
  fd_num (read_fd_message Cmsg.LP64 fds0 fd_num0 max_fds k) =
    copied (read_fd_message Cmsg.LP64 fds0 fd_num0 max_fds k).
Proof.
  intros Hmax Heven Hrv Htr Hfind Hfits.
  destruct (count_fds_bound_LP64 max_fds c Hmax Hfits) as [Hb Hw].
  destruct (read_fd_message_copies_record Cmsg.LP64 fds0 fd_num0 max_fds k c
              Hrv Htr Hfind Hw) as (Hn & Hc & _).
  rewrite Hn, Hc. split; [lia | reflexivity].
Qed.

(** C10: [*fd_num] is zeroed before the receive, and every failure return
    (receive error, orderly close, truncation) leaves it at 0 and leaves
    the caller's [fds] memory as it was; [fds] is written on the success
    path only. *)
Theorem read_fd_message_failure_frame (word : Z) (fds0 : memory)
    (fd_num0 max_fds : Z) (k : recvmsg_result) :
  ret (read_fd_message word fds0 fd_num0 max_fds k) <= 0 ->
  fd_num (read_fd_message word fds0 fd_num0 max_fds k) = 0 /\
  fds (read_fd_message word fds0 fd_num0 max_fds k) = fds0 /\
  copied (read_fd_message word fds0 fd_num0 max_fds k) = 0.
Proof.
  unfold read_fd_message.
  destruct (Z.leb_spec (rv k) 0) as [Hle | Hgt].
  - intros _. repeat split.
  - destruct (Z.land (msg_flags k) (Z.lor Sys.MSG_TRUNC Sys.MSG_CTRUNC) =? 0);
      cbn [negb].
    + destruct (find (is_rights) (msg_control k)); cbn [ret]; lia.
    + intros _. repeat split.
Qed.

Lemma read_fd_message_failure_frame_witness :
  let k := {| rv := 4; msg_flags := Sys.MSG_CTRUNC;
              msg_control := [ {| cmsg_len := 20; cmsg_level := 1; cmsg_type := 1;
                                  cmsg_data := [7] |} ] |} in
  let r := read_fd_message Cmsg.LP64 (fun _ => 99) 5 1 k in
  ret r = -1 /\ fd_num r = 0 /\ fds r = (fun _ => 99) /\ copied r = 0.
Proof.
  intros k r. split; [reflexivity |].
  apply (read_fd_message_failure_frame Cmsg.LP64 (fun _ => 99) 5 1 k).
  vm_compute. discriminate.
Defined.

(** C5: the receive fails exactly when [recvmsg] returned a value <= 0 or
    the kernel flagged truncation. A [recvmsg] failure is passed on as it
    is, so an orderly close (0) and an error (negative) stay apart; a
    truncation is answered at once with -1 and its own log line, no second
    receive is made; every other receive returns the byte count. *)
Theorem read_fd_message_fails_exactly (word : Z) (fds0 : memory)
    (fd_num0 max_fds : Z) (k : recvmsg_result) :
  (ret (read_fd_message word fds0 fd_num0 max_fds k) <= 0 <->
     rv k <= 0 \/ truncated k) /\
  (rv k <= 0 ->
     ret (read_fd_message word fds0 fd_num0 max_fds k) = rv k /\
     logged (read_fd_message word fds0 fd_num0 max_fds k) = Some "recvmsg failed"%string) /\
  (0 < rv k -> truncated k ->
     ret (read_fd_message word fds0 fd_num0 max_fds k) = -1 /\
     logged (read_fd_message word fds0 fd_num0 max_fds k) = Some "truncted msg"%string) /\
  (0 < rv k -> ~ truncated k ->
     ret (read_fd_message word fds0 fd_num0 max_fds k) = rv k /\
     logged (read_fd_message word fds0 fd_num0 max_fds k) = None).
Proof.
  rewrite truncated_iff. unfold read_fd_message.
  destruct (Z.leb_spec (rv k) 0) as [Hle | Hgt].
  - cbn [ret logged]. repeat split; lia.
  - destruct (Z.eqb_spec (Z.land (msg_flags k) (Z.lor Sys.MSG_TRUNC Sys.MSG_CTRUNC)) 0)
      as [E | E]; cbn [negb].
    + destruct (find (is_rights) (msg_control k)); cbn [ret logged].
      all: repeat split; try lia; try tauto; try (intros [? | ?]; [lia | tauto]).
    + cbn [ret logged]. repeat split; try lia; try tauto.
Qed.

(** C4, at the input where the code departs from the claim: capacity 1 on
    LP64. The control buffer the code declares is 24 bytes, a record with
    two descriptors is 24 bytes and fits, truncation is not flagged, and
    both descriptors are copied: the second lands behind the caller's
    one-slot array and [*fd_num] is 2. *)
Theorem read_fd_message_odd_capacity_overrun (fds0 : memory) (fd_num0 : Z) :
  let c := {| cmsg_len := 24; cmsg_level := Sys.SOL_SOCKET;
              cmsg_type := Sys.SCM_RIGHTS; cmsg_data := [7; 8] |} in
  let k := {| rv := 4; msg_flags := 0; msg_control := [c] |} in
  let max_fds := 1 in
  controllen Cmsg.LP64 max_fds = 24 /\
  fits Cmsg.LP64 max_fds c /\
  ret (read_fd_message Cmsg.LP64 fds0 fd_num0 max_fds k) = 4 /\
  copied (read_fd_message Cmsg.LP64 fds0 fd_num0 max_fds k) = 2 /\
  fd_num (read_fd_message Cmsg.LP64 fds0 fd_num0 max_fds k) = 2 /\
  fds (read_fd_message Cmsg.LP64 fds0 fd_num0 max_fds k) 0 = 7 /\
  fds (read_fd_message Cmsg.LP64 fds0 fd_num0 max_fds k) max_fds = 8.
Proof.
  cbv zeta. repeat split; try reflexivity; vm_compute; congruence.
Qed.

End ReceiveFacts.

(** ** Sending *)

Module SendFacts.
Import World Env AfUnix Trace Exec.

Lemma sendmsg_retry_spec (n : nat) :
  forall (fuel : nat) (w : world) (sockfd : Z) (buf : list Z) (buflen : Z)
         (control : option (Z * list Z)) (r e : Z) (rest : list Z),
    script w = interrupted n ++ sendmsg_answer r e ++ rest ->
    (r < 0 -> e <> Sys.EINTR) ->
    (n < fuel)%nat ->
    sendmsg_retry fuel sockfd buf buflen control w =
    Some (r,
          set_script rest (set_errno (errno_after n r e w) w),
          repeat (ESendmsg sockfd buf buflen control Sys.MSG_NOSIGNAL (-1)) n ++
          [ESendmsg sockfd buf buflen control Sys.MSG_NOSIGNAL r]).
Proof.
  induction n as [| n IH]; intros fuel w sockfd buf buflen control r e rest Hs He Hf.
  - destruct fuel as [| fuel]; [lia |]. destruct w as [S C R RL E sc].
    cbn [script interrupted app] in Hs. subst sc.
    unfold sendmsg_answer, errno_after.
    destruct (r <? 0) eqn:Hr; do 3 (cbn; rewrite ?Hr); [| reflexivity].
    apply Z.ltb_lt in Hr.
    destruct (Z.eqb_spec e Sys.EINTR) as [-> | _]; [specialize (He Hr); congruence |].
    reflexivity.
  - destruct fuel as [| fuel]; [lia |]. destruct w as [S C R RL E sc].
    cbn [script interrupted app] in Hs. subst sc. cbn.
    rewrite (IH fuel _ sockfd buf buflen control r e rest); [| reflexivity | assumption | lia].
    cbn. unfold errno_after. cbn. destruct (r <? 0), n; reflexivity.
Qed.

Lemma send_loop_spec (n fuel : nat) (sockfd : Z) (buf : list Z) (buflen : Z)
    (control : option (Z * list Z)) (r e : Z) (rest : list Z) (w : world) :
  script w = interrupted n ++ sendmsg_answer r e ++ rest ->
  (r < 0 -> e <> Sys.EINTR) ->
  (n < fuel)%nat ->
  exists w',
    (do r0 <- sendmsg_retry fuel sockfd buf buflen control;
     if r0 <? 0 then ret r0 else ret r0)%world w =
    Some (r, w',
          repeat (ESendmsg sockfd buf buflen control Sys.MSG_NOSIGNAL (-1)) n ++
          [ESendmsg sockfd buf buflen control Sys.MSG_NOSIGNAL r]) /\
    script w' = rest /\
    (r < 0 -> errno w' = e /\ errno w' <> Sys.EINTR).
Proof.
  intros Hs He Hf. cbn.
  rewrite (sendmsg_retry_spec n fuel w sockfd buf buflen control r e rest Hs He Hf).
  eexists. split.
  - destruct (r <? 0); cbn; rewrite app_nil_r; reflexivity.
  - split; [reflexivity |]. intros Hneg. cbn. unfold errno_after.
    apply Z.ltb_lt in Hneg as Hb. rewrite Hb. split; [reflexivity | auto].
Qed.

(** On LP64 the control buffer of a send always has room for a header:
    CMSG_FIRSTHDR is never NULL there. *)
Lemma control_holds_header_LP64 (fd_num : Z) :
  0 <= fd_num < 2 ^ 28 ->
  Cmsg.sizeof_cmsghdr Cmsg.LP64 <=
  Cmsg.CMSG_SPACE Cmsg.LP64
    (Cmsg.to_size_t Cmsg.LP64 (Cmsg.to_size_t Cmsg.LP64 fd_num * Sys.sizeof_int)).
Proof.
  intros Hn. change (2 ^ 28) with 268435456 in Hn.
  assert (Hsz : Cmsg.to_size_t Cmsg.LP64 (Cmsg.to_size_t Cmsg.LP64 fd_num * Sys.sizeof_int)
                = fd_num * 4).
  { unfold Cmsg.to_size_t, Cmsg.size_t_mod, Cmsg.LP64, Sys.sizeof_int.
    change (2 ^ (8 * 8)) with 18446744073709551616.
    rewrite (Z.mod_small fd_num) by lia. apply Z.mod_small. lia. }
  rewrite Hsz, LayoutFacts.CMSG_SPACE_LP64
    by (change (2 ^ 62) with 4611686018427387904; lia).
  change (Cmsg.sizeof_cmsghdr Cmsg.LP64) with 16.
  pose proof (Z.div_mod (fd_num * 4 + 7) 8 ltac:(lia)).
  pose proof (Z.mod_pos_bound (fd_num * 4 + 7) 8 ltac:(lia)). lia.
Qed.

(** C6: whatever number [n] of calls of [sendmsg] fail with EINTR before one
    does not, [send_fd_message] makes [n + 1] calls, each with MSG_NOSIGNAL,
    and returns what the last one returned: the byte count on success, the
    negative value on failure (a broken pipe included), and then [errno] is
    that call's error, never EINTR. The one case in which no call is made is
    a control buffer too small for a header, answered with -1 and EINVAL. *)
Theorem send_fd_message_retries_interrupted (word : Z) (n fuel : nat)
    (sockfd : Z) (buf : list Z) (buflen : Z) (fds : option (list Z)) (fd_num : Z)
    (r e : Z) (rest : list Z) (w : world) :
  script w = interrupted n ++ sendmsg_answer r e ++ rest ->
  (r < 0 -> e <> Sys.EINTR) ->
  (n < fuel)%nat ->
  exists w' control,
    (send_fd_message word fuel sockfd buf buflen fds fd_num w =
       Some (r, w',
             repeat (ESendmsg sockfd buf buflen control Sys.MSG_NOSIGNAL (-1)) n ++
             [ESendmsg sockfd buf buflen control Sys.MSG_NOSIGNAL r]) /\
     script w' = rest /\
     (r < 0 -> errno w' = e /\ errno w' <> Sys.EINTR))
    \/
    (send_fd_message word fuel sockfd buf buflen fds fd_num w = Some (-1, w', []) /\
     errno w' = Sys.EINVAL /\ script w' = script w /\
     fds <> None /\ 0 < fd_num /\
     Cmsg.CMSG_SPACE word
       (Cmsg.to_size_t word (Cmsg.to_size_t word fd_num * Sys.sizeof_int))
     < Cmsg.sizeof_cmsghdr word).
Proof.
  intros Hs He Hf.
  pose proof (fun control =>
    send_loop_spec n fuel sockfd buf buflen control r e rest w Hs He Hf) as Hloop.
  unfold send_fd_message.
  destruct fds as [arr |].
  - destruct (fd_num >? 0) eqn:Hnum.
    + destruct (_ <? Cmsg.sizeof_cmsghdr word) eqn:Hsmall.
      * exists (set_errno Sys.EINVAL w), None. right. cbn.
        repeat split; try discriminate; tests; lia.
      * destruct (Hloop (Some
          (Cmsg.CMSG_LEN word
             (Cmsg.to_size_t word (Cmsg.to_size_t word fd_num * Sys.sizeof_int)),
           firstn (Z.to_nat
             (Cmsg.to_size_t word (Cmsg.to_size_t word fd_num * Sys.sizeof_int)
              / Sys.sizeof_int)) arr))) as (w' & H).
        exists w'. eexists. left. exact H.
    + destruct (Hloop None) as (w' & H). exists w', None. left. exact H.
  - destruct (Hloop None) as (w' & H). exists w', None. left. exact H.
Qed.

Lemma send_fd_message_retries_interrupted_witness :
  exists w' control,
    (send_fd_message Cmsg.LP64 3 9 [112; 105; 110; 103] 4 (Some [5]) 1
       (Demo.world_of (Demo.endpoint false true []) ∅ ∅ [] 0
          (interrupted 2 ++ sendmsg_answer (-1) Sys.EPIPE ++ [])) =
       Some (-1, w',
             repeat (ESendmsg 9 [112; 105; 110; 103] 4 control Sys.MSG_NOSIGNAL (-1)) 2 ++
             [ESendmsg 9 [112; 105; 110; 103] 4 control Sys.MSG_NOSIGNAL (-1)]) /\
     script w' = [] /\
     (-1 < 0 -> errno w' = Sys.EPIPE /\ errno w' <> Sys.EINTR))
    \/
    (send_fd_message Cmsg.LP64 3 9 [112; 105; 110; 103] 4 (Some [5]) 1
       (Demo.world_of (Demo.endpoint false true []) ∅ ∅ [] 0
          (interrupted 2 ++ sendmsg_answer (-1) Sys.EPIPE ++ [])) = Some (-1, w', []) /\
     errno w' = Sys.EINVAL /\
     script w' = script (Demo.world_of (Demo.endpoint false true []) ∅ ∅ [] 0
                           (interrupted 2 ++ sendmsg_answer (-1) Sys.EPIPE ++ [])) /\
     Some [5] <> None /\ 0 < 1 /\
     Cmsg.CMSG_SPACE Cmsg.LP64
       (Cmsg.to_size_t Cmsg.LP64 (Cmsg.to_size_t Cmsg.LP64 1 * Sys.sizeof_int))
     < Cmsg.sizeof_cmsghdr Cmsg.LP64).
Proof.
  apply (send_fd_message_retries_interrupted Cmsg.LP64 2 3 9 [112; 105; 110; 103] 4
           (Some [5]) 1 (-1) Sys.EPIPE []).
  - reflexivity.
  - intros _. vm_compute. discriminate.
  - lia.
Defined.

(** On LP64, for every descriptor count, the send reaches [sendmsg]: with
    descriptors attached the calls carry one SCM_RIGHTS record holding
    them. *)
Lemma send_fd_message_LP64_attaches (n fuel : nat)
    (sockfd : Z) (buf : list Z) (buflen : Z) (arr : list Z) (fd_num : Z)
    (r e : Z) (rest : list Z) (w : world) :
  script w = interrupted n ++ sendmsg_answer r e ++ rest ->
  (r < 0 -> e <> Sys.EINTR) ->
  (n < fuel)%nat ->
  0 < fd_num < 2 ^ 28 ->
  exists w',
    send_fd_message Cmsg.LP64 fuel sockfd buf buflen (Some arr) fd_num w =
      Some (r, w',
            repeat (ESendmsg sockfd buf buflen
                      (Some (16 + fd_num * 4, firstn (Z.to_nat fd_num) arr))
                      Sys.MSG_NOSIGNAL (-1)) n ++
            [ESendmsg sockfd buf buflen
               (Some (16 + fd_num * 4, firstn (Z.to_nat fd_num) arr))
               Sys.MSG_NOSIGNAL r]) /\
    script w' = rest /\
    (r < 0 -> errno w' = e /\ errno w' <> Sys.EINTR).
Proof.
  intros Hs He Hf Hn.
  pose proof (control_holds_header_LP64 fd_num ltac:(lia)) as Hhdr.
  change (2 ^ 28) with 268435456 in Hn.
  assert (Hsz : Cmsg.to_size_t Cmsg.LP64 (Cmsg.to_size_t Cmsg.LP64 fd_num * Sys.sizeof_int)
                = fd_num * 4).
  { unfold Cmsg.to_size_t, Cmsg.size_t_mod, Cmsg.LP64, Sys.sizeof_int.
    change (2 ^ (8 * 8)) with 18446744073709551616.
    rewrite (Z.mod_small fd_num) by lia. apply Z.mod_small. lia. }
  unfold send_fd_message.
  destruct (Z.gtb_spec fd_num 0) as [_ | Hle]; [| lia].
  destruct (Z.ltb_spec
              (Cmsg.CMSG_SPACE Cmsg.LP64
                 (Cmsg.to_size_t Cmsg.LP64
                    (Cmsg.to_size_t Cmsg.LP64 fd_num * Sys.sizeof_int)))
              (Cmsg.sizeof_cmsghdr Cmsg.LP64)) as [Hlt | _]; [lia |].
  rewrite Hsz.
  assert (Hlen : Cmsg.CMSG_LEN Cmsg.LP64 (fd_num * 4) = 16 + fd_num * 4).
  { unfold Cmsg.CMSG_LEN.
    change (Cmsg.CMSG_ALIGN Cmsg.LP64 (Cmsg.sizeof_cmsghdr Cmsg.LP64)) with 16.
    unfold Cmsg.to_size_t, Cmsg.size_t_mod, Cmsg.LP64.
    change (2 ^ (8 * 8)) with 18446744073709551616. apply Z.mod_small. lia. }
  rewrite Hlen. unfold Sys.sizeof_int. rewrite Z.div_mul by lia.
  apply (send_loop_spec n fuel sockfd buf buflen _ r e rest w Hs He Hf).
Qed.

End SendFacts.

(** ** Creating a connection *)

Module ManagerFacts.
Import World Env AfUnix Trace Exec.

(** C9: with a NULL endpoint [vhost_user_add_connection] returns at once
    and leaves the world as it was: the run allocates nothing, creates no
    device, inserts nothing into a list, and does not close the descriptor
    it was given. *)
Theorem add_connection_null_endpoint (fd : Z) (w : world) :
  exists t,
    vhost_user_add_connection fd None w = Some (tt, w, t) /\
    (forall p, ~ In (EMalloc p) t) /\
    (forall v, ~ In (ENewDevice v) t) /\
    (forall q x, ~ In (EInsertTail q x) t) /\
    ~ In (EClose fd) t.
Proof.
  exists []. split; [reflexivity |].
  repeat split; intros; intros [].
Qed.

(** C1: when [vhost_user_add_connection] has allocated the record at [p] and
    then fails (no device, the owner's [new_connection] refuses, or the
    dispatcher refuses the descriptor), the endpoints, both heaps and the
    reconnect list are as before, nothing was inserted into a list, the run
    ends with [free(conn); close(fd)], a device that was created is destroyed
    right before that, and after a refused registration the owner's
    [destroy_connection], when there is one, is called right before the
    device is destroyed. Without a device nothing is destroyed. *)
Theorem add_connection_failure_rolls_back (fd : Z) (vs : nat) (af : af_unix_socket)
    (p : Z) (w w' : world) (t : list event) :
  sockets w !! vs = Some af ->
  conns w !! p = None ->
  vhost_user_add_connection fd (Some vs) w = Some (tt, w', t) ->
  head t = Some (EMalloc p) -> p <> 0 ->
  device_creation_failed t \/ new_connection_failed t \/ registration_failed t ->
  (sockets w' = sockets w /\ conns w' = conns w /\
   reconns w' = reconns w /\ reconn_list w' = reconn_list w /\ errno w' = errno w) /\
  (forall q x, ~ In (EInsertTail q x) t) /\
  ends_with t [EFree p; EClose fd] /\
  (device_creation_failed t -> forall v, ~ In (EDestroyDevice v) t) /\
  (forall v, In (ENewDevice v) t -> v <> -1 ->
     ends_with t [EDestroyDevice v; EFree p; EClose fd]) /\
  (registration_failed t -> destroy_connection (notify_ops (socket af)) = true ->
     forall v, In (ENewDevice v) t ->
     ends_with t [EDestroyConnection v; EDestroyDevice v; EFree p; EClose fd]).
Proof.
  destruct w as [S C R RL E sc]. cbn [sockets conns reconns reconn_list errno].
  intros Haf Hfresh. unfold vhost_user_add_connection.
  exec.
  all: try ended.
  all: intros Hhead Hp Hfail; cbn in Hhead; injection Hhead as ->;
    cbn [sockets conns reconns reconn_list errno]; tests.
  all: try lia.
  all: try (exfalso;
            destruct Hfail as [Hf | [(v & r & Hf & Hneg) | (a & b & c & r & Hf & Hneg)]];
            [unfold device_creation_failed in Hf | |]; in_trace; lia).
  all: rewrite ?delete_insert_eq, ?(delete_id _ _ Hfresh).
  all: repeat split.
  all: try split_trace.
  all: try (intros q x Hin; in_trace; fail).
  all: try (intros Hd v Hin; unfold device_creation_failed in Hd; in_trace; lia).
  all: try (intros v Hin Hne; in_trace; try lia; split_trace).
  all: try (intros Hreg Hdc v Hin; in_trace; try congruence; try split_trace;
            destruct Hreg as (a & b & c & r & Hf & Hneg); in_trace; lia).
Qed.

Lemma add_connection_failure_rolls_back_witness :
  let w := Demo.world_of (Demo.endpoint false true []) ∅ ∅ [] 0 [1000; 5; 0; -1] in
  let w' := Demo.world_of (Demo.endpoint false true []) ∅ ∅ [] 0 [] in
  let t := [EMalloc 1000; ENewDevice 5; ESetIfname 5 Demo.sock_path 15;
            ESetBuiltinVirtioNet 5 true; EAttachVdpaDevice 5 (-1);
            ENewConnection 5 0; EFdsetAdd 9 vhost_user_read_cb_ptr 1000 (-1);
            EDestroyConnection 5; EDestroyDevice 5; EFree 1000; EClose 9] in
  vhost_user_add_connection 9 (Some O) w = Some (tt, w', t) /\
  registration_failed t /\
  (sockets w' = sockets w /\ conns w' = conns w /\
   reconns w' = reconns w /\ reconn_list w' = reconn_list w /\ errno w' = errno w) /\
  (forall q x, ~ In (EInsertTail q x) t) /\
  ends_with t [EFree 1000; EClose 9] /\
  (device_creation_failed t -> forall v, ~ In (EDestroyDevice v) t) /\
  (forall v, In (ENewDevice v) t -> v <> -1 ->
     ends_with t [EDestroyDevice v; EFree 1000; EClose 9]) /\
  (registration_failed t ->
   destroy_connection (notify_ops (socket (Demo.endpoint false true []))) = true ->
     forall v, In (ENewDevice v) t ->
     ends_with t [EDestroyConnection v; EDestroyDevice v; EFree 1000; EClose 9]).
Proof.
  intros w w' t.
  assert (Hrun : vhost_user_add_connection 9 (Some O) w = Some (tt, w', t))
    by (vm_compute; reflexivity).
  assert (Hreg : registration_failed t).
  { exists 9, vhost_user_read_cb_ptr, 1000, (-1). split; [| lia].
    do 6 right. left. reflexivity. }
  split; [exact Hrun |]. split; [exact Hreg |].
  apply (add_connection_failure_rolls_back 9 O (Demo.endpoint false true []) 1000 w w' t).
  - reflexivity.
  - reflexivity.
  - exact Hrun.
  - reflexivity.
  - lia.
  - right; right. exact Hreg.
Defined.

End ManagerFacts.

(** ** Starting a client *)

Module ClientFacts.
Import World Env AfUnix Trace Exec.

Lemma connect_nonblock_outcome (fd : Z) (addr : string) (w w1 : world)
    (rc : Z) (t1 : list event) :
  vhost_user_connect_nonblock fd addr w = Some (rc, w1, t1) ->
  connect_outcome fd addr (errno w1) t1 rc /\
  sockets w1 = sockets w /\ conns w1 = conns w /\
  reconns w1 = reconns w /\ reconn_list w1 = reconn_list w.
Proof.
  destruct w as [S C R RL E sc]. unfold vhost_user_connect_nonblock.
  exec. all: try ended. all: cbn [sockets conns reconns reconn_list errno]; tests.
  all: split; [| repeat split].
  all: try (subst; constructor; lia).
Qed.

Lemma connect_nonblock_codes (fd : Z) (addr : string) (e : Z) (t : list event) (rc : Z) :
  connect_outcome fd addr e t rc -> rc = 0 \/ rc = -1 \/ rc = -2.
Proof. intros H. inversion H; lia. Qed.

(** C7, as the code has it: [vhost_user_start_client] first runs
    [vhost_user_connect_nonblock] on the endpoint's descriptor, and then
    - connected (also with EISCONN) and the descriptor blocking: it hands the
      descriptor to [vhost_user_add_connection] and returns 0;
    - connect failed, reconnection enabled: it allocates a reconnect entry;
      with the entry it parks descriptor and address at the tail of the
      reconnect list and returns 0, without the entry ([malloc] returned
      NULL) it closes the descriptor and returns -1;
    - flags could not be read or cleared, or connect failed with reconnection
      disabled: it closes the descriptor and returns -1. *)
Theorem start_client_outcomes (vs : nat) (af : af_unix_socket) (w w' : world)
    (r : Z) (t : list event) :
  sockets w !! vs = Some af ->
  vhost_user_start_client vs w = Some (r, w', t) ->
  exists rc w1 t1,
    vhost_user_connect_nonblock (socket_fd af) (un af) w = Some (rc, w1, t1) /\
    connect_outcome (socket_fd af) (un af) (errno w1) t1 rc /\
    ((rc = 0 /\ r = 0 /\
      exists t2,
        vhost_user_add_connection (socket_fd af) (Some vs) w1 = Some (tt, w', t2) /\
        t = t1 ++ t2) \/
     (rc = -1 /\ reconnect (socket af) = true /\
      exists p,
        script w1 = p :: script w' /\
        ((p <> 0 /\ r = 0 /\
          t = t1 ++ [EMalloc p; ELock ReconnQ; EInsertTail ReconnQ p; EUnlock ReconnQ] /\
          reconn_list w' = reconn_list w1 ++ [p] /\
          reconns w' =
            <[p := {| r_un := un af; r_fd := socket_fd af; r_vsocket := vs |}]>
              (reconns w1)) \/
         (p = 0 /\ r = -1 /\
          t = t1 ++ [EMalloc 0; EClose (socket_fd af)] /\
          reconn_list w' = reconn_list w1 /\ reconns w' = reconns w1))) \/
     ((rc = -2 \/ rc = -1 /\ reconnect (socket af) = false) /\ r = -1 /\
      t = t1 ++ [EClose (socket_fd af)] /\
      reconn_list w' = reconn_list w1 /\ reconns w' = reconns w1)).
Proof.
  intros Haf. unfold vhost_user_start_client. cbn. rewrite Haf. cbn.
  destruct (vhost_user_connect_nonblock (socket_fd af) (un af) w)
    as [[[rc w1] t1] |] eqn:Hc; [| discriminate].
  destruct (connect_nonblock_outcome _ _ _ _ _ _ Hc) as (Hout & _).
  intros H. exists rc, w1, t1. split; [reflexivity |]. split; [exact Hout |].
  revert H. destruct (rc =? 0) eqn:H0; cbn.
  - destruct (vhost_user_add_connection (socket_fd af) (Some vs) w1)
      as [[[[] w2] t2] |] eqn:Ha; [| cbn; discriminate].
    cbn. rewrite app_nil_r. ended. tests.
    left. repeat split; try assumption. exists t2. split; reflexivity.
  - pose proof (connect_nonblock_codes _ _ _ _ _ Hout) as Hrc.
    destruct w1 as [S1 C1 R1 RL1 E1 sc1].
    cbn [reconn_list reconns script errno] in *.
    exec. all: try ended. all: cbn [reconn_list reconns script]; tests.
    all: rewrite ?app_nil_r.
    + right; right. repeat split; try reflexivity. left; assumption.
    + right; left. repeat split; [lia |]. exists z. split; [reflexivity |].
      right. subst z. repeat split.
    + right; left. repeat split; [lia |]. exists z. split; [reflexivity |].
      left. repeat split; [assumption | apply insert_insert_eq].
    + right; right. repeat split; try reflexivity. right. split; [lia | reflexivity].
Qed.

Lemma start_client_outcomes_witness :
  let af := Demo.endpoint false true [] in
  let w := Demo.world_of af ∅ ∅ [] 0 [-1; Sys.ECONNREFUSED; 2000] in
  let w' := Demo.world_of af ∅ {[ 2000 := Demo.parked ]} [2000] Sys.ECONNREFUSED [] in
  let t := [EConnect 3 Demo.sock_path (-1); EMalloc 2000; ELock ReconnQ;
            EInsertTail ReconnQ 2000; EUnlock ReconnQ] in
  vhost_user_start_client O w = Some (0, w', t) /\
  exists rc w1 t1,
    vhost_user_connect_nonblock (socket_fd af) (un af) w = Some (rc, w1, t1) /\
    connect_outcome (socket_fd af) (un af) (errno w1) t1 rc /\
    ((rc = 0 /\ 0 = 0 /\
      exists t2,
        vhost_user_add_connection (socket_fd af) (Some O) w1 = Some (tt, w', t2) /\
        t = t1 ++ t2) \/
     (rc = -1 /\ reconnect (socket af) = true /\
      exists p,
        script w1 = p :: script w' /\
        ((p <> 0 /\ 0 = 0 /\
          t = t1 ++ [EMalloc p; ELock ReconnQ; EInsertTail ReconnQ p; EUnlock ReconnQ] /\
          reconn_list w' = reconn_list w1 ++ [p] /\
          reconns w' =
            <[p := {| r_un := un af; r_fd := socket_fd af; r_vsocket := O |}]>
              (reconns w1)) \/
         (p = 0 /\ 0 = -1 /\
          t = t1 ++ [EMalloc 0; EClose (socket_fd af)] /\
          reconn_list w' = reconn_list w1 /\ reconns w' = reconns w1))) \/
     ((rc = -2 \/ rc = -1 /\ reconnect (socket af) = false) /\ 0 = -1 /\
      t = t1 ++ [EClose (socket_fd af)] /\
      reconn_list w' = reconn_list w1 /\ reconns w' = reconns w1)).
Proof.
  intros af w w' t.
  assert (Hrun : vhost_user_start_client O w = Some (0, w', t))
    by (vm_compute; reflexivity).
  split; [exact Hrun |].
  apply (start_client_outcomes O af w w' 0 t); [reflexivity | exact Hrun].
Defined.

(** C7 as claimed fails where the reconnect entry cannot be allocated: the
    connect is refused (ECONNREFUSED, a failure to retry), reconnection is
    enabled, [malloc] returns NULL; the descriptor is closed, nothing is
    parked, and the call returns -1. *)
Lemma start_client_allocation_failure :
  let af := Demo.endpoint false true [] in
  let w := Demo.world_of af ∅ ∅ [] 0 [-1; Sys.ECONNREFUSED; 0] in
  reconnect (socket af) = true /\
  vhost_user_start_client O w =
    Some (-1, Demo.world_of af ∅ ∅ [] Sys.ECONNREFUSED [],
          [EConnect 3 Demo.sock_path (-1); EMalloc 0; EClose 3]).
Proof. split; [reflexivity | vm_compute; reflexivity]. Qed.

End ClientFacts.

(** ** The read callback *)

Module ReadFacts.
Import World Env AfUnix Trace Exec ListFacts.





End ReadFacts.

(** ** The reconnect thread *)

Module ReconnectFacts.
Import World Env AfUnix Trace Exec ListFacts ClientFacts.

Lemma add_connection_keeps_registry (fd : Z) (vs : option nat) (w w' : world)
    (t : list event) :
  vhost_user_add_connection fd vs w = Some (tt, w', t) ->
  reconns w' = reconns w /\ reconn_list w' = reconn_list w.
Proof.
  destruct w as [S C R RL E sc]. unfold vhost_user_add_connection.
  destruct vs as [vs |]; [| cbn; ended; split; reflexivity].
  exec. all: try ended. all: split; reflexivity.
Qed.

(** an entry takes nothing but itself out of the registry *)
Lemma reconnect_entry_frame (q : Z) (w w' : world) (t : list event) :
  reconnect_entry q w = Some (tt, w', t) ->
  forall x, x <> q ->
    (In x (reconn_list w') <-> In x (reconn_list w)) /\
    reconns w' !! x = reconns w !! x.
Proof.
  unfold reconnect_entry. cbn.
  destruct (reconns w !! q) as [reconn |] eqn:Hq; cbn; [| discriminate].
  destruct (vhost_user_connect_nonblock (r_fd reconn) (r_un reconn) w)
    as [[[rc w1] t1] |] eqn:Hc; cbn; [| discriminate].
  destruct (connect_nonblock_outcome _ _ _ _ _ _ Hc) as (_ & _ & _ & HR & HL).
  destruct (rc =? -2); cbn.
  - ended. cbn. intros x Hx. rewrite in_remove_ptr, HL, HR.
    rewrite lookup_delete_ne by congruence. tauto.
  - destruct (rc =? -1); cbn.
    + ended. intros x Hx. rewrite HL, HR. tauto.
    + destruct (vhost_user_add_connection (r_fd reconn) (Some (r_vsocket reconn)) w1)
        as [[[[] w2] t2] |] eqn:Ha; cbn; [| discriminate].
      destruct (add_connection_keeps_registry _ _ _ _ _ Ha) as (HR2 & HL2).
      ended. cbn. intros x Hx. rewrite in_remove_ptr, HL2, HL, HR2, HR.
      rewrite lookup_delete_ne by congruence. tauto.
Qed.

Lemma reconnect_entries_frame (l : list Z) :
  forall (w w' : world) (t : list event),
    reconnect_entries l w = Some (tt, w', t) ->
    forall x, ~ In x l ->
      (In x (reconn_list w') <-> In x (reconn_list w)) /\
      reconns w' !! x = reconns w !! x.
Proof.
  induction l as [| q l IH]; intros w w' t.
  - cbn. ended. intros x _. split; reflexivity.
  - cbn. destruct (reconnect_entry q w) as [[[[] w1] t1] |] eqn:Hq; [| discriminate].
    destruct (reconnect_entries l w1) as [[[[] w2] t2] |] eqn:Hl; [| discriminate].
    ended. intros x Hx.
    destruct (reconnect_entry_frame _ _ _ _ Hq x) as (H1 & H2); [intros ->; apply Hx; left; reflexivity |].
    destruct (IH _ _ _ Hl x) as (H3 & H4); [intros Hin; apply Hx; right; exact Hin |].
    rewrite H3, H1, H4, H2. split; reflexivity.
Qed.

Lemma reconnect_entries_app (pre l : list Z) :
  forall (w w' : world) (t : list event),
    reconnect_entries (pre ++ l) w = Some (tt, w', t) ->
    exists w0 t0 t1,
      reconnect_entries pre w = Some (tt, w0, t0) /\
      reconnect_entries l w0 = Some (tt, w', t1) /\
      t = t0 ++ t1.
Proof.
  induction pre as [| q pre IH]; intros w w' t.
  - cbn. intros H. exists w, [], t. repeat split. exact H.
  - cbn. destruct (reconnect_entry q w) as [[[[] w1] t1] |] eqn:Hq; [| discriminate].
    destruct (reconnect_entries (pre ++ l) w1) as [[[[] w2] t2] |] eqn:Hl; [| discriminate].
    ended. destruct (IH _ _ _ Hl) as (w0 & t0 & t3 & H1 & H2 & ->).
    exists w0, (t1 ++ t0), t3. rewrite H1, H2. repeat split.
    apply app_assoc.
Qed.

(** C8, as the code has it. In a sweep the entries are handled in list
    order, each from the world its predecessors left. For the entry at [p]
    the thread runs [vhost_user_connect_nonblock] on its descriptor, and
    - on -2 (flags could not be read or cleared) closes the descriptor,
      unlinks the entry and frees it;
    - on -1 (connect did not complete) leaves entry and descriptor alone;
    - on 0 (connected) first hands the descriptor to
      [vhost_user_add_connection] for the entry's endpoint and only then
      unlinks the entry and frees it.
    In each case the sweep goes on with the rest of the list, and at its end
    the entry is in the registry exactly in the second case. *)
Theorem reconnect_sweep_entry (pre next : list Z) (p : Z)
    (reconn : vhost_user_reconnect) (w w' : world) (t : list event) :
  reconn_list w = pre ++ p :: next ->
  List.NoDup (reconn_list w) ->
  reconns w !! p = Some reconn ->
  reconnect_sweep w = Some (tt, w', t) ->
  exists w0 t0 rc w1 t1 w2 t2 t3,
    reconnect_entries pre w = Some (tt, w0, t0) /\
    reconns w0 !! p = Some reconn /\
    vhost_user_connect_nonblock (r_fd reconn) (r_un reconn) w0 = Some (rc, w1, t1) /\
    connect_outcome (r_fd reconn) (r_un reconn) (errno w1) t1 rc /\
    reconnect_entries next w2 = Some (tt, w', t3) /\
    t = ELock ReconnQ :: t0 ++ (t1 ++ t2) ++ t3 ++ [EUnlock ReconnQ; ESleep 1] /\
    ((rc = -2 /\
      t2 = [EClose (r_fd reconn); ERemove ReconnQ p; EFree p] /\
      w2 = set_reconns (delete p) (set_reconn_list (remove_ptr p) w1) /\
      ~ In p (reconn_list w') /\ reconns w' !! p = None) \/
     (rc = -1 /\ t2 = [] /\ w2 = w1 /\
      In p (reconn_list w') /\ reconns w' !! p = Some reconn) \/
     (rc = 0 /\
      exists wa ta,
        vhost_user_add_connection (r_fd reconn) (Some (r_vsocket reconn)) w1 =
          Some (tt, wa, ta) /\
        t2 = ta ++ [ERemove ReconnQ p; EFree p] /\
        w2 = set_reconns (delete p) (set_reconn_list (remove_ptr p) wa) /\
        ~ In p (reconn_list w') /\ reconns w' !! p = None)).
Proof.
  intros Hl Hnd Hp. unfold reconnect_sweep. cbn. rewrite Hl.
  destruct (reconnect_entries (pre ++ p :: next) w) as [[[[] wf] tf] |] eqn:Hall;
    cbn; [| discriminate].
  ended.
  destruct (reconnect_entries_app _ _ _ _ _ Hall) as (w0 & t0 & tr & Hpre & Hrest & ->).
  rewrite Hl in Hnd. apply List.NoDup_remove_2 in Hnd.
  assert (Hnpre : ~ In p pre) by (intros Hin; apply Hnd, in_or_app; left; exact Hin).
  assert (Hnext : ~ In p next) by (intros Hin; apply Hnd, in_or_app; right; exact Hin).
  destruct (reconnect_entries_frame _ _ _ _ Hpre p Hnpre) as (Hin0 & Hp0).
  rewrite Hp in Hp0.
  revert Hrest. cbn [reconnect_entries]. cbn.
  destruct (reconnect_entry p w0) as [[[[] w2] t2'] |] eqn:He; [| discriminate].
  destruct (reconnect_entries next w2) as [[[[] w3] t3] |] eqn:Hn; [| discriminate].
  ended.
  destruct (reconnect_entries_frame _ _ _ _ Hn p Hnext) as (Hin3 & Hp3).
  revert He. unfold reconnect_entry. cbn. rewrite Hp0. cbn.
  destruct (vhost_user_connect_nonblock (r_fd reconn) (r_un reconn) w0)
    as [[[rc w1] t1] |] eqn:Hc; cbn; [| discriminate].
  destruct (connect_nonblock_outcome _ _ _ _ _ _ Hc) as (Hout & _ & _ & HR & HL).
  assert (Hcodes : rc = 0 \/ rc = -1 \/ rc = -2) by (inversion Hout; lia).
  assert (Hgone : forall wx, ~ In p (remove_ptr p (reconn_list wx))).
  { intros wx Hin. apply in_remove_ptr in Hin. destruct Hin as [_ Hne]. congruence. }
  destruct (rc =? -2) eqn:E2; cbn.
  - ended. apply Z.eqb_eq in E2. subst rc.
    exists w0, t0, (-2), w1, t1,
      (set_reconns (delete p) (set_reconn_list (remove_ptr p) w1)),
      [EClose (r_fd reconn); ERemove ReconnQ p; EFree p], t3.
    split; [exact Hpre |]. split; [exact Hp0 |]. split; [exact Hc |].
    split; [exact Hout |]. split; [exact Hn |].
    split; [rewrite <- !app_assoc; reflexivity |].
    left. split; [reflexivity |]. split; [reflexivity |]. split; [reflexivity |].
    split.
    + rewrite Hin3. apply Hgone.
    + rewrite Hp3. cbn. apply lookup_delete_eq.
  - destruct (rc =? -1) eqn:E1; cbn.
    + ended. apply Z.eqb_eq in E1. subst rc.
      exists w0, t0, (-1), w2, t1, w2, [], t3.
      split; [exact Hpre |]. split; [exact Hp0 |]. split; [exact Hc |].
      split; [exact Hout |]. split; [exact Hn |].
      split; [rewrite <- !app_assoc; reflexivity |].
      right; left. split; [reflexivity |]. split; [reflexivity |].
      split; [reflexivity |]. split.
      * rewrite Hin3, HL, Hin0, Hl. apply in_or_app. right; left; reflexivity.
      * rewrite Hp3, HR. exact Hp0.
    + destruct (vhost_user_add_connection (r_fd reconn) (Some (r_vsocket reconn)) w1)
        as [[[[] wa] ta] |] eqn:Ha; cbn; [| discriminate].
      ended. apply Z.eqb_neq in E1, E2.
      exists w0, t0, rc, w1, t1,
        (set_reconns (delete p) (set_reconn_list (remove_ptr p) wa)),
        (ta ++ [ERemove ReconnQ p; EFree p]), t3.
      split; [exact Hpre |]. split; [exact Hp0 |]. split; [exact Hc |].
      split; [exact Hout |]. split; [exact Hn |].
      split; [rewrite <- !app_assoc; reflexivity |].
      right; right. split; [lia |]. exists wa, ta.
      split; [exact Ha |]. split; [reflexivity |]. split; [reflexivity |].
      split.
      * rewrite Hin3. apply Hgone.
      * rewrite Hp3. cbn. apply lookup_delete_eq.
Qed.
Lemma reconnect_sweep_entry_witness :
  let af := Demo.endpoint false true [] in
  let reconn := Demo.parked in
  let w := Demo.world_of af ∅ {[ 1000 := reconn ]} [1000] 0 [0; 2048; 0; 2000; 7; 0; 0] in
  let w' := Demo.world_of (Demo.endpoint false true [2000])
              {[ 2000 := Demo.live 3 7 ]} ∅ [] 0 [] in
  let t := [ELock ReconnQ; EConnect 3 Demo.sock_path 0; EFcntl 3 Sys.F_GETFL 0 2048;
            EFcntl 3 Sys.F_SETFL 0 0; EMalloc 2000; ENewDevice 7;
            ESetIfname 7 Demo.sock_path 15; ESetBuiltinVirtioNet 7 true;
            EAttachVdpaDevice 7 (-1); ENewConnection 7 0;
            EFdsetAdd 3 vhost_user_read_cb_ptr 2000 0; ELock (ConnQ O);
            EInsertTail (ConnQ O) 2000; EUnlock (ConnQ O); EFdsetPipeNotify;
            ERemove ReconnQ 1000; EFree 1000; EUnlock ReconnQ; ESleep 1] in
  reconnect_sweep w = Some (tt, w', t) /\
  exists w0 t0 rc w1 t1 w2 t2 t3,
    reconnect_entries [] w = Some (tt, w0, t0) /\
    reconns w0 !! 1000 = Some reconn /\
    vhost_user_connect_nonblock (r_fd reconn) (r_un reconn) w0 = Some (rc, w1, t1) /\
    connect_outcome (r_fd reconn) (r_un reconn) (errno w1) t1 rc /\
    reconnect_entries [] w2 = Some (tt, w', t3) /\
    t = ELock ReconnQ :: t0 ++ (t1 ++ t2) ++ t3 ++ [EUnlock ReconnQ; ESleep 1] /\
    ((rc = -2 /\
      t2 = [EClose (r_fd reconn); ERemove ReconnQ 1000; EFree 1000] /\
      w2 = set_reconns (delete 1000) (set_reconn_list (remove_ptr 1000) w1) /\
      ~ In 1000 (reconn_list w') /\ reconns w' !! 1000 = None) \/
     (rc = -1 /\ t2 = [] /\ w2 = w1 /\
      In 1000 (reconn_list w') /\ reconns w' !! 1000 = Some reconn) \/
     (rc = 0 /\
      exists wa ta,
        vhost_user_add_connection (r_fd reconn) (Some (r_vsocket reconn)) w1 =
          Some (tt, wa, ta) /\
        t2 = ta ++ [ERemove ReconnQ 1000; EFree 1000] /\
        w2 = set_reconns (delete 1000) (set_reconn_list (remove_ptr 1000) wa) /\
        ~ In 1000 (reconn_list w') /\ reconns w' !! 1000 = None)).
Proof.
  intros af reconn w w' t.
  assert (Hrun : reconnect_sweep w = Some (tt, w', t)) by (vm_compute; reflexivity).
  split; [exact Hrun |].
  apply (reconnect_sweep_entry [] [] 1000 reconn w w' t).
  - reflexivity.
  - repeat constructor. intros [].
  - reflexivity.
  - exact Hrun.
Defined.

(** C8 as claimed fails on the order for a completed connect: the calls of
    [vhost_user_add_connection] (from its [malloc] to the wake-up of the
    dispatcher) come first, the entry is unlinked after them. *)
Lemma reconnect_hands_over_before_unlinking :
  let w := Demo.world_of (Demo.endpoint false true []) ∅ {[ 1000 := Demo.parked ]}
             [1000] 0 [0; 2048; 0; 2000; 7; 0; 0] in
  let handed_over :=
    [EMalloc 2000; ENewDevice 7; ESetIfname 7 Demo.sock_path 15;
     ESetBuiltinVirtioNet 7 true; EAttachVdpaDevice 7 (-1); ENewConnection 7 0;
     EFdsetAdd 3 vhost_user_read_cb_ptr 2000 0; ELock (ConnQ O);
     EInsertTail (ConnQ O) 2000; EUnlock (ConnQ O); EFdsetPipeNotify] in
  let connected :=
    [ELock ReconnQ; EConnect 3 Demo.sock_path 0; EFcntl 3 Sys.F_GETFL 0 2048;
     EFcntl 3 Sys.F_SETFL 0 0] in
  reconnect_sweep w =
    Some (tt,
          Demo.world_of (Demo.endpoint false true [2000]) {[ 2000 := Demo.live 3 7 ]}
            ∅ [] 0 [],
          connected ++ handed_over ++
          [ERemove ReconnQ 1000; EFree 1000; EUnlock ReconnQ; ESleep 1]) /\
  vhost_user_add_connection 3 (Some O)
    (Demo.world_of (Demo.endpoint false true []) ∅ {[ 1000 := Demo.parked ]}
       [1000] 0 [2000; 7; 0; 0]) =
    Some (tt,
          Demo.world_of (Demo.endpoint false true [2000]) {[ 2000 := Demo.live 3 7 ]}
            {[ 1000 := Demo.parked ]} [1000] 0 [],
          handed_over) /\
  ~ In (ERemove ReconnQ 1000) (connected ++ handed_over).
Proof.
  cbv zeta. split; [vm_compute; reflexivity |]. split; [vm_compute; reflexivity |].
  cbn [app]. intros Hin. Exec.in_trace.
Qed.

End ReconnectFacts.

(** ** Tearing an endpoint down *)

Module TeardownFacts.
Import World Env AfUnix Trace Exec ListFacts.










(** with nothing in flight the teardown is the function as it is written *)
Lemma cleanup_during_nothing (fuel : nat) (vs : nat) (w : world) :
  Race.af_unix_socket_cleanup_during (ret tt) fuel vs w =
  af_unix_socket_cleanup (S fuel) vs w.
Proof.
  unfold Race.af_unix_socket_cleanup_during, af_unix_socket_cleanup.
  cbn.
  destruct (sockets w !! vs) as [af |];
    cbn;
    [| reflexivity].
  match goal with
  | |- context [match ?c w with _ => _ end] =>
      destruct (c w) as [[[[] w1] t1] |];
      cbn;
      [| reflexivity]
  end.
  destruct (sockets w1 !! vs) as [af1 |];
    cbn;
    [| reflexivity].
  destruct (cleanup_connections vs (conn_list af1) w1) as [[[fin w2] t2] |];
    cbn;
    [| reflexivity].
  destruct fin; cbn;
    [reflexivity |].
  destruct (cleanup_again fuel vs w2) as [[[[] w3] t3] |]; reflexivity.
Qed.

(** C3 fails where a callback in flight restarts the client. A client
    endpoint with reconnection enabled has one connection, on descriptor 3,
    and nothing in the registry. The teardown finds no reconnect entry to
    cancel, takes the list mutex, and [fdset_try_del] answers busy: the
    read callback of the connection is executing. The teardown releases the
    mutex. The callback's handler has failed: it closes descriptor 3, tears
    the connection down under the mutex and, the endpoint being a
    reconnecting client, creates a socket, descriptor 11, and starts the
    client on it; the connect is refused and descriptor 11 is parked in
    the registry. The teardown takes the mutex again, finds the list
    empty, and returns. It leaves the list empty, and it leaves a registry
    entry of the endpoint on descriptor 11, which was opened and never
    closed. *)
Theorem cleanup_misses_restarted_client :
  let af := Demo.endpoint false true [2000] in
  let w := Demo.world_of af {[ 2000 := Demo.live 3 4 ]} ∅ [] 0
             [-1; -1; 77; 11; 0; -1; Sys.ECONNREFUSED; 3000] in
  let in_flight := bind (vhost_user_read_cb 3 2000 0) (fun _ => ret tt) in
  let entry := {| r_un := Demo.sock_path; r_fd := 11; r_vsocket := O |} in
  let w' := Demo.world_of (Demo.endpoint_at 11 false true []) ∅
              {[ 3000 := entry ]} [3000] Sys.ECONNREFUSED [] in
  let t := [ELock ReconnQ; EUnlock ReconnQ;
            ELock (ConnQ O); EFdsetTryDel 3 (-1); EUnlock (ConnQ O);
            EMsgHandler 4 3 (-1); EGetDevice 4 77; EClose 3; ESetRemove;
            EDestroyDeviceNotify 77; EDestroyConnection 4; EDestroyDevice 4;
            ELock (ConnQ O); ERemove (ConnQ O) 2000; EUnlock (ConnQ O);
            EFree 2000;
            ESocket 11; EFcntl 11 Sys.F_SETFL Sys.O_NONBLOCK 0;
            EConnect 11 Demo.sock_path (-1);
            EMalloc 3000; ELock ReconnQ; EInsertTail ReconnQ 3000;
            EUnlock ReconnQ;
            ELock (ConnQ O); EUnlock (ConnQ O); EMutexDestroy (ConnQ O)] in
  Race.af_unix_socket_cleanup_during in_flight 1 O w = Some (tt, w', t) /\
  sockets w' !! O = Some (Demo.endpoint_at 11 false true []) /\
  conn_list (Demo.endpoint_at 11 false true []) = [] /\
  reconn_list w' = [3000] /\
  reconns w' !! 3000 = Some entry /\
  r_vsocket entry = O /\
  In (ESocket (r_fd entry)) t /\
  List.filter (fun e => match e with EClose _ => true | _ => false end) t =
    [EClose 3].
Proof.
  cbv zeta. split; [vm_compute; reflexivity |].
  split; [reflexivity |]. split; [reflexivity |]. split; [reflexivity |].
  split; [reflexivity |]. split; [reflexivity |].
  split; [| reflexivity].
  do 16 right. left. reflexivity.
Qed.

End TeardownFacts.

(** * Further properties *)

(** ** Creating a connection: every run *)

Module ManagerMore.
Import World Env AfUnix Trace Exec ListFacts Sound.

(** X1: whatever the environment answers, a run of
    [vhost_user_add_connection] on an endpoint closes no descriptor but the
    one it was given, and that one it either closes last, leaving every
    list as it was, or never closes and links, in a record at the tail of
    the endpoint's list. *)
Theorem add_connection_descriptor_fate (fd : Z) (vs : nat) (w w' : world)
    (t : list event) :
  vhost_user_add_connection fd (Some vs) w = Some (tt, w', t) ->
  (forall x, In (EClose x) t -> x = fd) /\
  ((ends_with t [EClose fd] /\
    (forall q x, ~ In (EInsertTail q x) t) /\
    sockets w' = sockets w /\ reconn_list w' = reconn_list w)
   \/
   ((forall x, ~ In (EClose x) t) /\
    exists p v,
      p <> 0 /\
      In (EInsertTail (ConnQ vs) p) t /\
      conns w' !! p = Some {| vsocket := vs; connfd := fd; vid := v |} /\
      sockets w' = alter (set_conn_list (fun l => l ++ [p])) vs (sockets w))).
Proof.
  destruct w as [S C R RL E sc]. unfold vhost_user_add_connection.
  exec. all: try ended. all: cbn [sockets conns reconns reconn_list]; tests.
  all: split; [intros x Hin; in_trace; reflexivity |].
  all: try (left; split; [split_trace |];
            split; [intros q x Hin; in_trace; fail | split; reflexivity]).
  all: right; split; [intros x Hin; in_trace; fail |].
  all: match goal with
       | |- context [EInsertTail (ConnQ _) ?p :: _] =>
           match goal with
           | |- context [ENewDevice ?v :: _] => exists p, v
           end
       end.
  all: split; [assumption |].
  all: split; [cbn; tauto |].
  all: split; [apply lookup_insert_eq | reflexivity].
Qed.

Lemma add_connection_descriptor_fate_witness :
  let w := Demo.world_of (Demo.endpoint false true []) ∅ ∅ [] 0 [1000; 5; 0; 0] in
  let w' := Demo.world_of (Demo.endpoint false true [1000])
              {[ 1000 := Demo.live 9 5 ]} ∅ [] 0 [] in
  let t := [EMalloc 1000; ENewDevice 5; ESetIfname 5 Demo.sock_path 15;
            ESetBuiltinVirtioNet 5 true; EAttachVdpaDevice 5 (-1);
            ENewConnection 5 0; EFdsetAdd 9 vhost_user_read_cb_ptr 1000 0;
            ELock (ConnQ O); EInsertTail (ConnQ O) 1000; EUnlock (ConnQ O);
            EFdsetPipeNotify] in
  vhost_user_add_connection 9 (Some O) w = Some (tt, w', t) /\
  (forall x, In (EClose x) t -> x = 9) /\
  ((ends_with t [EClose 9] /\
    (forall q x, ~ In (EInsertTail q x) t) /\
    sockets w' = sockets w /\ reconn_list w' = reconn_list w)
   \/
   ((forall x, ~ In (EClose x) t) /\
    exists p v,
      p <> 0 /\
      In (EInsertTail (ConnQ O) p) t /\
      conns w' !! p = Some {| vsocket := O; connfd := 9; vid := v |} /\
      sockets w' = alter (set_conn_list (fun l => l ++ [p])) O (sockets w))).
Proof.
  intros w w' t.
  assert (Hrun : vhost_user_add_connection 9 (Some O) w = Some (tt, w', t))
    by (vm_compute; reflexivity).
  split; [exact Hrun |].
  exact (add_connection_descriptor_fate 9 O w w' t Hrun).
Defined.

(** X2: a run of [vhost_user_add_connection] that does not close the
    descriptor created a device, named it after the endpoint's path with the
    path's length capped at PATH_MAX, stored the record with the descriptor
    and the device, registered the read callback with the record as its
    argument, and only then appended the record to the endpoint's list
    under the list's mutex and woke the dispatcher; it freed nothing,
    destroyed no device, and left every other endpoint, record and the
    reconnect registry as they were. *)
Theorem add_connection_success (fd : Z) (vs : nat) (af : af_unix_socket)
    (w w' : world) (t : list event) :
  sockets w !! vs = Some af ->
  vhost_user_add_connection fd (Some vs) w = Some (tt, w', t) ->
  ~ In (EClose fd) t ->
  exists p v r,
    p <> 0 /\ v <> -1 /\ 0 <= r /\
    starts_with t
      [EMalloc p; ENewDevice v;
       ESetIfname v (path (socket af))
         (Z.min (Z.of_nat (String.length (path (socket af)))) Sys.PATH_MAX);
       ESetBuiltinVirtioNet v (use_builtin_virtio_net (socket af));
       EAttachVdpaDevice v (vdpa_dev_id (socket af))] /\
    ends_with t
      [EFdsetAdd fd vhost_user_read_cb_ptr p r; ELock (ConnQ vs);
       EInsertTail (ConnQ vs) p; EUnlock (ConnQ vs); EFdsetPipeNotify] /\
    (In (EEnableDequeueZeroCopy v) t <-> dequeue_zero_copy (socket af) = true) /\
    ((exists a, In (ENewConnection v a) t) <->
     new_connection (notify_ops (socket af)) = true) /\
    (forall a, In (ENewConnection v a) t -> 0 <= a) /\
    (forall x, ~ In (EFree x) t) /\
    (forall x, ~ In (EDestroyDevice x) t) /\
    (forall x, ~ In (EDestroyConnection x) t) /\
    sockets w' = alter (set_conn_list (fun l => l ++ [p])) vs (sockets w) /\
    conns w' = <[p := {| vsocket := vs; connfd := fd; vid := v |}]> (conns w) /\
    reconns w' = reconns w /\ reconn_list w' = reconn_list w /\
    errno w' = errno w.
Proof.
  destruct w as [S C R RL E sc]. cbn [sockets]. intros Haf.
  unfold vhost_user_add_connection.
  exec. all: try ended. all: cbn [sockets conns reconns reconn_list errno]; tests.
  all: intros Hopen.
  all: try (exfalso; apply Hopen; cbn; tauto).
  all: match goal with
       | |- context [EFdsetAdd _ _ ?p ?r :: _] =>
           match goal with
           | |- context [ENewDevice ?v :: _] => exists p, v, r
           end
       end.
  all: repeat match goal with H : Some _ = Some _ |- _ => injection H as; subst end.
  all: repeat (split; [first [assumption | lia | reflexivity] |]).
  all: try (split; [eexists; reflexivity |]).
  all: try (split; [split_trace |]).
  all: split; [split; [intros Hin; in_trace; try reflexivity | intros; try discriminate; cbn; tauto] |].
  all: split; [split; [intros [a Hin]; in_trace; try reflexivity | intros; try discriminate; eexists; cbn; eauto 10] |].
  all: split; [intros a Hin; in_trace; try lia |].
  all: split; [intros x Hin; in_trace |].
  all: split; [intros x Hin; in_trace |].
  all: split; [intros x Hin; in_trace |].
  all: split; [reflexivity |].
  all: split; [apply insert_insert_eq |].
  all: repeat split.
Qed.

Lemma add_connection_success_witness :
  let af := Demo.endpoint false true [] in
  let w := Demo.world_of af ∅ ∅ [] 0 [1000; 5; 0; 0] in
  let w' := Demo.world_of (Demo.endpoint false true [1000])
              {[ 1000 := Demo.live 9 5 ]} ∅ [] 0 [] in
  let t := [EMalloc 1000; ENewDevice 5; ESetIfname 5 Demo.sock_path 15;
            ESetBuiltinVirtioNet 5 true; EAttachVdpaDevice 5 (-1);
            ENewConnection 5 0; EFdsetAdd 9 vhost_user_read_cb_ptr 1000 0;
            ELock (ConnQ O); EInsertTail (ConnQ O) 1000; EUnlock (ConnQ O);
            EFdsetPipeNotify] in
  vhost_user_add_connection 9 (Some O) w = Some (tt, w', t) /\
  exists p v r,
    p <> 0 /\ v <> -1 /\ 0 <= r /\
    starts_with t
      [EMalloc p; ENewDevice v;
       ESetIfname v (path (socket af))
         (Z.min (Z.of_nat (String.length (path (socket af)))) Sys.PATH_MAX);
       ESetBuiltinVirtioNet v (use_builtin_virtio_net (socket af));
       EAttachVdpaDevice v (vdpa_dev_id (socket af))] /\
    ends_with t
      [EFdsetAdd 9 vhost_user_read_cb_ptr p r; ELock (ConnQ O);
       EInsertTail (ConnQ O) p; EUnlock (ConnQ O); EFdsetPipeNotify] /\
    (In (EEnableDequeueZeroCopy v) t <-> dequeue_zero_copy (socket af) = true) /\
    ((exists a, In (ENewConnection v a) t) <->
     new_connection (notify_ops (socket af)) = true) /\
    (forall a, In (ENewConnection v a) t -> 0 <= a) /\
    (forall x, ~ In (EFree x) t) /\
    (forall x, ~ In (EDestroyDevice x) t) /\
    (forall x, ~ In (EDestroyConnection x) t) /\
    sockets w' = alter (set_conn_list (fun l => l ++ [p])) O (sockets w) /\
    conns w' = <[p := {| vsocket := O; connfd := 9; vid := v |}]> (conns w) /\
    reconns w' = reconns w /\ reconn_list w' = reconn_list w /\
    errno w' = errno w.
Proof.
  intros af w w' t.
  assert (Hrun : vhost_user_add_connection 9 (Some O) w = Some (tt, w', t))
    by (vm_compute; reflexivity).
  split; [exact Hrun |].
  apply (add_connection_success 9 O af w w' t).
  - reflexivity.
  - exact Hrun.
  - unfold t. intros Hin. in_trace.
Defined.

(** What a run leaves of the lists and the records: nothing changed but
    a record that was allocated and freed again, or one record stored and
    appended. *)
Lemma add_connection_world (fd : Z) (vs : nat) (w w' : world) (t : list event) :
  vhost_user_add_connection fd (Some vs) w = Some (tt, w', t) ->
  (sockets w' = sockets w /\
   (conns w' = conns w \/
    exists p, In (EMalloc p) t /\ conns w' = delete p (conns w)))
  \/
  (exists p v, In (EMalloc p) t /\
     sockets w' = alter (set_conn_list (fun l => l ++ [p])) vs (sockets w) /\
     conns w' = <[p := {| vsocket := vs; connfd := fd; vid := v |}]> (conns w)).
Proof.
  destruct w as [S C R RL E sc]. unfold vhost_user_add_connection.
  exec. all: try ended. all: cbn [sockets conns]; tests.
  all: try (left; split; [reflexivity |]; left; reflexivity).
  all: try (left; split; [reflexivity |]; right; eexists; split; [left; reflexivity |];
            rewrite ?delete_insert_eq; reflexivity).
  all: right; do 2 eexists; split; [left; reflexivity |];
       split; [reflexivity | apply insert_insert_eq].
Qed.

Lemma linked_ok_add_connection (fd : Z) (vs : nat) (w w' : world)
    (t : list event) :
  linked_ok w ->
  vhost_user_add_connection fd (Some vs) w = Some (tt, w', t) ->
  (forall p, In (EMalloc p) t -> conns w !! p = None) ->
  linked_ok w'.
Proof.
  intros Hok Hrun Hfresh.
  destruct (add_connection_world fd vs w w' t Hrun)
    as [[HS [HC | (p & Hp & HC)]] | (p & v & Hp & HS & HC)].
  - intros u af. rewrite HS, HC. apply Hok.
  - intros u af. rewrite HS, HC, (delete_id _ _ (Hfresh p Hp)). apply Hok.
  - intros u af'. rewrite HS, HC. specialize (Hfresh p Hp).
    destruct (decide (u = vs)) as [-> | Hne].
    + rewrite lookup_alter_eq. destruct (sockets w !! vs) as [af |] eqn:Haf;
        [| discriminate].
      cbn. intros [= <-]. cbn. destruct (Hok vs af Haf) as [Hnd Hmem].
      assert (Hnotin : ~ In p (conn_list af)).
      { intros Hin. destruct (Hmem p Hin) as (c & Hc & _). congruence. }
      split.
      * apply NoDup_ListNoDup. apply NoDup_app. repeat split.
        -- apply NoDup_ListNoDup. exact Hnd.
        -- intros x Hx Hx'. apply list_elem_of_In in Hx.
           apply list_elem_of_In in Hx'. destruct Hx' as [<- | []]. auto.
        -- apply NoDup_singleton.
      * intros x Hx. apply in_app_or in Hx. destruct Hx as [Hx | [<- | []]].
        -- destruct (Hmem x Hx) as (c & Hc & Hv). exists c. split; [| exact Hv].
           rewrite lookup_insert_ne; [exact Hc | congruence].
        -- eexists. split; [apply lookup_insert_eq | reflexivity].
    + rewrite lookup_alter_ne by congruence. intros Haf.
      destruct (Hok u af' Haf) as [Hnd Hmem]. split; [exact Hnd |].
      intros x Hx. destruct (Hmem x Hx) as (c & Hc & Hv). exists c.
      split; [| exact Hv]. rewrite lookup_insert_ne; [exact Hc | congruence].
Qed.

(** X3: if every endpoint's list holds distinct addresses of live records
    that point back to the endpoint, and the allocator hands out no address
    of a live record, then the same holds after a run of
    [vhost_user_add_connection], whether it succeeds or fails, and every
    record that was live before is live and unchanged after, on the same
    place of the same list. *)
Theorem add_connection_keeps_lists_sound (fd : Z) (vs : nat) (w w' : world)
    (t : list event) :
  linked_ok w ->
  vhost_user_add_connection fd (Some vs) w = Some (tt, w', t) ->
  (forall p, In (EMalloc p) t -> conns w !! p = None) ->
  linked_ok w' /\
  (forall x c, conns w !! x = Some c -> conns w' !! x = Some c) /\
  (forall u af, sockets w !! u = Some af ->
     exists af', sockets w' !! u = Some af' /\
       exists new, conn_list af' = conn_list af ++ new).
Proof.
  intros Hok Hrun Hfresh.
  split; [exact (linked_ok_add_connection fd vs w w' t Hok Hrun Hfresh) |].
  destruct (add_connection_world fd vs w w' t Hrun)
    as [[HS [HC | (p & Hp & HC)]] | (p & v & Hp & HS & HC)].
  - rewrite HS, HC. split; [auto |]. intros u af Haf. exists af.
    split; [exact Haf |]. exists []. symmetry. apply app_nil_r.
  - rewrite HS, HC, (delete_id _ _ (Hfresh p Hp)). split; [auto |].
    intros u af Haf. exists af.
    split; [exact Haf |]. exists []. symmetry. apply app_nil_r.
  - rewrite HS, HC. specialize (Hfresh p Hp). split.
    + intros x c Hc. rewrite lookup_insert_ne; [exact Hc | congruence].
    + intros u af Haf. destruct (decide (u = vs)) as [-> | Hne].
      * rewrite lookup_alter_eq, Haf. cbn. eexists. split; [reflexivity |].
        exists [p]. reflexivity.
      * rewrite lookup_alter_ne by congruence. exists af.
        split; [exact Haf |]. exists []. symmetry. apply app_nil_r.
Qed.

Lemma add_connection_keeps_lists_sound_witness :
  let w := Demo.world_of (Demo.endpoint false true [2000])
             {[ 2000 := Demo.live 7 4 ]} ∅ [] 0 [1000; 5; 0; 0] in
  let w' := Demo.world_of (Demo.endpoint false true [2000; 1000])
              (<[ 1000 := Demo.live 9 5 ]> {[ 2000 := Demo.live 7 4 ]}) ∅ [] 0 [] in
  let t := [EMalloc 1000; ENewDevice 5; ESetIfname 5 Demo.sock_path 15;
            ESetBuiltinVirtioNet 5 true; EAttachVdpaDevice 5 (-1);
            ENewConnection 5 0; EFdsetAdd 9 vhost_user_read_cb_ptr 1000 0;
            ELock (ConnQ O); EInsertTail (ConnQ O) 1000; EUnlock (ConnQ O);
            EFdsetPipeNotify] in
  linked_ok w /\
  vhost_user_add_connection 9 (Some O) w = Some (tt, w', t) /\
  linked_ok w' /\
  (forall x c, conns w !! x = Some c -> conns w' !! x = Some c) /\
  (forall u af, sockets w !! u = Some af ->
     exists af', sockets w' !! u = Some af' /\
       exists new, conn_list af' = conn_list af ++ new).
Proof.
  intros w w' t.
  assert (Hok : linked_ok w).
  { intros u af Hu. cbn in Hu. apply lookup_singleton_Some in Hu as [<- <-]. split.
    - repeat constructor. intros [].
    - intros p [<- | []]. exists (Demo.live 7 4). split; reflexivity. }
  assert (Hrun : vhost_user_add_connection 9 (Some O) w = Some (tt, w', t))
    by (vm_compute; reflexivity).
  split; [exact Hok |]. split; [exact Hrun |].
  apply (add_connection_keeps_lists_sound 9 O w w' t Hok Hrun).
  unfold t. intros p Hin. in_trace. reflexivity.
Defined.

End ManagerMore.

(** ** Creating the endpoint's socket *)

Module SocketMore.
Import World Env AfUnix Trace Exec ListFacts Sound.

Lemma substring_0_length (n : nat) (s : string) :
  String.length (String.substring 0 n s) = Nat.min n (String.length s).
Proof.
  revert s. induction n as [| n IH]; intros s.
  - destruct s; reflexivity.
  - destruct s as [| c s]; [reflexivity |]. cbn. rewrite IH. reflexivity.
Qed.

Lemma substring_0_prefix (n : nat) (s : string) :
  exists rest, s = (String.substring 0 n s ++ rest)%string.
Proof.
  revert s. induction n as [| n IH]; intros s.
  - exists s. destruct s; reflexivity.
  - destruct s as [| c s]; [exists EmptyString; reflexivity |].
    destruct (IH s) as (rest & Hrest). exists rest.
    change (String c s = String c (String.substring 0 n s ++ rest)%string).
    f_equal. exact Hrest.
Qed.

Lemma substring_0_all (n : nat) (s : string) :
  (String.length s <= n)%nat -> String.substring 0 n s = s.
Proof.
  revert s. induction n as [| n IH]; intros s Hlen.
  - destruct s; [reflexivity | cbn in Hlen; lia].
  - destruct s as [| c s]; [reflexivity |]. cbn in *. rewrite IH by lia.
    reflexivity.
Qed.

(** X5: the address the endpoint gets is the configured path cut to what
    [sun_path] holds beside its terminating NUL: a prefix of the path of at
    most 107 characters, and the whole path unless that is longer. *)
Theorem sun_path_fits (p : string) :
  String.length (sun_path_of p) = Nat.min 107 (String.length p) /\
  (String.length (sun_path_of p) < Sys.SUN_PATH_LEN)%nat /\
  (exists rest, p = (sun_path_of p ++ rest)%string) /\
  ((107 < String.length p)%nat \/ sun_path_of p = p).
Proof.
  unfold sun_path_of. change (Sys.SUN_PATH_LEN - 1)%nat with 107%nat.
  rewrite substring_0_length. change Sys.SUN_PATH_LEN with 108%nat.
  split; [reflexivity |]. split; [lia |]. split; [apply substring_0_prefix |].
  destruct (le_lt_dec (String.length p) 107) as [Hle | Hlt].
  - right. apply substring_0_all. exact Hle.
  - left. exact Hlt.
Qed.

(** What [create_unix_socket] leaves of the world: the records as they
    were, and the endpoint with at most its descriptor and address
    replaced. *)
Lemma create_unix_socket_world (vs : nat) (w w' : world) (r : Z) (t : list event) :
  create_unix_socket vs w = Some (r, w', t) ->
  conns w' = conns w /\ reconns w' = reconns w /\
  reconn_list w' = reconn_list w /\ errno w' = errno w /\
  (sockets w' = sockets w \/
   exists fd name, sockets w' = alter (set_socket_fd fd name) vs (sockets w)) /\
  (forall p, ~ In (EMalloc p) t).
Proof.
  destruct w as [S C R RL E sc]. unfold create_unix_socket.
  exec. all: try ended. all: cbn [sockets conns reconns reconn_list errno].
  all: repeat (split; [reflexivity |]).
  all: split; [first [left; reflexivity | right; do 2 eexists; reflexivity] |].
  all: intros p Hin; in_trace.
Qed.

(** X6: [create_unix_socket] returns 0 or -1. With 0 the endpoint holds
    the new descriptor, which is not negative and still open, and the
    address cut from its path; its list of connections is untouched; a
    server's descriptor is left blocking (no [fcntl] is made), a client's was
    switched to non-blocking by one successful [fcntl]. With -1 the endpoint
    is as it was, and a descriptor that was created is closed again. *)
Theorem create_unix_socket_outcomes (vs : nat) (af : af_unix_socket) (w w' : world)
    (r : Z) (t : list event) :
  sockets w !! vs = Some af ->
  create_unix_socket vs w = Some (r, w', t) ->
  exists fd,
    script w = fd :: skipn 1 (script w) /\
    ((r = 0 /\ 0 <= fd /\
      sockets w' =
        <[vs := {| socket := socket af; conn_list := conn_list af;
                   socket_fd := fd; un := sun_path_of (path (socket af)) |}]>
          (sockets w) /\
      t = ESocket fd ::
          (if is_server (socket af) then []
           else [EFcntl fd Sys.F_SETFL Sys.O_NONBLOCK 0]))
     \/
     (r = -1 /\ sockets w' = sockets w /\
      ((fd < 0 /\ t = [ESocket fd]) \/
       (0 <= fd /\ is_server (socket af) = false /\
        exists a, a <> 0 /\
          t = [ESocket fd; EFcntl fd Sys.F_SETFL Sys.O_NONBLOCK a; EClose fd])))).
Proof.
  destruct w as [S C R RL E sc]. cbn [sockets script]. intros Haf.
  unfold create_unix_socket.
  exec. all: try ended. all: cbn [sockets]; tests.
  all: eexists; split; [reflexivity |].
  all: assert (Hins : forall fd,
         alter (set_socket_fd fd (sun_path_of (path (socket af)))) vs S =
         <[vs := {| socket := socket af; conn_list := conn_list af;
                    socket_fd := fd; un := sun_path_of (path (socket af)) |}]> S)
       by (intros fd; apply map_eq; intros u;
           destruct (decide (u = vs)) as [-> | Hne];
           [rewrite lookup_alter_eq, lookup_insert_eq, Haf; reflexivity
           | rewrite lookup_alter_ne, lookup_insert_ne by congruence; reflexivity]).
  all: try (left; split; [reflexivity |]; split; [assumption |];
            split; [apply Hins | subst; reflexivity]).
  all: right; split; [reflexivity |]; split; [reflexivity |].
  all: try (left; split; [assumption | reflexivity]).
  all: right; split; [assumption |]; split; [reflexivity |].
  all: eexists; split; [eassumption | reflexivity].
Qed.

Lemma create_unix_socket_outcomes_witness :
  let af := Demo.endpoint_at (-1) false true [2000] in
  let w := Demo.world_of af {[ 2000 := Demo.live 7 4 ]} ∅ [] 0 [3; 0] in
  let w' := Demo.world_of (Demo.endpoint_at 3 false true [2000])
              {[ 2000 := Demo.live 7 4 ]} ∅ [] 0 [] in
  let t := [ESocket 3; EFcntl 3 Sys.F_SETFL Sys.O_NONBLOCK 0] in
  create_unix_socket O w = Some (0, w', t) /\
  exists fd,
    script w = fd :: skipn 1 (script w) /\
    ((0 = 0 /\ 0 <= fd /\
      sockets w' =
        <[O := {| socket := socket af; conn_list := conn_list af;
                  socket_fd := fd; un := sun_path_of (path (socket af)) |}]>
          (sockets w) /\
      t = ESocket fd ::
          (if is_server (socket af) then []
           else [EFcntl fd Sys.F_SETFL Sys.O_NONBLOCK 0]))
     \/
     (0 = -1 /\ sockets w' = sockets w /\
      ((fd < 0 /\ t = [ESocket fd]) \/
       (0 <= fd /\ is_server (socket af) = false /\
        exists a, a <> 0 /\
          t = [ESocket fd; EFcntl fd Sys.F_SETFL Sys.O_NONBLOCK a; EClose fd])))).
Proof.
  intros af w w' t.
  assert (Hrun : create_unix_socket O w = Some (0, w', t))
    by (vm_compute; reflexivity).
  split; [exact Hrun |].
  apply (create_unix_socket_outcomes O af w w' 0 t); [reflexivity | exact Hrun].
Defined.

End SocketMore.

(** ** Connecting a client *)

Module ClientMore.
Import World Env AfUnix Trace Exec ListFacts Sound.

(** Clearing O_NONBLOCK in a word of flags clears bit 11 and no other. *)
Lemma clear_nonblock_bits (fl : Z) :
  let a := Z.land fl (Z.lnot Sys.O_NONBLOCK) in
  Z.testbit a 11 = false /\
  forall i, i <> 11 -> Z.testbit a i = Z.testbit fl i.
Proof.
  cbn zeta. split.
  - rewrite Z.land_spec, Z.lnot_spec by lia.
    change (Z.testbit Sys.O_NONBLOCK 11) with true. cbn. apply andb_false_r.
  - intros i Hi. destruct (Z.neg_nonneg_cases i) as [Hneg | Hpos].
    + rewrite !Z.testbit_neg_r by lia. reflexivity.
    + rewrite Z.land_spec, Z.lnot_spec by lia.
      change Sys.O_NONBLOCK with (2 ^ 11).
      rewrite Z.pow2_bits_false by lia. cbn. apply andb_true_r.
Qed.

(** X7: [vhost_user_connect_nonblock] returns 0, -1 or -2 and never
    closes the descriptor, allocates or touches a list or record. It
    returns -1 exactly when [connect] failed with an error other than
    EISCONN, and then makes no further call. Otherwise it reads the flags
    and, if O_NONBLOCK is set in them, writes them back with that one bit
    cleared and every other bit as read; it returns 0 only when the
    descriptor is then known to be blocking. *)
Theorem connect_nonblock_clears_only_nonblock (fd : Z) (addr : string)
    (w w' : world) (rc : Z) (t : list event) :
  vhost_user_connect_nonblock fd addr w = Some (rc, w', t) ->
  (rc = 0 \/ rc = -1 \/ rc = -2) /\
  (forall x, ~ In (EClose x) t) /\
  (forall p, ~ In (EMalloc p) t) /\
  (sockets w' = sockets w /\ conns w' = conns w /\
   reconns w' = reconns w /\ reconn_list w' = reconn_list w) /\
  (exists c, starts_with t [EConnect fd addr c] /\
     (rc = -1 <-> c < 0 /\ errno w' <> Sys.EISCONN) /\
     (rc = -1 -> t = [EConnect fd addr c])) /\
  (forall x a r, In (EFcntl x Sys.F_SETFL a r) t ->
     x = fd /\ (r = 0 <-> rc = 0) /\
     exists fl, In (EFcntl fd Sys.F_GETFL 0 fl) t /\ 0 <= fl /\
       Z.testbit fl 11 = true /\ Z.testbit a 11 = false /\
       forall i, i <> 11 -> Z.testbit a i = Z.testbit fl i) /\
  (rc = 0 ->
   exists fl, In (EFcntl fd Sys.F_GETFL 0 fl) t /\ 0 <= fl /\
     (Z.testbit fl 11 = false \/
      In (EFcntl fd Sys.F_SETFL (Z.land fl (Z.lnot Sys.O_NONBLOCK)) 0) t)).
Proof.
  intros Hrun.
  destruct (ClientFacts.connect_nonblock_outcome fd addr w w' rc t Hrun)
    as (Hout & HS & HC & HR & HRL).
  assert (Hbit : forall fl, 0 <= fl ->
            (Z.land fl Sys.O_NONBLOCK = 0 <-> Z.testbit fl 11 = false)).
  { intros fl Hfl. change Sys.O_NONBLOCK with (2 ^ 11). split.
    - intros Hz. destruct (Z.testbit fl 11) eqn:Hb; [| reflexivity].
      assert (Hc : Z.testbit (Z.land fl (2 ^ 11)) 11 = true).
      { rewrite Z.land_spec, Hb, Z.pow2_bits_true by lia. reflexivity. }
      rewrite Hz in Hc. rewrite Z.bits_0 in Hc. discriminate.
    - intros Hb. apply Z.bits_inj'. intros i Hi.
      rewrite Z.land_spec, Z.bits_0.
      destruct (Z.eq_dec i 11) as [-> | Hne].
      + rewrite Hb. reflexivity.
      + rewrite Z.pow2_bits_false by lia. apply andb_false_r. }
  assert (Hbit' : forall fl, 0 <= fl -> Z.land fl Sys.O_NONBLOCK <> 0 ->
                    Z.testbit fl 11 = true).
  { intros fl Hfl Hnz. destruct (Z.testbit fl 11) eqn:Hb; [reflexivity |].
    exfalso. apply Hnz. apply Hbit; assumption. }
  split; [exact (ClientFacts.connect_nonblock_codes _ _ _ _ _ Hout) |].
  split; [intros x Hin; inversion Hout; subst; in_trace |].
  split; [intros x Hin; inversion Hout; subst; in_trace |].
  split; [repeat split; assumption |].
  split.
  { inversion Hout; subst; exists c.
    all: split; [eexists; reflexivity |].
    all: split; [split; [intros; try lia; split; assumption | intros [? ?]; try reflexivity; lia] |].
    all: intros; try reflexivity; lia. }
  split.
  { intros x a r Hin. inversion Hout; subst; in_trace.
    all: split; [reflexivity |].
    all: split; [split; intros; try reflexivity; try lia; congruence |].
    all: exists fl; split; [cbn; tauto |]; split; [assumption |].
    all: split; [apply Hbit'; assumption |].
    all: apply clear_nonblock_bits. }
  intros H0. inversion Hout; subst; try lia.
  all: exists fl; split; [cbn; tauto |]; split; [assumption |].
  - right. cbn. tauto.
  - left. apply Hbit; assumption.
Qed.

Lemma connect_nonblock_clears_only_nonblock_witness :
  let w := Demo.world_of (Demo.endpoint false true []) ∅ ∅ [] 0 [0; 2050; 0] in
  let w' := Demo.world_of (Demo.endpoint false true []) ∅ ∅ [] 0 [] in
  let t := [EConnect 3 Demo.sock_path 0; EFcntl 3 Sys.F_GETFL 0 2050;
            EFcntl 3 Sys.F_SETFL 2 0] in
  vhost_user_connect_nonblock 3 Demo.sock_path w = Some (0, w', t) /\
  (0 = 0 \/ 0 = -1 \/ 0 = -2) /\
  (forall x, ~ In (EClose x) t) /\
  (forall p, ~ In (EMalloc p) t) /\
  (sockets w' = sockets w /\ conns w' = conns w /\
   reconns w' = reconns w /\ reconn_list w' = reconn_list w) /\
  (exists c, starts_with t [EConnect 3 Demo.sock_path c] /\
     (0 = -1 <-> c < 0 /\ errno w' <> Sys.EISCONN) /\
     (0 = -1 -> t = [EConnect 3 Demo.sock_path c])) /\
  (forall x a r, In (EFcntl x Sys.F_SETFL a r) t ->
     x = 3 /\ (r = 0 <-> 0 = 0) /\
     exists fl, In (EFcntl 3 Sys.F_GETFL 0 fl) t /\ 0 <= fl /\
       Z.testbit fl 11 = true /\ Z.testbit a 11 = false /\
       forall i, i <> 11 -> Z.testbit a i = Z.testbit fl i) /\
  (0 = 0 ->
   exists fl, In (EFcntl 3 Sys.F_GETFL 0 fl) t /\ 0 <= fl /\
     (Z.testbit fl 11 = false \/
      In (EFcntl 3 Sys.F_SETFL (Z.land fl (Z.lnot Sys.O_NONBLOCK)) 0) t)).
Proof.
  intros w w' t.
  assert (Hrun : vhost_user_connect_nonblock 3 Demo.sock_path w = Some (0, w', t))
    by (vm_compute; reflexivity).
  split; [exact Hrun |].
  exact (connect_nonblock_clears_only_nonblock 3 Demo.sock_path w w' 0 t Hrun).
Defined.

End ClientMore.

(** ** The read callback *)

Module ReadMore.
Import World Env AfUnix Trace Exec ListFacts Sound.

(** X4: the read callback hands exactly one message to the protocol
    handler. If the handler does not fail, the callback does nothing else:
    it closes and frees nothing, leaves every list and record alone and
    leaves the caller's removal flag as it found it. The flag is set to 1
    only when the handler failed. *)
Theorem read_cb_handler_success_is_silent (connfd dat remove : Z)
    (conn : vhost_user_connection) (w w' : world) (rm : Z) (t : list event) :
  conns w !! dat = Some conn ->
  vhost_user_read_cb connfd dat remove w = Some (rm, w', t) ->
  exists r rest,
    script w = r :: rest /\
    starts_with t [EMsgHandler (vid conn) connfd r] /\
    (0 <= r -> rm = remove /\ t = [EMsgHandler (vid conn) connfd r] /\
               w' = set_script rest w) /\
    (r < 0 -> rm = 1 /\ In ESetRemove t /\ In (EClose connfd) t /\ In (EFree dat) t) /\
    (rm <> remove -> r < 0).
Proof.
  destruct w as [S C R RL E sc]. cbn [conns script]. intros Hconn.
  unfold vhost_user_read_cb. cbn. rewrite Hconn. cbn.
  destruct sc as [| r sc]; cbn; [discriminate |].
  destruct (r <? 0) eqn:Hr; cbn.
  - apply Z.ltb_lt in Hr. exec.
    all: match goal with
         | |- context [create_unix_socket ?v ?x] =>
             destruct (create_unix_socket v x) as [[[rs ws] ts] |] eqn:Hcs; cbn;
             [| discriminate];
             destruct (vhost_user_start_client v ws) as [[[rc wc] tc] |] eqn:Hsc; cbn;
             [| discriminate]
         | _ => idtac
         end.
    all: try ended.
    all: do 2 eexists; split; [reflexivity |].
    all: split; [eexists; reflexivity |].
    all: split; [lia |].
    all: split; [intros _; split; [reflexivity | cbn; tauto] | intros _; exact Hr].
  - apply Z.ltb_ge in Hr. ended. exists r, sc. split; [reflexivity |].
    split; [exists []; reflexivity |].
    split; [intros _; repeat split |].
    split; lia.
Qed.

Lemma read_cb_handler_success_is_silent_witness :
  let w := Demo.world_of (Demo.endpoint false true [2000])
             {[ 2000 := Demo.live 7 4 ]} ∅ [] 0 [0; 11] in
  vhost_user_read_cb 7 2000 0 w = Some (0, set_script [11] w, [EMsgHandler 4 7 0]) /\
  exists r rest,
    script w = r :: rest /\
    starts_with [EMsgHandler 4 7 0] [EMsgHandler (vid (Demo.live 7 4)) 7 r] /\
    (0 <= r -> 0 = 0 /\ [EMsgHandler 4 7 0] = [EMsgHandler (vid (Demo.live 7 4)) 7 r] /\
               set_script [11] w = set_script rest w) /\
    (r < 0 -> 0 = 1 /\ In ESetRemove [EMsgHandler 4 7 0] /\
              In (EClose 7) [EMsgHandler 4 7 0] /\ In (EFree 2000) [EMsgHandler 4 7 0]) /\
    (0 <> 0 -> r < 0).
Proof.
  intros w.
  assert (Hrun : vhost_user_read_cb 7 2000 0 w =
                 Some (0, set_script [11] w, [EMsgHandler 4 7 0]))
    by (vm_compute; reflexivity).
  split; [exact Hrun |].
  apply (read_cb_handler_success_is_silent 7 2000 0 (Demo.live 7 4) w _ 0 _);
    [reflexivity | exact Hrun].
Defined.

Lemma linked_ok_retarget (vs : nat) (f : af_unix_socket -> af_unix_socket)
    (w w1 : world) :
  (forall a, conn_list (f a) = conn_list a) ->
  sockets w1 = alter f vs (sockets w) ->
  conns w1 = conns w ->
  linked_ok w -> linked_ok w1.
Proof.
  intros Hf HS HC Hok u af. rewrite HS, HC.
  destruct (decide (u = vs)) as [-> | Hne].
  - rewrite lookup_alter_eq. destruct (sockets w !! vs) as [a |] eqn:Ha;
      [| discriminate].
    cbn. intros [= <-]. rewrite Hf. exact (Hok vs a Ha).
  - rewrite lookup_alter_ne by congruence. apply Hok.
Qed.

Lemma linked_ok_unlink (dat : Z) (conn : vhost_user_connection) (w w1 : world) :
  linked_ok w ->
  conns w !! dat = Some conn ->
  sockets w1 = alter (set_conn_list (remove_ptr dat)) (vsocket conn) (sockets w) ->
  conns w1 = delete dat (conns w) ->
  linked_ok w1 /\
  forall u af, sockets w1 !! u = Some af -> ~ In dat (conn_list af).
Proof.
  intros Hok Hconn HS HC.
  assert (Hall : forall u af, sockets w1 !! u = Some af ->
            List.NoDup (conn_list af) /\
            (forall p, In p (conn_list af) ->
               p <> dat /\ exists c, conns w !! p = Some c /\ vsocket c = u)).
  { intros u af. rewrite HS. destruct (decide (u = vsocket conn)) as [-> | Hne].
    - rewrite lookup_alter_eq.
      destruct (sockets w !! vsocket conn) as [a |] eqn:Ha; [| discriminate].
      cbn. intros [= <-]. cbn. destruct (Hok _ a Ha) as [Hnd Hmem]. split.
      + unfold remove_ptr. apply List.NoDup_filter. exact Hnd.
      + intros p Hp. apply in_remove_ptr in Hp. destruct Hp as [Hp Hne].
        split; [exact Hne | exact (Hmem p Hp)].
    - rewrite lookup_alter_ne by congruence. intros Ha.
      destruct (Hok _ af Ha) as [Hnd Hmem]. split; [exact Hnd |].
      intros p Hp. destruct (Hmem p Hp) as (c & Hc & Hv). split.
      + intros ->. congruence.
      + exists c. split; assumption. }
  split.
  - intros u af Ha. destruct (Hall u af Ha) as [Hnd Hmem]. split; [exact Hnd |].
    intros p Hp. destruct (Hmem p Hp) as (Hne & c & Hc & Hv). exists c.
    rewrite HC, lookup_delete_ne by congruence. split; assumption.
  - intros u af Ha Hin. destruct (Hall u af Ha) as [_ Hmem].
    destruct (Hmem dat Hin) as [Hne _]. congruence.
Qed.

Lemma linked_ok_start_client (vs : nat) (w w' : world) (r : Z) (t : list event) :
  linked_ok w ->
  vhost_user_start_client vs w = Some (r, w', t) ->
  (forall p, In (EMalloc p) t -> conns w !! p = None) ->
  linked_ok w' /\
  (forall x, conns w !! x = None -> conns w' !! x <> None -> In (EMalloc x) t).
Proof.
  intros Hok. unfold vhost_user_start_client. cbn.
  destruct (sockets w !! vs) as [af |] eqn:Haf; cbn; [| discriminate].
  destruct (vhost_user_connect_nonblock (socket_fd af) (un af) w)
    as [[[rc w1] t1] |] eqn:Hc; [| discriminate].
  destruct (ClientFacts.connect_nonblock_outcome _ _ _ _ _ _ Hc)
    as (_ & HS & HC & _ & _).
  assert (Hok1 : linked_ok w1).
  { intros u a. rewrite HS, HC. apply Hok. }
  cbn. destruct (rc =? 0) eqn:H0; cbn.
  - destruct (vhost_user_add_connection (socket_fd af) (Some vs) w1)
      as [[[[] w2] t2] |] eqn:Ha; [| cbn; discriminate].
    cbn. ended. intros Hfresh. split.
    + apply (ManagerMore.linked_ok_add_connection _ _ _ _ _ Hok1 Ha).
      intros p Hp. rewrite HC. apply Hfresh. apply in_or_app. right.
      apply in_or_app. left. exact Hp.
    + intros x Hx Hx'. apply in_or_app. right. apply in_or_app. left.
      destruct (ManagerMore.add_connection_world _ _ _ _ _ Ha)
        as [[_ [HC2 | (p & Hp & HC2)]] | (p & v & Hp & _ & HC2)];
        rewrite HC2, ?HC in Hx'.
      * congruence.
      * destruct (decide (x = p)) as [-> | Hne]; [exact Hp |].
        rewrite lookup_delete_ne in Hx' by congruence. congruence.
      * destruct (decide (x = p)) as [-> | Hne]; [exact Hp |].
        rewrite lookup_insert_ne in Hx' by congruence. congruence.
  - destruct w1 as [S1 C1 R1 RL1 E1 sc1]. cbn [sockets conns] in *.
    exec. all: try ended. all: intros _.
    all: split; [intros u a; cbn [sockets conns]; rewrite <- ?HS, <- ?HC; apply Hok1 |].
    all: cbn [conns]; intros x Hx Hx'; congruence.
Qed.

(** X8: if every endpoint's list holds distinct addresses of live records
    that point back to the endpoint, the same holds after the read callback,
    also when the handler fails and the callback tears the connection down
    and starts the client again; the allocator may then hand out the address
    just freed but none of a live record. The address of a record the
    callback freed is afterwards on a list only if it was allocated anew. *)
Theorem read_cb_keeps_lists_sound (connfd dat remove : Z)
    (conn : vhost_user_connection) (w w' : world) (rm : Z) (t : list event) :
  linked_ok w ->
  conns w !! dat = Some conn ->
  vhost_user_read_cb connfd dat remove w = Some (rm, w', t) ->
  (forall p, In (EMalloc p) t -> p = dat \/ conns w !! p = None) ->
  linked_ok w' /\
  (forall u af, In (EFree dat) t -> sockets w' !! u = Some af ->
     In dat (conn_list af) -> In (EMalloc dat) t).
Proof.
  destruct w as [S C R RL E sc]. intros Hok Hconn. cbn [conns] in Hconn.
  unfold vhost_user_read_cb. cbn. rewrite Hconn. cbn.
  destruct sc as [| r sc]; cbn; [discriminate |].
  destruct (r <? 0) eqn:Hr; cbn.
  - exec.
    all: match goal with
         | |- context [create_unix_socket ?v ?x] =>
             destruct (create_unix_socket v x) as [[[rs ws] ts] |] eqn:Hcs; cbn;
             [| discriminate];
             destruct (vhost_user_start_client v ws) as [[[rc wc] tc] |] eqn:Hsc; cbn;
             [| discriminate]
         | _ => idtac
         end.
    all: try ended.
    all: intros Hfresh.
    all: match goal with
         | H : create_unix_socket _ ?x = _ |- _ =>
             destruct (linked_ok_unlink dat conn _ x Hok Hconn eq_refl eq_refl)
               as [Hokx Hgone]
         | |- linked_ok ?x /\ _ =>
             destruct (linked_ok_unlink dat conn _ x Hok Hconn eq_refl eq_refl)
               as [Hokx Hgone]
         end.
    all: cbn [sockets conns] in Hokx, Hgone.
    all: try (split; [exact Hokx | intros u af _ Hu Hin; exfalso; exact (Hgone u af Hu Hin)]).
    all: destruct (SocketMore.create_unix_socket_world _ _ _ _ _ Hcs)
           as (HCs & _ & _ & _ & HSs & Hnomalloc).
    all: cbn [sockets conns] in HCs, HSs.
    all: assert (Hoks : linked_ok ws)
           by (destruct HSs as [HSs | (fd' & name & HSs)];
               [intros u0 a0; rewrite HSs, HCs; apply Hokx
               | match type of Hokx with
                 | linked_ok ?x =>
                     refine (linked_ok_retarget (vsocket conn) (set_socket_fd fd' name)
                               x ws _ HSs HCs Hokx)
                 end;
                 reflexivity]).
    all: rewrite ?app_nil_r in *.
    all: match type of Hfresh with
         | forall p, In _ ?t -> _ =>
             assert (Hin_tc : forall e, In e tc -> In e t)
               by (intros e He;
                   repeat match goal with |- In _ (_ :: _) => right end;
                   apply in_or_app; right; exact He)
         end.
    all: destruct (linked_ok_start_client _ _ _ _ _ Hoks Hsc) as [Hok' Hnew];
         [intros p Hp; rewrite HCs;
          destruct (Hfresh p (Hin_tc _ Hp)) as [-> | Hnone];
          [apply lookup_delete_eq | rewrite lookup_delete_None; right; exact Hnone] |].
    all: split; [exact Hok' |].
    all: intros u af _ Hu Hin; apply Hin_tc, Hnew;
         [rewrite HCs; apply lookup_delete_eq |].
    all: destruct (Hok' u af Hu) as [_ Hmem];
         destruct (Hmem dat Hin) as (c & Hc & _); congruence.
  - ended. intros _. split; [exact Hok |]. intros u af Hin. in_trace.
Qed.

Lemma read_cb_keeps_lists_sound_witness :
  let w := Demo.world_of (Demo.endpoint false true [2000])
             {[ 2000 := Demo.live 3 4 ]} ∅ [] 0
             [-1; 0; 5; 0; 0; 2048; 0; 2000; 6; 0; 0] in
  let w' := Demo.world_of (Demo.endpoint_at 5 false true [2000])
              {[ 2000 := Demo.live 5 6 ]} ∅ [] 0 [] in
  let t := [EMsgHandler 4 3 (-1); EGetDevice 4 0; EClose 3; ESetRemove;
            EDestroyConnection 4; EDestroyDevice 4; ELock (ConnQ O);
            ERemove (ConnQ O) 2000; EUnlock (ConnQ O); EFree 2000;
            ESocket 5; EFcntl 5 Sys.F_SETFL Sys.O_NONBLOCK 0;
            EConnect 5 Demo.sock_path 0; EFcntl 5 Sys.F_GETFL 0 2048;
            EFcntl 5 Sys.F_SETFL 0 0;
            EMalloc 2000; ENewDevice 6; ESetIfname 6 Demo.sock_path 15;
            ESetBuiltinVirtioNet 6 true; EAttachVdpaDevice 6 (-1);
            ENewConnection 6 0; EFdsetAdd 5 vhost_user_read_cb_ptr 2000 0;
            ELock (ConnQ O); EInsertTail (ConnQ O) 2000; EUnlock (ConnQ O);
            EFdsetPipeNotify] in
  linked_ok w /\
  vhost_user_read_cb 3 2000 0 w = Some (1, w', t) /\
  linked_ok w' /\
  (forall u af, In (EFree 2000) t -> sockets w' !! u = Some af ->
     In 2000 (conn_list af) -> In (EMalloc 2000) t).
Proof.
  intros w w' t.
  assert (Hok : linked_ok w).
  { intros u af Hu. cbn in Hu. apply lookup_singleton_Some in Hu as [<- <-]. split.
    - repeat constructor. intros [].
    - intros p [<- | []]. exists (Demo.live 3 4). split; reflexivity. }
  assert (Hrun : vhost_user_read_cb 3 2000 0 w = Some (1, w', t))
    by (vm_compute; reflexivity).
  split; [exact Hok |]. split; [exact Hrun |].
  apply (read_cb_keeps_lists_sound 3 2000 0 (Demo.live 3 4) w w' 1 t Hok);
    [reflexivity | exact Hrun |].
  unfold t. intros p Hin. in_trace. left. reflexivity.
Defined.

End ReadMore.

(** ** The reconnect registry *)

Module RegistryMore.
Import World Env AfUnix Trace Exec ListFacts Sound.

Lemma remove_ptr_absent (p : Z) (l : list Z) :
  ~ In p l -> remove_ptr p l = l.
Proof.
  induction l as [| q l IH]; intros Hn; [reflexivity |].
  unfold remove_ptr in *. cbn. destruct (Z.eqb_spec q p) as [-> | Hne].
  - exfalso. apply Hn. left. reflexivity.
  - cbn. rewrite IH; [reflexivity |]. intros Hin. apply Hn. right. exact Hin.
Qed.

Lemma remove_ptr_middle (p : Z) (pre next : list Z) :
  List.NoDup (pre ++ p :: next) -> remove_ptr p (pre ++ p :: next) = pre ++ next.
Proof.
  intros Hnd. pose proof (List.NoDup_remove_2 _ _ _ Hnd) as Hnot.
  unfold remove_ptr. rewrite List.filter_app. fold (remove_ptr p pre).
  fold (remove_ptr p (p :: next)).
  rewrite remove_ptr_absent by (intros Hin; apply Hnot, in_or_app; left; exact Hin).
  rewrite remove_ptr_head by (intros Hin; apply Hnot, in_or_app; right; exact Hin).
  reflexivity.
Qed.

Lemma remove_reconnect_from_absent (vs : nat) (l : list Z) (w : world) :
  (forall q, In q l -> exists e, reconns w !! q = Some e /\ r_vsocket e <> vs) ->
  remove_reconnect_from vs l w = Some (false, w, []).
Proof.
  induction l as [| q l IH]; intros Hall; [reflexivity |].
  destruct (Hall q) as (e & He & Hne); [left; reflexivity |].
  cbn. rewrite He. cbn. apply Nat.eqb_neq in Hne. rewrite Hne.
  rewrite IH; [reflexivity |]. intros x Hx. apply Hall. right. exact Hx.
Qed.

Lemma remove_reconnect_from_first (vs : nat) (pre next : list Z) (p : Z)
    (rc : vhost_user_reconnect) (w : world) :
  (forall q, In q pre -> exists e, reconns w !! q = Some e /\ r_vsocket e <> vs) ->
  reconns w !! p = Some rc ->
  r_vsocket rc = vs ->
  remove_reconnect_from vs (pre ++ p :: next) w =
    Some (true, set_reconns (delete p) (set_reconn_list (remove_ptr p) w),
          [ERemove ReconnQ p; EClose (r_fd rc); EFree p]).
Proof.
  intros Hall Hp Hvs. induction pre as [| q pre IH].
  - cbn. rewrite Hp. cbn. apply Nat.eqb_eq in Hvs. rewrite Hvs.
    destruct w. reflexivity.
  - destruct (Hall q) as (e & He & Hne); [left; reflexivity |].
    cbn. rewrite He. cbn. apply Nat.eqb_neq in Hne. rewrite Hne.
    cbn in IH. rewrite IH; [reflexivity |]. intros x Hx. apply Hall. right. exact Hx.
Qed.

(** X9: [vhost_user_remove_reconnect] on an endpoint with no entry in the
    registry, an empty registry included, returns false and changes
    nothing; it only takes and releases the registry's mutex. *)
Theorem remove_reconnect_absent (vs : nat) (w : world) :
  (forall q, In q (reconn_list w) ->
     exists e, reconns w !! q = Some e /\ r_vsocket e <> vs) ->
  vhost_user_remove_reconnect vs w =
    Some (false, w, [ELock ReconnQ; EUnlock ReconnQ]).
Proof.
  intros Hall. unfold vhost_user_remove_reconnect. cbn.
  rewrite (remove_reconnect_from_absent vs _ w Hall). destruct w. reflexivity.
Qed.

Lemma remove_reconnect_absent_witness :
  let other := {| r_un := Demo.sock_path; r_fd := 8; r_vsocket := 1%nat |} in
  let w := Demo.world_of (Demo.endpoint false true []) ∅
             {[ 2000 := other ]} [2000] 0 [] in
  vhost_user_remove_reconnect O w =
    Some (false, w, [ELock ReconnQ; EUnlock ReconnQ]).
Proof.
  intros other w. apply (remove_reconnect_absent O w).
  intros q [<- | []]. exists other. split; [reflexivity | discriminate].
Defined.

(** X10: [vhost_user_remove_reconnect] takes the first entry of the
    endpoint off the registry, under the registry's mutex: it unlinks that
    entry, closes its descriptor, frees it and returns true. Entries before
    and after it stay, in their order, also later entries of the same
    endpoint; no other descriptor is closed. *)
Theorem remove_reconnect_first_match (vs : nat) (pre next : list Z) (p : Z)
    (rc : vhost_user_reconnect) (w : world) :
  reconn_list w = pre ++ p :: next ->
  List.NoDup (reconn_list w) ->
  (forall q, In q pre -> exists e, reconns w !! q = Some e /\ r_vsocket e <> vs) ->
  reconns w !! p = Some rc ->
  r_vsocket rc = vs ->
  exists w',
    vhost_user_remove_reconnect vs w =
      Some (true, w',
            [ELock ReconnQ; ERemove ReconnQ p; EClose (r_fd rc); EFree p;
             EUnlock ReconnQ]) /\
    reconn_list w' = pre ++ next /\
    reconns w' = delete p (reconns w) /\
    sockets w' = sockets w /\ conns w' = conns w /\
    errno w' = errno w /\ script w' = script w.
Proof.
  intros Hl Hnd Hall Hp Hvs.
  exists (set_reconns (delete p) (set_reconn_list (remove_ptr p) w)).
  split.
  - unfold vhost_user_remove_reconnect. cbn. rewrite Hl.
    rewrite (remove_reconnect_from_first vs pre next p rc w Hall Hp Hvs).
    cbn. rewrite ?Hl. reflexivity.
  - cbn. rewrite Hl in *. rewrite (remove_ptr_middle _ _ _ Hnd). repeat split.
Qed.

Lemma remove_reconnect_first_match_witness :
  let other := {| r_un := Demo.sock_path; r_fd := 8; r_vsocket := 1%nat |} in
  let again := {| r_un := Demo.sock_path; r_fd := 4; r_vsocket := O |} in
  let R : gmap Z vhost_user_reconnect :=
    <[ 2000 := other ]> (<[ 3000 := Demo.parked ]> {[ 4000 := again ]}) in
  let w := Demo.world_of (Demo.endpoint false true []) ∅ R [2000; 3000; 4000] 0 [] in
  exists w',
    vhost_user_remove_reconnect O w =
      Some (true, w',
            [ELock ReconnQ; ERemove ReconnQ 3000; EClose 3; EFree 3000;
             EUnlock ReconnQ]) /\
    reconn_list w' = [2000] ++ [4000] /\
    reconns w' = delete 3000 (reconns w) /\
    sockets w' = sockets w /\ conns w' = conns w /\
    errno w' = errno w /\ script w' = script w.
Proof.
  intros other again R w.
  apply (remove_reconnect_first_match O [2000] [4000] 3000 Demo.parked w).
  - reflexivity.
  - cbn. repeat constructor; cbn; intros H; in_trace; lia.
  - intros q [<- | []]. exists other. split; [reflexivity | discriminate].
  - reflexivity.
  - reflexivity.
Defined.

Lemma sublist_remove_ptr (q : Z) (l : list Z) : sublist (remove_ptr q l) l.
Proof.
  unfold remove_ptr. induction l as [| x l IH]; [constructor |].
  cbn. destruct (negb (x =? q)); [apply sublist_skip | apply sublist_cons]; exact IH.
Qed.

Lemma sublist_In (l1 l2 : list Z) :
  sublist l1 l2 -> forall x, In x l1 -> In x l2.
Proof.
  induction 1 as [| y l1 l2 _ IH | y l1 l2 _ IH]; intros x Hx.
  - destruct Hx.
  - destruct Hx as [-> | Hx]; [left; reflexivity | right; apply IH; exact Hx].
  - right. apply IH. exact Hx.
Qed.

Lemma shrunk_refl (w w' : world) :
  reconn_list w' = reconn_list w -> reconns w' = reconns w -> shrunk w w'.
Proof.
  intros HL HR. unfold shrunk. rewrite HL, HR. split; [reflexivity |].
  split; auto.
Qed.

Lemma shrunk_trans (w w1 w2 : world) : shrunk w w1 -> shrunk w1 w2 -> shrunk w w2.
Proof.
  intros (Hs & Hk & Hn) (Hs' & Hk' & Hn'). split; [| split].
  - etrans; eassumption.
  - intros x Hx. rewrite (Hk' x Hx). apply Hk. exact (sublist_In _ _ Hs' x Hx).
  - intros x Hx. apply Hn', Hn. exact Hx.
Qed.

Lemma reconnect_entry_shrinks (q : Z) (w w' : world) (t : list event) :
  reconnect_entry q w = Some (tt, w', t) -> shrunk w w'.
Proof.
  unfold reconnect_entry. cbn.
  destruct (reconns w !! q) as [reconn |] eqn:Hq; cbn; [| discriminate].
  destruct (vhost_user_connect_nonblock (r_fd reconn) (r_un reconn) w)
    as [[[rc w1] t1] |] eqn:Hc; cbn; [| discriminate].
  destruct (ClientFacts.connect_nonblock_outcome _ _ _ _ _ _ Hc)
    as (_ & _ & _ & HR & HL).
  assert (Hgone : forall w2, reconn_list w2 = reconn_list w -> reconns w2 = reconns w ->
            shrunk w (set_reconns (delete q) (set_reconn_list (remove_ptr q) w2))).
  { intros w2 HL2 HR2. unfold shrunk. cbn. rewrite HL2, HR2. split; [| split].
    - apply sublist_remove_ptr.
    - intros x Hx. apply in_remove_ptr in Hx. destruct Hx as [_ Hne].
      apply lookup_delete_ne. congruence.
    - intros x Hx. rewrite lookup_delete_None. right. exact Hx. }
  destruct (rc =? -2); cbn.
  - ended. apply (Hgone w1 HL HR).
  - destruct (rc =? -1); cbn.
    + ended. apply shrunk_refl; assumption.
    + destruct (vhost_user_add_connection (r_fd reconn) (Some (r_vsocket reconn)) w1)
        as [[[[] w2] t2] |] eqn:Ha; cbn; [| discriminate].
      destruct (ReconnectFacts.add_connection_keeps_registry _ _ _ _ _ Ha)
        as (HR2 & HL2).
      ended. apply (Hgone w2); congruence.
Qed.

Lemma reconnect_entries_shrink (l : list Z) :
  forall (w w' : world) (t : list event),
    reconnect_entries l w = Some (tt, w', t) -> shrunk w w'.
Proof.
  induction l as [| q l IH]; intros w w' t.
  - cbn. ended. apply shrunk_refl; reflexivity.
  - cbn. destruct (reconnect_entry q w) as [[[[] w1] t1] |] eqn:Hq; [| discriminate].
    destruct (reconnect_entries l w1) as [[[[] w2] t2] |] eqn:Hl; [| discriminate].
    ended. exact (shrunk_trans _ _ _ (reconnect_entry_shrinks _ _ _ _ Hq) (IH _ _ _ Hl)).
Qed.

(** X11: a sweep of the reconnect thread never adds to the registry.
    What it leaves is a part of what it found, in the same order and with
    the same records; nothing that was free in the registry's heap is
    allocated there afterwards; and distinct entries stay distinct. The
    sweep holds the registry's mutex from its first event to the last but
    one and sleeps one second after releasing it. *)
Theorem reconnect_sweep_only_shrinks (w w' : world) (t : list event) :
  reconnect_sweep w = Some (tt, w', t) ->
  sublist (reconn_list w') (reconn_list w) /\
  (forall x, In x (reconn_list w') ->
     In x (reconn_list w) /\ reconns w' !! x = reconns w !! x) /\
  (forall x, reconns w !! x = None -> reconns w' !! x = None) /\
  (List.NoDup (reconn_list w) -> List.NoDup (reconn_list w')) /\
  starts_with t [ELock ReconnQ] /\
  ends_with t [EUnlock ReconnQ; ESleep 1].
Proof.
  unfold reconnect_sweep. cbn.
  destruct (reconnect_entries (reconn_list w) w) as [[[[] w1] t1] |] eqn:He;
    cbn; [| discriminate].
  ended. destruct (reconnect_entries_shrink _ _ _ _ He) as (Hs & Hk & Hn).
  split; [exact Hs |].
  split; [intros x Hx; split; [exact (sublist_In _ _ Hs x Hx) | exact (Hk x Hx)] |].
  split; [exact Hn |].
  split.
  { intros Hnd. apply NoDup_ListNoDup. apply NoDup_ListNoDup in Hnd.
    eapply sublist_NoDup; eassumption. }
  split; [eexists; reflexivity |].
  exists (ELock ReconnQ :: t1). cbn. rewrite ?app_nil_r, <- ?app_assoc. reflexivity.
Qed.

Lemma reconnect_sweep_only_shrinks_witness :
  let gone := {| r_un := Demo.sock_path; r_fd := 8; r_vsocket := O |} in
  let R : gmap Z vhost_user_reconnect := <[ 2000 := gone ]> {[ 3000 := Demo.parked ]} in
  let w := Demo.world_of (Demo.endpoint false true []) ∅ R [2000; 3000] 0
             [0; -1; -1; Sys.ECONNREFUSED] in
  let w' := Demo.world_of (Demo.endpoint false true []) ∅
              {[ 3000 := Demo.parked ]} [3000] Sys.ECONNREFUSED [] in
  let t := [ELock ReconnQ; EConnect 8 Demo.sock_path 0; EFcntl 8 Sys.F_GETFL 0 (-1);
            EClose 8; ERemove ReconnQ 2000; EFree 2000;
            EConnect 3 Demo.sock_path (-1); EUnlock ReconnQ; ESleep 1] in
  reconnect_sweep w = Some (tt, w', t) /\
  sublist (reconn_list w') (reconn_list w) /\
  (forall x, In x (reconn_list w') ->
     In x (reconn_list w) /\ reconns w' !! x = reconns w !! x) /\
  (forall x, reconns w !! x = None -> reconns w' !! x = None) /\
  (List.NoDup (reconn_list w) -> List.NoDup (reconn_list w')) /\
  starts_with t [ELock ReconnQ] /\
  ends_with t [EUnlock ReconnQ; ESleep 1].
Proof.
  intros gone R w w' t.
  assert (Hrun : reconnect_sweep w = Some (tt, w', t)) by (vm_compute; reflexivity).
  split; [exact Hrun |].
  exact (reconnect_sweep_only_shrinks w w' t Hrun).
Defined.

(** X12: with an empty registry the reconnect thread does nothing but
    take the mutex, release it and sleep a second, turn after turn,
    whatever else the world holds. *)
Theorem reconnect_thread_idle (n : nat) (w : world) :
  reconn_list w = [] ->
  vhost_user_client_reconnect n w =
    Some (tt, w, concat (repeat [ELock ReconnQ; EUnlock ReconnQ; ESleep 1] n)).
Proof.
  destruct w as [S C R RL E sc]. cbn [reconn_list]. intros ->.
  induction n as [| n IH]; [reflexivity |].
  cbn [vhost_user_client_reconnect]. unfold reconnect_sweep. cbn.
  cbn in IH. rewrite IH. reflexivity.
Qed.

Lemma reconnect_thread_idle_witness :
  let w := Demo.world_of (Demo.endpoint false true [2000])
             {[ 2000 := Demo.live 7 4 ]} ∅ [] 0 [5] in
  vhost_user_client_reconnect 2 w =
    Some (tt, w, [ELock ReconnQ; EUnlock ReconnQ; ESleep 1;
                  ELock ReconnQ; EUnlock ReconnQ; ESleep 1]).
Proof.
  intros w. exact (reconnect_thread_idle 2 w eq_refl).
Defined.

End RegistryMore.

(** ** Tearing an endpoint down *)

Module TeardownMore.
Import World Env AfUnix Trace Exec ListFacts Sound.

(** X13: teardown of a client endpoint that has no connection and is
    waiting in the reconnect registry: the first registry entry of the
    endpoint is unlinked, its descriptor closed and the entry freed, all
    under the registry's mutex; then the endpoint's own mutex is taken,
    released and destroyed. No dispatcher call is made and nothing else
    is closed or freed. *)
Theorem cleanup_cancels_reconnect (vs : nat) (af : af_unix_socket)
    (pre next : list Z) (p : Z) (rc : vhost_user_reconnect) (fuel : nat)
    (w : world) :
  sockets w !! vs = Some af ->
  is_server (socket af) = false ->
  reconnect (socket af) = true ->
  conn_list af = [] ->
  reconn_list w = pre ++ p :: next ->
  List.NoDup (reconn_list w) ->
  (forall q, In q pre -> exists e, reconns w !! q = Some e /\ r_vsocket e <> vs) ->
  reconns w !! p = Some rc ->
  r_vsocket rc = vs ->
  exists w',
    af_unix_socket_cleanup (S fuel) vs w =
      Some (tt, w',
            [ELock ReconnQ; ERemove ReconnQ p; EClose (r_fd rc); EFree p;
             EUnlock ReconnQ;
             ELock (ConnQ vs); EUnlock (ConnQ vs); EMutexDestroy (ConnQ vs)]) /\
    reconn_list w' = pre ++ next /\
    reconns w' = delete p (reconns w) /\
    sockets w' = sockets w /\ conns w' = conns w /\
    errno w' = errno w /\ script w' = script w.
Proof.
  intros Haf Hsrv Hre Hcl Hl Hnd Hall Hp Hvs.
  exists (set_reconns (delete p) (set_reconn_list (remove_ptr p) w)).
  split.
  - unfold af_unix_socket_cleanup, vhost_user_remove_reconnect. cbn.
    rewrite Haf. cbn. rewrite Hsrv, Hre. cbn. rewrite Hl.
    rewrite (RegistryMore.remove_reconnect_from_first vs pre next p rc w Hall Hp Hvs).
    cbn. rewrite Haf. cbn. rewrite Hcl. cbn. rewrite ?Hl. reflexivity.
  - cbn. rewrite Hl in *. rewrite (RegistryMore.remove_ptr_middle _ _ _ Hnd).
    repeat split.
Qed.

Lemma cleanup_cancels_reconnect_witness :
  let af := Demo.endpoint false true [] in
  let w := Demo.world_of af ∅ {[ 3000 := Demo.parked ]} [3000] 0 [] in
  exists w',
    af_unix_socket_cleanup 1 O w =
      Some (tt, w',
            [ELock ReconnQ; ERemove ReconnQ 3000; EClose 3; EFree 3000;
             EUnlock ReconnQ;
             ELock (ConnQ O); EUnlock (ConnQ O); EMutexDestroy (ConnQ O)]) /\
    reconn_list w' = [] ++ [] /\
    reconns w' = delete 3000 (reconns w) /\
    sockets w' = sockets w /\ conns w' = conns w /\
    errno w' = errno w /\ script w' = script w.
Proof.
  intros af w.
  apply (cleanup_cancels_reconnect O af [] [] 3000 Demo.parked 0 w).
  - reflexivity.
  - reflexivity.
  - reflexivity.
  - reflexivity.
  - reflexivity.
  - cbn. repeat constructor. intros [].
  - intros q [].
  - reflexivity.
  - reflexivity.
Defined.

(** one pass over the list touches no other endpoint, no record off the
    list and no part of the registry, and only takes records off the list *)
Lemma cleanup_connections_frame (vs : nat) (l : list Z) :
  forall (w w' : world) (fin : bool) (t : list event),
    cleanup_connections vs l w = Some (fin, w', t) ->
    (forall u, u <> vs -> sockets w' !! u = sockets w !! u) /\
    (forall x, ~ In x l -> conns w' !! x = conns w !! x) /\
    reconns w' = reconns w /\ reconn_list w' = reconn_list w /\
    (forall af, sockets w !! vs = Some af ->
       exists af', sockets w' !! vs = Some af' /\
         socket af' = socket af /\ socket_fd af' = socket_fd af /\
         sublist (conn_list af') (conn_list af)).
Proof.
  induction l as [| p next IH]; intros w w' fin t.
  - cbn. ended. repeat split. intros af Haf. exists af.
    repeat split; try assumption; reflexivity.
  - destruct w as [S C R RL E sc]. cbn.
    destruct (C !! p) as [conn |] eqn:Hconn; cbn; [| discriminate].
    destruct sc as [| a sc]; cbn; [discriminate |].
    destruct (a =? -1); cbn.
    + ended. cbn. repeat split. intros af Haf. exists af.
      repeat split; try assumption; reflexivity.
    + match goal with
      | |- context [cleanup_connections vs next ?x] =>
          destruct (cleanup_connections vs next x) as [[[fin1 w1] t1] |] eqn:Hnext;
          cbn; [| discriminate]
      end.
      ended. destruct (IH _ _ _ _ Hnext) as (HS & HC & HR & HL & Haf').
      cbn [sockets conns reconns reconn_list] in *.
      split; [intros u Hu; rewrite (HS u Hu); apply lookup_alter_ne; congruence |].
      split.
      { intros x Hx. rewrite HC by (intros Hin; apply Hx; right; exact Hin).
        apply lookup_delete_ne. intros ->. apply Hx. left. reflexivity. }
      split; [exact HR |]. split; [exact HL |].
      intros af Haf.
      destruct (Haf' (set_conn_list (remove_ptr p) af)) as (af' & H1 & H2 & H3 & H4).
      { rewrite lookup_alter_eq, Haf. reflexivity. }
      exists af'. split; [exact H1 |]. split; [exact H2 |]. split; [exact H3 |].
      etrans; [exact H4 |]. cbn. apply RegistryMore.sublist_remove_ptr.
Qed.

Lemma cleanup_again_frame (vs : nat) (fuel : nat) :
  forall (w w' : world) (t : list event) (af : af_unix_socket),
    cleanup_again fuel vs w = Some (tt, w', t) ->
    sockets w !! vs = Some af ->
    (forall u, u <> vs -> sockets w' !! u = sockets w !! u) /\
    (forall x, ~ In x (conn_list af) -> conns w' !! x = conns w !! x) /\
    reconns w' = reconns w /\ reconn_list w' = reconn_list w /\
    exists af', sockets w' !! vs = Some af' /\
      socket af' = socket af /\ socket_fd af' = socket_fd af.
Proof.
  induction fuel as [| fuel IH]; intros w w' t af; [cbn; discriminate |].
  intros Hrun Haf. revert Hrun. cbn. rewrite Haf. cbn.
  destruct (cleanup_connections vs (conn_list af) w) as [[[fin w1] t1] |] eqn:Hc;
    cbn; [| discriminate].
  destruct (cleanup_connections_frame _ _ _ _ _ _ Hc) as (HS & HC & HR & HL & Haf').
  destruct (Haf' af Haf) as (af1 & H1 & H2 & H3 & H4).
  destruct fin; cbn.
  - ended. cbn. split; [exact HS |]. split; [exact HC |].
    split; [exact HR |]. split; [exact HL |]. exists af1. repeat split; assumption.
  - destruct (cleanup_again fuel vs w1) as [[[[] w2] t2] |] eqn:Hagain;
      cbn; [| discriminate].
    ended. destruct (IH _ _ _ af1 Hagain H1) as (HS' & HC' & HR' & HL' & af2 & G1 & G2 & G3).
    split; [intros u Hu; rewrite (HS' u Hu); exact (HS u Hu) |].
    split.
    { intros x Hx. rewrite HC'.
      - apply HC. exact Hx.
      - intros Hin. apply Hx. exact (RegistryMore.sublist_In _ _ H4 x Hin). }
    split; [congruence |]. split; [congruence |].
    exists af2. split; [exact G1 |]. split; congruence.
Qed.

Lemma remove_reconnect_from_frame (vs : nat) (l : list Z) :
  forall (w w' : world) (found : bool) (t : list event),
    remove_reconnect_from vs l w = Some (found, w', t) ->
    sockets w' = sockets w /\ conns w' = conns w /\ shrunk w w' /\
    (forall q e, reconns w !! q = Some e -> r_vsocket e <> vs ->
       reconns w' !! q = Some e /\
       (In q (reconn_list w) -> In q (reconn_list w'))).
Proof.
  induction l as [| p next IH]; intros w w' found t.
  - cbn. ended. repeat split; auto. 
  - cbn. destruct (reconns w !! p) as [reconn |] eqn:Hp; cbn; [| discriminate].
    destruct (Nat.eqb (r_vsocket reconn) vs) eqn:Heq; cbn.
    + ended. cbn. apply Nat.eqb_eq in Heq. split; [reflexivity |].
      split; [reflexivity |]. split.
      * unfold shrunk. cbn.
        split; [apply RegistryMore.sublist_remove_ptr |]. split.
        -- intros x Hx. apply in_remove_ptr in Hx. destruct Hx as [_ Hne].
           apply lookup_delete_ne. congruence.
        -- intros x Hx. rewrite lookup_delete_None. right. exact Hx.
      * intros q e Hq Hne. assert (Hqp : q <> p) by (intros ->; congruence).
        rewrite lookup_delete_ne by congruence. split; [exact Hq |].
        intros Hin. apply in_remove_ptr. split; assumption.
    + destruct (remove_reconnect_from vs next w) as [[[b w1] t1] |] eqn:Hn;
        cbn; [| discriminate].
      ended. exact (IH _ _ _ _ Hn).
Qed.

(** X14: teardown of one endpoint leaves the others alone. Whatever the
    dispatcher answers and however often the loop starts again, a run of
    [af_unix_socket_cleanup] changes no other endpoint, no connection
    record that was not on this endpoint's list, and no registry entry
    of another endpoint; the endpoint's own settings and listening
    descriptor stay as they were, and the registry only shrinks. *)
Theorem cleanup_leaves_others (fuel : nat) (vs : nat) (af : af_unix_socket)
    (w w' : world) (t : list event) :
  sockets w !! vs = Some af ->
  af_unix_socket_cleanup fuel vs w = Some (tt, w', t) ->
  (forall u, u <> vs -> sockets w' !! u = sockets w !! u) /\
  (forall x, ~ In x (conn_list af) -> conns w' !! x = conns w !! x) /\
  (forall q e, reconns w !! q = Some e -> r_vsocket e <> vs ->
     reconns w' !! q = Some e /\
     (In q (reconn_list w) -> In q (reconn_list w'))) /\
  shrunk w w' /\
  exists af', sockets w' !! vs = Some af' /\
    socket af' = socket af /\ socket_fd af' = socket_fd af.
Proof.
  intros Haf. unfold af_unix_socket_cleanup. cbn. rewrite Haf. cbn.
  assert (Hrefl : shrunk w w).
  { split; [reflexivity |]. split; auto. }
  destruct (is_server (socket af)); [| destruct (reconnect (socket af))]; cbn.
  - match goal with
    | |- context [cleanup_again fuel vs ?x] =>
        destruct (cleanup_again fuel vs x) as [[[[] w2] t2] |] eqn:Hagain;
        cbn; [| discriminate];
        destruct (cleanup_again_frame _ _ x _ _ af Hagain Haf)
          as (HS & HC & HR & HL & Haf')
    end.
    ended. cbn [sockets conns reconns reconn_list] in *.
    split; [exact HS |]. split; [exact HC |].
    split; [intros q e Hq _; rewrite HR, HL; split; [exact Hq | auto] |].
    split; [| exact Haf'].
    unfold shrunk. rewrite HR, HL. exact Hrefl.
  - unfold vhost_user_remove_reconnect. cbn.
    destruct (remove_reconnect_from vs (reconn_list w) w) as [[[b w1] t1] |] eqn:Hrm;
      cbn; [| discriminate].
    destruct (remove_reconnect_from_frame _ _ _ _ _ _ Hrm) as (HS1 & HC1 & Hsh & Hoth).
    assert (Haf1 : sockets w1 !! vs = Some af) by (rewrite HS1; exact Haf).
    match goal with
    | |- context [cleanup_again fuel vs ?x] =>
        destruct (cleanup_again fuel vs x) as [[[[] w2] t2] |] eqn:Hagain;
        cbn; [| discriminate];
        destruct (cleanup_again_frame _ _ x _ _ af Hagain Haf1)
          as (HS & HC & HR & HL & Haf')
    end.
    ended. cbn [sockets conns reconns reconn_list] in *.
    split; [intros u Hu; rewrite (HS u Hu), HS1; reflexivity |].
    split; [intros x Hx; rewrite (HC x Hx), HC1; reflexivity |].
    split; [intros q e Hq Hne; rewrite HR, HL; exact (Hoth q e Hq Hne) |].
    split; [| exact Haf'].
    unfold shrunk. rewrite HR, HL. exact Hsh.
  - match goal with
    | |- context [cleanup_again fuel vs ?x] =>
        destruct (cleanup_again fuel vs x) as [[[[] w2] t2] |] eqn:Hagain;
        cbn; [| discriminate];
        destruct (cleanup_again_frame _ _ x _ _ af Hagain Haf)
          as (HS & HC & HR & HL & Haf')
    end.
    ended. cbn [sockets conns reconns reconn_list] in *.
    split; [exact HS |]. split; [exact HC |].
    split; [intros q e Hq _; rewrite HR, HL; split; [exact Hq | auto] |].
    split; [| exact Haf'].
    unfold shrunk. rewrite HR, HL. exact Hrefl.
Qed.

Lemma cleanup_leaves_others_witness :
  let neighbour := Demo.endpoint_at 6 false false [2500] in
  let theirs := {| vsocket := 1%nat; connfd := 8; vid := 9 |} in
  let af := Demo.endpoint true false [2000] in
  let w := {| sockets := <[ 1%nat := neighbour ]> {[ O := af ]};
              conns := <[ 2500 := theirs ]> {[ 2000 := Demo.live 7 4 ]};
              reconns := ∅; reconn_list := []; errno := 0; script := [0] |} in
  let w' := {| sockets := <[ 1%nat := neighbour ]> {[ O := Demo.endpoint true false [] ]};
               conns := {[ 2500 := theirs ]};
               reconns := ∅; reconn_list := []; errno := 0; script := [] |} in
  let t := [EFdsetDel 3; EClose 3; EUnlink Demo.sock_path; ELock (ConnQ O);
            EFdsetTryDel 7 0; EClose 7; EDestroyDevice 4; ERemove (ConnQ O) 2000;
            EFree 2000; EUnlock (ConnQ O); EMutexDestroy (ConnQ O)] in
  af_unix_socket_cleanup 2 O w = Some (tt, w', t) /\
  (forall u, u <> O -> sockets w' !! u = sockets w !! u) /\
  (forall x, ~ In x (conn_list af) -> conns w' !! x = conns w !! x) /\
  (forall q e, reconns w !! q = Some e -> r_vsocket e <> O ->
     reconns w' !! q = Some e /\
     (In q (reconn_list w) -> In q (reconn_list w'))) /\
  shrunk w w' /\
  exists af', sockets w' !! O = Some af' /\
    socket af' = socket af /\ socket_fd af' = socket_fd af.
Proof.
  intros neighbour theirs af w w' t.
  assert (Hrun : af_unix_socket_cleanup 2 O w = Some (tt, w', t))
    by (vm_compute; reflexivity).
  split; [exact Hrun |].
  apply (cleanup_leaves_others 2 O af w w' t); [reflexivity | exact Hrun].
Defined.





End TeardownMore.

(** ** The descriptor channel *)

Module ChannelMore.
Import FdChannel LayoutFacts ReceiveFacts.

Lemma receive_success_shape (word : Z) (fds0 : memory) (fd_num0 max_fds : Z)
    (k : recvmsg_result) :
  0 < rv k -> ~ truncated k ->
  read_fd_message word fds0 fd_num0 max_fds k =
  match List.find is_rights (msg_control k) with
  | Some c =>
      let got_fds := count_fds word c in
      let m := memcpy_ints fds0 0 (cmsg_data c) (memcpy_words word got_fds) in
      {| ret := rv k; fd_num := got_fds;
         fds := clear_unused m got_fds (Z.to_nat (max_fds - got_fds));
         copied := Z.of_nat (memcpy_words word got_fds);
         logged := None |}
  | None =>
      {| ret := rv k; fd_num := 0;
         fds := clear_unused fds0 0 (Z.to_nat (max_fds - 0));
         copied := 0; logged := None |}
  end.
Proof.
  intros Hrv Htr. rewrite truncated_iff in Htr. unfold read_fd_message.
  destruct (Z.leb_spec (rv k) 0); [lia |].
  destruct (Z.eqb_spec (Z.land (msg_flags k) (Z.lor Sys.MSG_TRUNC Sys.MSG_CTRUNC)) 0);
    [reflexivity | contradiction].
Qed.

Lemma count_fds_bound (word max_fds : Z) (c : cmsghdr) :
  word = Cmsg.ILP32 \/ word = Cmsg.LP64 ->
  0 <= max_fds < 2 ^ 28 ->
  fits word max_fds c ->
  0 <= count_fds word c <= max_fds + (if word =? Cmsg.LP64 then max_fds mod 2 else 0) /\
  Z.of_nat (memcpy_words word (count_fds word c)) = count_fds word c.
Proof.
  intros [-> | ->] Hmax Hfit.
  - destruct (count_fds_bound_ILP32 max_fds c Hmax Hfit) as [Hb Hw].
    change (Cmsg.ILP32 =? Cmsg.LP64) with false. split; [lia | exact Hw].
  - destruct (count_fds_bound_LP64 max_fds c Hmax Hfit) as [Hb Hw].
    change (Cmsg.LP64 =? Cmsg.LP64) with true. split; [lia | exact Hw].
Qed.

(** X15: what a successful receive leaves in the caller's memory, on
    ILP32 and on LP64, when the rights record is one the kernel can have
    written into the control buffer: the count reported is the number of
    descriptors of the first SCM_RIGHTS record, the slots below the count
    hold the record's descriptors in order, the slots from the count up to
    the capacity hold -1, and every other word of memory is as it was. *)
Theorem read_fd_message_memory (word : Z) (fds0 : memory) (fd_num0 max_fds : Z)
    (k : recvmsg_result) (c : cmsghdr) :
  word = Cmsg.ILP32 \/ word = Cmsg.LP64 ->
  0 <= max_fds < 2 ^ 28 ->
  0 < rv k -> ~ truncated k ->
  List.find is_rights (msg_control k) = Some c ->
  fits word max_fds c ->
  let out := read_fd_message word fds0 fd_num0 max_fds k in
  let n := (cmsg_len c - Cmsg.CMSG_LEN word 0) / Sys.sizeof_int in
  ret out = rv k /\
  fd_num out = n /\ n = Z.of_nat (length (cmsg_data c)) /\
  forall i,
    fds out i =
      if (0 <=? i) && (i <? n) then nth (Z.to_nat i) (cmsg_data c) 0
      else if (n <=? i) && (i <? max_fds) then -1
      else fds0 i.
Proof.
  intros Hword Hmax Hrv Htr Hfind Hfit. cbn zeta.
  destruct (count_fds_bound word max_fds c Hword Hmax Hfit) as [Hb Hw].
  assert (Hn : count_fds word c = (cmsg_len c - Cmsg.CMSG_LEN word 0) / Sys.sizeof_int).
  { destruct Hfit as [[Hlo Hhi] _]. unfold count_fds.
    change (2 ^ 28) with 268435456 in Hmax.
    assert (Hcl : controllen word max_fds <= 4 * max_fds + 32).
    { unfold controllen. destruct Hword as [-> | ->].
      - assert (Hsz : Cmsg.to_size_t Cmsg.ILP32 max_fds = max_fds).
        { unfold Cmsg.to_size_t, Cmsg.size_t_mod, Cmsg.ILP32.
          change (2 ^ (8 * 4)) with 4294967296. apply Z.mod_small. lia. }
        rewrite Hsz. unfold Sys.sizeof_int.
        rewrite CMSG_SPACE_ILP32 by (change (2 ^ 30) with 1073741824; lia).
        pose proof (Z.div_mod (max_fds * 4 + 3) 4 ltac:(lia)).
        pose proof (Z.mod_pos_bound (max_fds * 4 + 3) 4 ltac:(lia)). lia.
      - assert (Hsz : Cmsg.to_size_t Cmsg.LP64 max_fds = max_fds).
        { unfold Cmsg.to_size_t, Cmsg.size_t_mod, Cmsg.LP64.
          change (2 ^ (8 * 8)) with 18446744073709551616. apply Z.mod_small. lia. }
        rewrite Hsz. unfold Sys.sizeof_int.
        rewrite CMSG_SPACE_LP64 by (change (2 ^ 62) with 4611686018427387904; lia).
        pose proof (Z.div_mod (max_fds * 4 + 7) 8 ltac:(lia)).
        pose proof (Z.mod_pos_bound (max_fds * 4 + 7) 8 ltac:(lia)). lia. }
    set (d := cmsg_len c - Cmsg.CMSG_LEN word 0) in *.
    assert (Hd : 0 <= d <= 4 * max_fds + 32).
    { assert (0 <= Cmsg.CMSG_LEN word 0)
        by (destruct Hword as [-> | ->]; vm_compute; discriminate).
      unfold d. lia. }
    assert (Hsmall : Cmsg.to_size_t word d = d).
    { unfold Cmsg.to_size_t, Cmsg.size_t_mod. apply Z.mod_small.
      destruct Hword as [-> | ->].
      - change (2 ^ (8 * Cmsg.ILP32)) with 4294967296. lia.
      - change (2 ^ (8 * Cmsg.LP64)) with 18446744073709551616. lia. }
    rewrite Hsmall. apply to_int_small. unfold Sys.sizeof_int.
    change (2 ^ 31) with 2147483648.
    split; [apply Z.div_pos; lia |]. apply Z.div_lt_upper_bound; lia. }
  rewrite <- Hn.
  rewrite (receive_success_shape word fds0 fd_num0 max_fds k Hrv Htr), Hfind.
  cbn [ret fd_num fds].
  split; [reflexivity |]. split; [reflexivity |].
  split; [destruct Hfit as [_ Hlen]; rewrite Hn; symmetry; exact Hlen |].
  intros i. rewrite clear_unused_spec, memcpy_ints_spec, Hw.
  destruct (Z.leb_spec 0 i); destruct (Z.ltb_spec i (count_fds word c));
    destruct (Z.leb_spec (count_fds word c) i);
    destruct (Z.ltb_spec i max_fds);
    destruct (Z.ltb_spec i (0 + count_fds word c));
    destruct (Z.ltb_spec i (count_fds word c + Z.of_nat (Z.to_nat (max_fds - count_fds word c))));
    cbn [andb]; rewrite ?Z.sub_0_r; try reflexivity; lia.
Qed.

Lemma read_fd_message_memory_witness :
  let c := {| cmsg_len := 24; cmsg_level := Sys.SOL_SOCKET;
              cmsg_type := Sys.SCM_RIGHTS; cmsg_data := [7; 9] |} in
  let other := {| cmsg_len := 20; cmsg_level := Sys.SOL_SOCKET;
                  cmsg_type := 2; cmsg_data := [0] |} in
  let k := {| rv := 12; msg_flags := 0; msg_control := [other; c] |} in
  let fds0 : memory := fun _ => 55 in
  let out := read_fd_message Cmsg.LP64 fds0 3 4 k in
  let n := (cmsg_len c - Cmsg.CMSG_LEN Cmsg.LP64 0) / Sys.sizeof_int in
  ret out = rv k /\
  fd_num out = n /\ n = Z.of_nat (length (cmsg_data c)) /\
  forall i,
    fds out i =
      if (0 <=? i) && (i <? n) then nth (Z.to_nat i) (cmsg_data c) 0
      else if (n <=? i) && (i <? 4) then -1
      else fds0 i.
Proof.
  intros c other k fds0.
  apply (read_fd_message_memory Cmsg.LP64 fds0 3 4 k c).
  - right. reflexivity.
  - split; [lia | reflexivity].
  - reflexivity.
  - intros [H | H]; discriminate.
  - reflexivity.
  - split; [split; vm_compute; discriminate | reflexivity].
Defined.

(** X16: on ILP32 always, and on LP64 when the capacity is even, a receive
    writes nowhere but into the caller's array: the count reported lies
    between 0 and the capacity and is the number of descriptors copied, and
    every word outside the array is as it was, whether the receive fails,
    finds no rights record, or finds one the kernel can have written. *)
Theorem read_fd_message_stays_in_array (word : Z) (fds0 : memory)
    (fd_num0 max_fds : Z) (k : recvmsg_result) :
  word = Cmsg.ILP32 \/ word = Cmsg.LP64 /\ max_fds mod 2 = 0 ->
  0 <= max_fds < 2 ^ 28 ->
  (forall c, List.find is_rights (msg_control k) = Some c -> fits word max_fds c) ->
  let out := read_fd_message word fds0 fd_num0 max_fds k in
  0 <= fd_num out <= max_fds /\
  copied out = fd_num out /\
  forall i, i < 0 \/ max_fds <= i -> fds out i = fds0 i.
Proof.
  intros Hword Hmax Hfits. cbn zeta.
  assert (Hword' : word = Cmsg.ILP32 \/ word = Cmsg.LP64) by tauto.
  destruct (Z.leb_spec (rv k) 0) as [Hfail | Hrv].
  - unfold read_fd_message. destruct (Z.leb_spec (rv k) 0); [| lia].
    cbn [fd_num copied fds]. split; [lia |]. split; reflexivity.
  - destruct (Z.eqb_spec (Z.land (msg_flags k) (Z.lor Sys.MSG_TRUNC Sys.MSG_CTRUNC)) 0)
      as [Hz | Hnz].
    2: { unfold read_fd_message. destruct (Z.leb_spec (rv k) 0); [lia |].
         destruct (Z.eqb_spec (Z.land (msg_flags k) (Z.lor Sys.MSG_TRUNC Sys.MSG_CTRUNC)) 0);
           [contradiction |].
         cbn [negb fd_num copied fds]. split; [lia |]. split; reflexivity. }
    assert (Htr : ~ truncated k) by (rewrite truncated_iff; tauto).
    rewrite (receive_success_shape word fds0 fd_num0 max_fds k Hrv Htr).
    destruct (List.find is_rights (msg_control k)) as [c |] eqn:Hfind;
      cbn [fd_num copied fds].
    + destruct (count_fds_bound word max_fds c Hword' Hmax (Hfits c eq_refl)) as [Hb Hw].
      assert (Hle : count_fds word c <= max_fds).
      { destruct Hword as [-> | [-> Heven]].
        - change (Cmsg.ILP32 =? Cmsg.LP64) with false in Hb. lia.
        - change (Cmsg.LP64 =? Cmsg.LP64) with true in Hb. lia. }
      split; [lia |]. split; [exact Hw |].
      intros i Hi. rewrite clear_unused_spec, memcpy_ints_spec, Hw.
      destruct (Z.leb_spec 0 i); destruct (Z.ltb_spec i (0 + count_fds word c));
        destruct (Z.leb_spec (count_fds word c) i);
        destruct (Z.ltb_spec i (count_fds word c + Z.of_nat (Z.to_nat (max_fds - count_fds word c))));
        cbn [andb]; try reflexivity; lia.
    + split; [lia |]. split; [reflexivity |].
      intros i Hi. rewrite clear_unused_spec.
      destruct (Z.leb_spec 0 i); destruct (Z.ltb_spec i (0 + Z.of_nat (Z.to_nat (max_fds - 0))));
        cbn [andb]; try reflexivity; lia.
Qed.

Lemma read_fd_message_stays_in_array_witness :
  let c := {| cmsg_len := 20; cmsg_level := Sys.SOL_SOCKET;
              cmsg_type := Sys.SCM_RIGHTS; cmsg_data := [7; 9] |} in
  let k := {| rv := 12; msg_flags := 0; msg_control := [c] |} in
  let fds0 : memory := fun _ => 55 in
  let out := read_fd_message Cmsg.ILP32 fds0 3 3 k in
  0 <= fd_num out <= 3 /\
  copied out = fd_num out /\
  forall i, i < 0 \/ 3 <= i -> fds out i = fds0 i.
Proof.
  intros c k fds0.
  apply (read_fd_message_stays_in_array Cmsg.ILP32 fds0 3 3 k).
  - left. reflexivity.
  - split; [lia | reflexivity].
  - intros c' Hc'. injection Hc' as <-.
    split; [split; vm_compute; discriminate | reflexivity].
Defined.

(** the caller's memory after a successful receive whose count did not
    wrap *)
Lemma receive_memory_of_count (word : Z) (fds0 : memory) (fd_num0 max_fds : Z)
    (k : recvmsg_result) (c : cmsghdr) :
  0 < rv k -> ~ truncated k ->
  List.find is_rights (msg_control k) = Some c ->
  Z.of_nat (memcpy_words word (count_fds word c)) = count_fds word c ->
  fd_num (read_fd_message word fds0 fd_num0 max_fds k) = count_fds word c /\
  forall i,
    fds (read_fd_message word fds0 fd_num0 max_fds k) i =
      if (0 <=? i) && (i <? count_fds word c) then nth (Z.to_nat i) (cmsg_data c) 0
      else if (count_fds word c <=? i) && (i <? max_fds) then -1
      else fds0 i.
Proof.
  intros Hrv Htr Hfind Hw.
  rewrite (receive_success_shape word fds0 fd_num0 max_fds k Hrv Htr), Hfind.
  cbn [fd_num fds]. split; [reflexivity |].
  assert (0 <= count_fds word c) by lia.
  intros i. rewrite clear_unused_spec, memcpy_ints_spec, Hw.
  destruct (Z.leb_spec 0 i); destruct (Z.ltb_spec i (count_fds word c));
    destruct (Z.leb_spec (count_fds word c) i);
    destruct (Z.ltb_spec i max_fds);
    destruct (Z.ltb_spec i (0 + count_fds word c));
    destruct (Z.ltb_spec i (count_fds word c + Z.of_nat (Z.to_nat (max_fds - count_fds word c))));
    cbn [andb]; rewrite ?Z.sub_0_r; try reflexivity; lia.
Qed.

End ChannelMore.

(** ** Sending, and sending then receiving *)

Module SendMore.
Import LayoutFacts World Env AfUnix Trace SendFacts.

(** X17: with a NULL descriptor array or a count that is not positive,
    [send_fd_message] sends the payload alone: every [sendmsg] it makes has
    no control data, calls interrupted by a signal are repeated, and the
    result is that of the first call that is not interrupted. *)
Theorem send_fd_message_without_descriptors (word : Z) (n fuel : nat)
    (sockfd : Z) (buf : list Z) (buflen : Z) (fds : option (list Z)) (fd_num : Z)
    (r e : Z) (rest : list Z) (w : world) :
  fds = None \/ fd_num <= 0 ->
  script w = interrupted n ++ sendmsg_answer r e ++ rest ->
  (r < 0 -> e <> Sys.EINTR) ->
  (n < fuel)%nat ->
  exists w',
    send_fd_message word fuel sockfd buf buflen fds fd_num w =
      Some (r, w',
            repeat (ESendmsg sockfd buf buflen None Sys.MSG_NOSIGNAL (-1)) n ++
            [ESendmsg sockfd buf buflen None Sys.MSG_NOSIGNAL r]) /\
    script w' = rest /\
    sockets w' = sockets w /\ conns w' = conns w /\
    (0 <= r -> n = O -> errno w' = errno w).
Proof.
  intros Hno Hs He Hf.
  assert (Hloop : (do r0 <- sendmsg_retry fuel sockfd buf buflen None;
                   if r0 <? 0 then ret r0 else ret r0)%world w =
                  send_fd_message word fuel sockfd buf buflen fds fd_num w).
  { unfold send_fd_message. destruct fds as [arr |]; [| reflexivity].
    destruct Hno as [Hno | Hle]; [discriminate |].
    destruct (Z.gtb_spec fd_num 0); [lia | reflexivity]. }
  rewrite <- Hloop. unfold bind.
  rewrite (sendmsg_retry_spec n fuel w sockfd buf buflen None r e rest Hs He Hf).
  eexists. split.
  - destruct (r <? 0); cbn; rewrite app_nil_r; reflexivity.
  - cbn. repeat split. intros Hr Hn. subst n. unfold errno_after.
    destruct (Z.ltb_spec r 0); [lia | reflexivity].
Qed.

Lemma send_fd_message_without_descriptors_witness :
  let w := Demo.world_of (Demo.endpoint false true []) ∅ ∅ [] 0
             (interrupted 1 ++ sendmsg_answer 4 0 ++ [77]) in
  exists w',
    send_fd_message Cmsg.LP64 2 9 [112; 105; 110; 103] 4 (Some [5]) 0 w =
      Some (4, w',
            repeat (ESendmsg 9 [112; 105; 110; 103] 4 None Sys.MSG_NOSIGNAL (-1)) 1 ++
            [ESendmsg 9 [112; 105; 110; 103] 4 None Sys.MSG_NOSIGNAL 4]) /\
    script w' = [77] /\
    sockets w' = sockets w /\ conns w' = conns w /\
    (0 <= 4 -> 1%nat = O -> errno w' = errno w).
Proof.
  intros w.
  apply (send_fd_message_without_descriptors Cmsg.LP64 1 2 9 [112; 105; 110; 103] 4
           (Some [5]) 0 4 0 [77] w).
  - right. lia.
  - reflexivity.
  - lia.
  - lia.
Defined.

(** the record the sender attaches, for every count an [int] can hold *)
Lemma send_fd_message_LP64_record (n fuel : nat)
    (sockfd : Z) (buf : list Z) (buflen : Z) (arr : list Z) (fd_num : Z)
    (r e : Z) (rest : list Z) (w : world) :
  script w = interrupted n ++ sendmsg_answer r e ++ rest ->
  (r < 0 -> e <> Sys.EINTR) ->
  (n < fuel)%nat ->
  0 < fd_num < 2 ^ 31 ->
  Frame.send_controllen Cmsg.LP64 fd_num = 8 * ((fd_num * 4 + 7) / 8) + 16 /\
  exists w',
    send_fd_message Cmsg.LP64 fuel sockfd buf buflen (Some arr) fd_num w =
      Some (r, w',
            repeat (ESendmsg sockfd buf buflen
                      (Some (16 + fd_num * 4, firstn (Z.to_nat fd_num) arr))
                      Sys.MSG_NOSIGNAL (-1)) n ++
            [ESendmsg sockfd buf buflen
               (Some (16 + fd_num * 4, firstn (Z.to_nat fd_num) arr))
               Sys.MSG_NOSIGNAL r]).
Proof.
  intros Hs He Hf Hn.
  change (2 ^ 31) with 2147483648 in Hn.
  assert (Hsz : Cmsg.to_size_t Cmsg.LP64 (Cmsg.to_size_t Cmsg.LP64 fd_num * Sys.sizeof_int)
                = fd_num * 4).
  { unfold Cmsg.to_size_t, Cmsg.size_t_mod, Cmsg.LP64, Sys.sizeof_int.
    change (2 ^ (8 * 8)) with 18446744073709551616.
    rewrite (Z.mod_small fd_num) by lia. apply Z.mod_small. lia. }
  assert (Hspace : Cmsg.CMSG_SPACE Cmsg.LP64 (fd_num * 4) = 8 * ((fd_num * 4 + 7) / 8) + 16).
  { apply CMSG_SPACE_LP64. change (2 ^ 62) with 4611686018427387904. lia. }
  unfold Frame.send_controllen. cbn zeta. rewrite Hsz. split; [exact Hspace |].
  unfold send_fd_message.
  destruct (Z.gtb_spec fd_num 0) as [_ | Hle]; [| lia].
  rewrite Hsz, Hspace.
  pose proof (Z.div_pos (fd_num * 4 + 7) 8 ltac:(lia) ltac:(lia)) as Hq.
  destruct (Z.ltb_spec (8 * ((fd_num * 4 + 7) / 8) + 16) (Cmsg.sizeof_cmsghdr Cmsg.LP64))
    as [Hlt | _].
  { change (Cmsg.sizeof_cmsghdr Cmsg.LP64) with 16 in Hlt. lia. }
  assert (Hlen : Cmsg.CMSG_LEN Cmsg.LP64 (fd_num * 4) = 16 + fd_num * 4).
  { unfold Cmsg.CMSG_LEN.
    change (Cmsg.CMSG_ALIGN Cmsg.LP64 (Cmsg.sizeof_cmsghdr Cmsg.LP64)) with 16.
    unfold Cmsg.to_size_t, Cmsg.size_t_mod, Cmsg.LP64.
    change (2 ^ (8 * 8)) with 18446744073709551616. apply Z.mod_small. lia. }
  rewrite Hlen. unfold Sys.sizeof_int. rewrite Z.div_mul by lia.
  destruct (send_loop_spec n fuel sockfd buf buflen
              (Some (16 + fd_num * 4, firstn (Z.to_nat fd_num) arr))
              r e rest w Hs He Hf) as (w' & Hrun & _).
  exists w'. exact Hrun.
Qed.

(** X18: descriptors sent are descriptors received, on LP64, wherever the
    control buffers of the two functions fit their stacks. When
    [send_fd_message] is given an array and a positive count, every
    [sendmsg] it makes carries one SCM_RIGHTS record of that many
    descriptors, the first of the array. When a message with a record of
    that length reaches [read_fd_message] untruncated and the receiver's
    capacity is at least the count, the receiver reports the sender's count,
    finds the record's descriptors in the first slots in order, -1 in the
    slots up to the capacity, and the memory around the array untouched. *)
Theorem send_receive_round_trip_LP64 (n fuel : nat)
    (sockfd : Z) (buf : list Z) (buflen : Z) (arr : list Z) (fd_num : Z)
    (r e : Z) (rest : list Z) (w : world) (stack : Z) :
  script w = interrupted n ++ sendmsg_answer r e ++ rest ->
  (r < 0 -> e <> Sys.EINTR) ->
  (n < fuel)%nat ->
  0 < fd_num < 2 ^ 31 ->
  fd_num <= Z.of_nat (length arr) ->
  Frame.send_controllen Cmsg.LP64 fd_num <= stack ->
  exists w' len sent,
    Frame.send_fd_message_on Cmsg.LP64 stack fuel sockfd buf buflen (Some arr) fd_num w =
      Some (r, w',
            repeat (ESendmsg sockfd buf buflen (Some (len, sent))
                      Sys.MSG_NOSIGNAL (-1)) n ++
            [ESendmsg sockfd buf buflen (Some (len, sent)) Sys.MSG_NOSIGNAL r]) /\
    sent = firstn (Z.to_nat fd_num) arr /\
    Z.of_nat (length sent) = fd_num /\
    forall (fds0 : FdChannel.memory) (fd_num0 max_fds stack' : Z)
           (k : FdChannel.recvmsg_result) (received : list Z),
      fd_num <= max_fds ->
      FdChannel.controllen Cmsg.LP64 max_fds <= stack' ->
      0 < FdChannel.rv k -> ~ FdChannel.truncated k ->
      length received = length sent ->
      List.find FdChannel.is_rights (FdChannel.msg_control k) =
        Some {| FdChannel.cmsg_len := len;
                FdChannel.cmsg_level := Sys.SOL_SOCKET;
                FdChannel.cmsg_type := Sys.SCM_RIGHTS;
                FdChannel.cmsg_data := received |} ->
      exists out,
        Frame.read_fd_message_on Cmsg.LP64 stack' fds0 fd_num0 max_fds k = Some out /\
        FdChannel.ret out = FdChannel.rv k /\
        FdChannel.fd_num out = fd_num /\
        (forall i, 0 <= i < fd_num ->
           FdChannel.fds out i = nth (Z.to_nat i) received 0) /\
        (forall i, fd_num <= i < max_fds -> FdChannel.fds out i = -1) /\
        (forall i, i < 0 \/ max_fds <= i -> FdChannel.fds out i = fds0 i).
Proof.
  intros Hs He Hf Hn Hlen Hstack.
  destruct (send_fd_message_LP64_record n fuel sockfd buf buflen arr fd_num
              r e rest w Hs He Hf Hn) as (Hspace & w' & Hrun).
  exists w', (16 + fd_num * 4), (firstn (Z.to_nat fd_num) arr).
  split.
  { unfold Frame.send_fd_message_on.
    destruct (Z.ltb_spec stack (Frame.send_controllen Cmsg.LP64 fd_num)); [lia |].
    exact Hrun. }
  split; [reflexivity |].
  split; [rewrite length_firstn; lia |].
  intros fds0 fd_num0 max_fds stack' k received Hcap Hfit Hrv Htr Hrecv Hfind.
  set (c := {| FdChannel.cmsg_len := 16 + fd_num * 4;
               FdChannel.cmsg_level := Sys.SOL_SOCKET;
               FdChannel.cmsg_type := Sys.SCM_RIGHTS;
               FdChannel.cmsg_data := received |}) in *.
  change (2 ^ 31) with 2147483648 in Hn.
  assert (Hcount : FdChannel.count_fds Cmsg.LP64 c = fd_num).
  { unfold FdChannel.count_fds. change (Cmsg.CMSG_LEN Cmsg.LP64 0) with 16.
    cbn [FdChannel.cmsg_len c].
    replace (16 + fd_num * 4 - 16) with (fd_num * 4) by lia.
    unfold Cmsg.to_size_t, Cmsg.size_t_mod, Cmsg.LP64, Sys.sizeof_int.
    change (2 ^ (8 * 8)) with 18446744073709551616.
    rewrite (Z.mod_small (fd_num * 4)) by lia. rewrite Z.div_mul by lia.
    apply ReceiveFacts.to_int_small. change (2 ^ 31) with 2147483648. lia. }
  assert (Hw : Z.of_nat (FdChannel.memcpy_words Cmsg.LP64 (FdChannel.count_fds Cmsg.LP64 c))
               = FdChannel.count_fds Cmsg.LP64 c).
  { rewrite Hcount. unfold FdChannel.memcpy_words.
    unfold Cmsg.to_size_t, Cmsg.size_t_mod, Cmsg.LP64, Sys.sizeof_int.
    change (2 ^ (8 * 8)) with 18446744073709551616.
    rewrite (Z.mod_small fd_num) by lia.
    rewrite (Z.mod_small (fd_num * 4)) by lia. rewrite Z.div_mul by lia. lia. }
  destruct (ChannelMore.receive_memory_of_count Cmsg.LP64 fds0 fd_num0 max_fds k c
              Hrv Htr Hfind Hw) as [Hnum Hmem].
  rewrite Hcount in Hnum, Hmem.
  exists (FdChannel.read_fd_message Cmsg.LP64 fds0 fd_num0 max_fds k).
  split.
  { unfold Frame.read_fd_message_on.
    destruct (Z.ltb_spec stack' (FdChannel.controllen Cmsg.LP64 max_fds)); [lia |].
    reflexivity. }
  split.
  { rewrite (ChannelMore.receive_success_shape Cmsg.LP64 fds0 fd_num0 max_fds k Hrv Htr),
      Hfind. reflexivity. }
  split; [exact Hnum |].
  split; [| split]; intros i Hi; rewrite Hmem.
  - destruct (Z.leb_spec 0 i); destruct (Z.ltb_spec i fd_num); cbn [andb];
      try reflexivity; lia.
  - destruct (Z.leb_spec 0 i); destruct (Z.ltb_spec i fd_num);
      destruct (Z.leb_spec fd_num i); destruct (Z.ltb_spec i max_fds); cbn [andb];
      try reflexivity; lia.
  - destruct (Z.leb_spec 0 i); destruct (Z.ltb_spec i fd_num);
      destruct (Z.leb_spec fd_num i); destruct (Z.ltb_spec i max_fds); cbn [andb];
      try reflexivity; lia.
Qed.

Lemma send_receive_round_trip_LP64_witness :
  let w := Demo.world_of (Demo.endpoint false true []) ∅ ∅ [] 0
             (interrupted 0 ++ sendmsg_answer 4 0 ++ []) in
  exists w' len sent,
    Frame.send_fd_message_on Cmsg.LP64 8192 1 9 [112; 105; 110; 103] 4
        (Some [5; 6; 7]) 2 w =
      Some (4, w',
            repeat (ESendmsg 9 [112; 105; 110; 103] 4 (Some (len, sent))
                      Sys.MSG_NOSIGNAL (-1)) 0 ++
            [ESendmsg 9 [112; 105; 110; 103] 4 (Some (len, sent)) Sys.MSG_NOSIGNAL 4]) /\
    sent = firstn (Z.to_nat 2) [5; 6; 7] /\
    Z.of_nat (length sent) = 2 /\
    forall (fds0 : FdChannel.memory) (fd_num0 max_fds stack' : Z)
           (k : FdChannel.recvmsg_result) (received : list Z),
      2 <= max_fds ->
      FdChannel.controllen Cmsg.LP64 max_fds <= stack' ->
      0 < FdChannel.rv k -> ~ FdChannel.truncated k ->
      length received = length sent ->
      List.find FdChannel.is_rights (FdChannel.msg_control k) =
        Some {| FdChannel.cmsg_len := len;
                FdChannel.cmsg_level := Sys.SOL_SOCKET;
                FdChannel.cmsg_type := Sys.SCM_RIGHTS;
                FdChannel.cmsg_data := received |} ->
      exists out,
        Frame.read_fd_message_on Cmsg.LP64 stack' fds0 fd_num0 max_fds k = Some out /\
        FdChannel.ret out = FdChannel.rv k /\
        FdChannel.fd_num out = 2 /\
        (forall i, 0 <= i < 2 ->
           FdChannel.fds out i = nth (Z.to_nat i) received 0) /\
        (forall i, 2 <= i < max_fds -> FdChannel.fds out i = -1) /\
        (forall i, i < 0 \/ max_fds <= i -> FdChannel.fds out i = fds0 i).
Proof.
  intros w.
  apply (send_receive_round_trip_LP64 0 1 9 [112; 105; 110; 103] 4 [5; 6; 7] 2
           4 0 [] w 8192).
  - reflexivity.
  - lia.
  - lia.
  - split; [lia | reflexivity].
  - cbn. lia.
  - vm_compute. discriminate.
Defined.

End SendMore.

(** ** Setting the transport up *)

Module StartupMore.
Import World Env AfUnix Trace Exec ListFacts Setup Startup.

#[global] Arguments sret {_} _ _ /.
#[global] Arguments sbind {_ _} _ _ _ /.
#[global] Arguments lift {_} _ _ /.
#[global] Arguments semit _ _ /.
#[global] Arguments bind_call _ _ _ /.
#[global] Arguments listen _ _ _ /.
#[global] Arguments accept _ _ /.
#[global] Arguments eventfd_write _ _ _ /.
#[global] Arguments pthread_mutex_init _ _ /.
#[global] Arguments rte_ctrl_thread_create _ _ /.
#[global] Arguments TAILQ_INIT _ _ /.
#[global] Arguments start_server_err _ _ /.

(** membership in a written-out trace of the set-up, case by case *)
Ltac in_setup_trace :=
  repeat match goal with
    | H : In _ [] |- _ => destruct H
    | H : In _ (_ :: _) |- _ =>
        destruct H as [H | H]; [try discriminate; try (injection H as; subst) |]
    end.

(** X19: [vhost_user_start_server] binds the endpoint's descriptor to
    the endpoint's address, listens on it with a backlog of 128 and
    registers it with the dispatcher for the accept callback, with the
    endpoint as the callback's argument, stopping at the first of the three
    that fails. It returns 0 when all three succeeded and the descriptor
    is open, and -1 otherwise, having closed the descriptor as its last
    act. It never unlinks a path, and it changes no list and no record:
    after a failure the endpoint still names the closed descriptor. *)
Theorem start_server_outcomes (vs : nat) (af : af_unix_socket) (w w' : world)
    (r : Z) (t : list setup_event) :
  sockets w !! vs = Some af ->
  vhost_user_start_server vs w = Some (r, w', t) ->
  let fd := socket_fd af in
  let registered a :=
    Ran (EFdsetAdd fd vhost_user_server_new_connection_ptr (Z.of_nat vs) a) in
  (sockets w' = sockets w /\ conns w' = conns w /\
   reconns w' = reconns w /\ reconn_list w' = reconn_list w) /\
  (forall p, ~ In (Ran (EUnlink p)) t) /\
  (r = 0 <-> ~ In (Ran (EClose fd)) t) /\
  ((exists b, b < 0 /\ r = -1 /\
      t = [EBind fd (un af) b; Ran (EClose fd)]) \/
   (exists b l, 0 <= b /\ l < 0 /\ r = -1 /\
      t = [EBind fd (un af) b; EListen fd 128 l; Ran (EClose fd)]) \/
   (exists b l a, 0 <= b /\ 0 <= l /\ a < 0 /\ r = -1 /\
      t = [EBind fd (un af) b; EListen fd 128 l; registered a; Ran (EClose fd)]) \/
   (exists b l a, 0 <= b /\ 0 <= l /\ 0 <= a /\ r = 0 /\
      t = [EBind fd (un af) b; EListen fd 128 l; registered a])).
Proof.
  destruct w as [S C R RL E sc]. cbn [sockets]. intros Haf.
  unfold vhost_user_start_server. cbn zeta.
  exec. all: try ended. all: cbn [sockets conns reconns reconn_list]; tests.
  all: split; [repeat split |].
  all: split; [intros p Hin; in_setup_trace |].
  all: split; [split; [intros H0; try discriminate; intros Hin; in_setup_trace
                      | intros Hno; try reflexivity; exfalso; apply Hno; cbn; tauto] |].
  all: first
         [ left; eexists; (split; [| split; reflexivity]); eassumption
         | right; left; do 2 eexists;
           (split; [| split; [| split; reflexivity]]); eassumption
         | right; right; left; do 3 eexists;
           (split; [| split; [| split; [| split; reflexivity]]]); eassumption
         | right; right; right; do 3 eexists;
           (split; [| split; [| split; [| split; reflexivity]]]); eassumption ].
Qed.

Lemma start_server_outcomes_witness :
  let af := Demo.endpoint true false [] in
  let w := Demo.world_of af ∅ ∅ [] 0 [0; -1; 98] in
  let w' := Demo.world_of af ∅ ∅ [] 98 [] in
  let t := [EBind 3 Demo.sock_path 0; EListen 3 128 (-1); Ran (EClose 3)] in
  let fd := socket_fd af in
  let registered a :=
    Ran (EFdsetAdd fd vhost_user_server_new_connection_ptr (Z.of_nat O) a) in
  vhost_user_start_server O w = Some (-1, w', t) /\
  (sockets w' = sockets w /\ conns w' = conns w /\
   reconns w' = reconns w /\ reconn_list w' = reconn_list w) /\
  (forall p, ~ In (Ran (EUnlink p)) t) /\
  (-1 = 0 <-> ~ In (Ran (EClose fd)) t) /\
  ((exists b, b < 0 /\ -1 = -1 /\
      t = [EBind fd (un af) b; Ran (EClose fd)]) \/
   (exists b l, 0 <= b /\ l < 0 /\ -1 = -1 /\
      t = [EBind fd (un af) b; EListen fd 128 l; Ran (EClose fd)]) \/
   (exists b l a, 0 <= b /\ 0 <= l /\ a < 0 /\ -1 = -1 /\
      t = [EBind fd (un af) b; EListen fd 128 l; registered a; Ran (EClose fd)]) \/
   (exists b l a, 0 <= b /\ 0 <= l /\ 0 <= a /\ -1 = 0 /\
      t = [EBind fd (un af) b; EListen fd 128 l; registered a])).
Proof.
  intros af w w' t.
  assert (Hrun : vhost_user_start_server O w = Some (-1, w', t))
    by (vm_compute; reflexivity).
  split; [exact Hrun |].
  apply (start_server_outcomes O af w w' (-1) t); [reflexivity | exact Hrun].
Defined.

Lemma add_connection_touches_own (fd : Z) (dat : option nat) (w w' : world)
    (t : list event) :
  vhost_user_add_connection fd dat w = Some (tt, w', t) ->
  (forall x, In (EClose x) t -> x = fd) /\
  (forall q p, In (EInsertTail q p) t -> exists vs, dat = Some vs /\ q = ConnQ vs) /\
  (dat = None -> t = [] /\ w' = w).
Proof.
  destruct w as [S C R RL E sc]. unfold vhost_user_add_connection.
  destruct dat as [vs |].
  - exec. all: try ended.
    all: split; [intros x Hin; in_trace; reflexivity |].
    all: split; [intros q p Hin; in_trace; exists vs; split; reflexivity |].
    all: discriminate.
  - cbn. ended. split; [intros x [] |]. split; [intros q p [] |].
    intros _. split; reflexivity.
Qed.

Lemma in_map_ran (e : event) (t : list event) : In (Ran e) (List.map Ran t) -> In e t.
Proof.
  intros Hin. apply List.in_map_iff in Hin. destruct Hin as (e' & Heq & Hin).
  injection Heq as ->. exact Hin.
Qed.

(** X20: the accept callback makes one [accept] on the listening
    descriptor. If that fails, it does nothing else and changes nothing. If
    it succeeds, the accepted descriptor goes to
    [vhost_user_add_connection] together with the endpoint the callback was
    registered with, and that is all: the only descriptor the callback can
    close is the accepted one, and a connection is only ever appended to
    the list of that endpoint. *)
Theorem server_new_connection_accepts (fd : Z) (dat : option nat) (w w' : world)
    (t : list setup_event) :
  vhost_user_server_new_connection fd dat w = Some (tt, w', t) ->
  exists a w1,
    lift syscall_errno w = Some (a, w1, []) /\
    (a < 0 -> t = [EAccept fd a] /\ w' = w1) /\
    (0 <= a ->
     exists t2,
       vhost_user_add_connection a dat w1 = Some (tt, w', t2) /\
       t = EAccept fd a :: List.map Ran t2) /\
    (forall x, In (Ran (EClose x)) t -> x = a /\ 0 <= a) /\
    (forall q p, In (Ran (EInsertTail q p)) t ->
       0 <= a /\ exists vs, dat = Some vs /\ q = ConnQ vs) /\
    sockets w1 = sockets w /\ conns w1 = conns w /\
    reconns w1 = reconns w /\ reconn_list w1 = reconn_list w.
Proof.
  destruct w as [S C R RL E sc]. unfold vhost_user_server_new_connection.
  cbn. destruct sc as [| a sc]; cbn; [discriminate |].
  destruct (a <? 0) eqn:Ha; cbn.
  - destruct sc as [| e sc]; cbn; [discriminate |]. rewrite Ha. cbn.
    ended. tests. do 2 eexists. split; [reflexivity |].
    split; [intros _; split; reflexivity |].
    split; [intros; lia |].
    split; [intros x Hin; in_setup_trace |].
    split; [intros q p Hin; in_setup_trace |].
    repeat split.
  - rewrite Ha. cbn.
    match goal with
    | |- context [vhost_user_add_connection a dat ?x] =>
        destruct (vhost_user_add_connection a dat x) as [[[[] w2] t2] |] eqn:Hadd;
        cbn; [| discriminate]
    end.
    ended. tests. do 2 eexists. split; [reflexivity |].
    destruct (add_connection_touches_own _ _ _ _ _ Hadd) as (Hcl & Hins & _).
    split; [intros; lia |].
    split; [intros _; exists t2; split; [exact Hadd | reflexivity] |].
    split.
    { intros x [Hin | Hin]; [discriminate |]. apply in_map_ran in Hin.
      split; [exact (Hcl x Hin) | assumption]. }
    split.
    { intros q p [Hin | Hin]; [discriminate |]. apply in_map_ran in Hin.
      split; [assumption | exact (Hins q p Hin)]. }
    repeat split.
Qed.

Lemma server_new_connection_accepts_witness :
  let af := Demo.endpoint true false [] in
  let w := Demo.world_of af ∅ ∅ [] 0 [-1; 24] in
  let w' := Demo.world_of af ∅ ∅ [] 24 [] in
  let t := [EAccept 3 (-1)] in
  vhost_user_server_new_connection 3 (Some O) w = Some (tt, w', t) /\
  exists a w1,
    lift syscall_errno w = Some (a, w1, []) /\
    (a < 0 -> t = [EAccept 3 a] /\ w' = w1) /\
    (0 <= a ->
     exists t2,
       vhost_user_add_connection a (Some O) w1 = Some (tt, w', t2) /\
       t = EAccept 3 a :: List.map Ran t2) /\
    (forall x, In (Ran (EClose x)) t -> x = a /\ 0 <= a) /\
    (forall q p, In (Ran (EInsertTail q p)) t ->
       0 <= a /\ exists vs, Some O = Some vs /\ q = ConnQ vs) /\
    sockets w1 = sockets w /\ conns w1 = conns w /\
    reconns w1 = reconns w /\ reconn_list w1 = reconn_list w.
Proof.
  intros af w w' t.
  assert (Hrun : vhost_user_server_new_connection 3 (Some O) w = Some (tt, w', t))
    by (vm_compute; reflexivity).
  split; [exact Hrun |].
  exact (server_new_connection_accepts 3 (Some O) w w' t Hrun).
Defined.

(** X21: [vhost_user_reconnect_init] returns 0 exactly when the reconnect
    thread was created, and then the registry is empty and its mutex
    initialised. If [pthread_mutex_init] returns a negative value, that
    value is returned and nothing else is done; any other value, a positive
    error number included, lets the set-up go on. If the thread cannot be
    created, the mutex is destroyed again and the thread's error is
    returned. *)
Theorem reconnect_init_outcomes (w w' : world) (r : Z) (t : list setup_event) :
  vhost_user_reconnect_init w = Some (r, w', t) ->
  sockets w' = sockets w /\ conns w' = conns w /\ reconns w' = reconns w /\
  ((exists m, m < 0 /\ r = m /\ t = [EMutexInit ReconnQ m] /\
      reconn_list w' = reconn_list w) \/
   (exists m, 0 <= m /\ r = 0 /\ reconn_list w' = [] /\
      t = [EMutexInit ReconnQ m; ETailqInit ReconnQ;
           EThreadCreate "vhost_reconn" 0]) \/
   (exists m c, 0 <= m /\ c <> 0 /\ r = c /\ reconn_list w' = [] /\
      t = [EMutexInit ReconnQ m; ETailqInit ReconnQ;
           EThreadCreate "vhost_reconn" c; Ran (EMutexDestroy ReconnQ)])).
Proof.
  destruct w as [S C R RL E sc]. unfold vhost_user_reconnect_init.
  exec. all: try ended. all: cbn [sockets conns reconns reconn_list]; tests.
  all: repeat (split; [reflexivity |]).
  all: first
         [ left; eexists; split; [eassumption |]; repeat split; fail
         | right; left; eexists; split; [eassumption |]; subst; repeat split; fail
         | right; right; do 2 eexists; split; [eassumption |];
           split; [eassumption |]; repeat split; fail ].
Qed.

Lemma reconnect_init_outcomes_witness :
  let w := Demo.world_of (Demo.endpoint false true []) ∅
             {[ 3000 := Demo.parked ]} [3000] 0 [0; 11] in
  let w' := Demo.world_of (Demo.endpoint false true []) ∅
              {[ 3000 := Demo.parked ]} [] 0 [] in
  let t := [EMutexInit ReconnQ 0; ETailqInit ReconnQ;
            EThreadCreate "vhost_reconn" 11; Ran (EMutexDestroy ReconnQ)] in
  vhost_user_reconnect_init w = Some (11, w', t) /\
  sockets w' = sockets w /\ conns w' = conns w /\ reconns w' = reconns w /\
  ((exists m, m < 0 /\ 11 = m /\ t = [EMutexInit ReconnQ m] /\
      reconn_list w' = reconn_list w) \/
   (exists m, 0 <= m /\ 11 = 0 /\ reconn_list w' = [] /\
      t = [EMutexInit ReconnQ m; ETailqInit ReconnQ;
           EThreadCreate "vhost_reconn" 0]) \/
   (exists m c, 0 <= m /\ c <> 0 /\ 11 = c /\ reconn_list w' = [] /\
      t = [EMutexInit ReconnQ m; ETailqInit ReconnQ;
           EThreadCreate "vhost_reconn" c; Ran (EMutexDestroy ReconnQ)])).
Proof.
  intros w w' t.
  assert (Hrun : vhost_user_reconnect_init w = Some (11, w', t))
    by (vm_compute; reflexivity).
  split; [exact Hrun |].
  exact (reconnect_init_outcomes w w' 11 t Hrun).
Defined.

(** X22: [af_unix_socket_init] empties the endpoint's list of
    connections and initialises its mutex; if that fails it returns -1
    without creating a socket. Otherwise its result is that of
    [create_unix_socket]: with 0 the endpoint holds a new descriptor that
    is not negative and was not closed, and the address cut from its
    path; with -1 descriptor and address are as before. In every case the
    endpoint's settings, the other endpoints and all records are
    untouched. *)
Theorem socket_init_outcomes (vs : nat) (af : af_unix_socket) (w w' : world)
    (r : Z) (t : list setup_event) :
  sockets w !! vs = Some af ->
  af_unix_socket_init vs w = Some (r, w', t) ->
  (r = 0 \/ r = -1) /\
  (forall u, u <> vs -> sockets w' !! u = sockets w !! u) /\
  conns w' = conns w /\ reconns w' = reconns w /\ reconn_list w' = reconn_list w /\
  exists af' m post,
    sockets w' !! vs = Some af' /\
    socket af' = socket af /\ conn_list af' = [] /\
    t = ETailqInit (ConnQ vs) :: EMutexInit (ConnQ vs) m :: post /\
    (m <> 0 -> r = -1 /\ post = []) /\
    (forall fd, In (Ran (ESocket fd)) post -> m = 0) /\
    (r = 0 ->
       0 <= socket_fd af' /\ un af' = sun_path_of (path (socket af)) /\
       In (Ran (ESocket (socket_fd af'))) post /\
       ~ In (Ran (EClose (socket_fd af'))) post) /\
    (r = -1 -> socket_fd af' = socket_fd af /\ un af' = un af).
Proof.
  destruct w as [S C R RL E sc]. cbn [sockets]. intros Haf.
  unfold af_unix_socket_init, create_unix_socket.
  cbn. repeat (first [rewrite lookup_alter_eq, Haf; cbn | exec_step; cbn]).
  all: try ended.
  all: cbn [sockets conns reconns reconn_list]; tests.
  all: split; [first [left; reflexivity | right; reflexivity] |].
  all: split; [intros u Hu; rewrite ?lookup_alter_ne by congruence; reflexivity |].
  all: repeat (split; [reflexivity |]).
  all: do 3 eexists.
  all: split; [rewrite ?lookup_alter_eq, Haf; cbn; reflexivity |].
  all: cbn [socket conn_list socket_fd un set_socket_fd set_conn_list].
  all: split; [reflexivity |]; split; [reflexivity |]; split; [reflexivity |].
  all: split; [intros Hm; first [congruence | split; reflexivity] |].
  all: split; [intros fd Hin; first [assumption | in_setup_trace] |].
  all: split; [intros Hr;
               first [discriminate
                     | split; [assumption |]; split; [reflexivity |];
                       split; [cbn; tauto | intros Hin; in_setup_trace]] |].
  all: intros Hr; first [discriminate | split; reflexivity].
Qed.

Lemma socket_init_outcomes_witness :
  let af := Demo.endpoint_at (-1) false true [2000] in
  let w := Demo.world_of af ∅ ∅ [] 0 [0; 5; 0] in
  let w' := Demo.world_of (Demo.endpoint_at 5 false true []) ∅ ∅ [] 0 [] in
  let t := [ETailqInit (ConnQ O); EMutexInit (ConnQ O) 0; Ran (ESocket 5);
            Ran (EFcntl 5 Sys.F_SETFL Sys.O_NONBLOCK 0)] in
  af_unix_socket_init O w = Some (0, w', t) /\
  (0 = 0 \/ 0 = -1) /\
  (forall u, u <> O -> sockets w' !! u = sockets w !! u) /\
  conns w' = conns w /\ reconns w' = reconns w /\ reconn_list w' = reconn_list w /\
  exists af' m post,
    sockets w' !! O = Some af' /\
    socket af' = socket af /\ conn_list af' = [] /\
    t = ETailqInit (ConnQ O) :: EMutexInit (ConnQ O) m :: post /\
    (m <> 0 -> 0 = -1 /\ post = []) /\
    (forall fd, In (Ran (ESocket fd)) post -> m = 0) /\
    (0 = 0 ->
       0 <= socket_fd af' /\ un af' = sun_path_of (path (socket af)) /\
       In (Ran (ESocket (socket_fd af'))) post /\
       ~ In (Ran (EClose (socket_fd af'))) post) /\
    (0 = -1 -> socket_fd af' = socket_fd af /\ un af' = un af).
Proof.
  intros af w w' t.
  assert (Hrun : af_unix_socket_init O w = Some (0, w', t))
    by (vm_compute; reflexivity).
  split; [exact Hrun |].
  apply (socket_init_outcomes O af w w' 0 t); [reflexivity | exact Hrun].
Defined.

(** X23: bringing a server endpoint up. When the mutex, the socket, the
    bind, the listen and the registration all succeed,
    [af_unix_socket_init] followed by [af_unix_socket_start] returns 0
    twice and leaves the endpoint listening: its list of connections is
    empty, the descriptor bound and registered is the one [socket]
    returned, left in blocking mode, and the address bound is the
    endpoint's path cut to the size of [sun_path]. No connect is made and
    nothing is closed. *)
Theorem server_startup (vs : nat) (af : af_unix_socket) (fd b l a : Z)
    (rest : list Z) (w : world) :
  sockets w !! vs = Some af ->
  is_server (socket af) = true ->
  script w = 0 :: fd :: b :: l :: a :: rest ->
  0 <= fd -> 0 <= b -> 0 <= l -> 0 <= a ->
  let addr := sun_path_of (path (socket af)) in
  let listening :=
    {| socket := socket af; conn_list := []; socket_fd := fd; un := addr |} in
  exists w1 w2,
    af_unix_socket_init vs w =
      Some (0, w1, [ETailqInit (ConnQ vs); EMutexInit (ConnQ vs) 0;
                    Ran (ESocket fd)]) /\
    af_unix_socket_start vs w1 =
      Some (0, w2, [EBind fd addr b; EListen fd 128 l;
                    Ran (EFdsetAdd fd vhost_user_server_new_connection_ptr
                           (Z.of_nat vs) a)]) /\
    sockets w2 = <[vs := listening]> (sockets w) /\
    conns w2 = conns w /\ reconns w2 = reconns w /\
    reconn_list w2 = reconn_list w /\ errno w2 = errno w /\ script w2 = rest.
Proof.
  destruct w as [S C R RL E sc]. cbn [sockets script].
  intros Haf Hsrv -> Hfd Hb Hl Ha. cbn zeta.
  apply Z.ltb_ge in Hfd, Hb, Hl, Ha.
  do 2 eexists. split; [| split].
  - unfold af_unix_socket_init, create_unix_socket. cbn.
    rewrite Hfd. cbn. rewrite lookup_alter_eq, Haf. cbn. rewrite Hsrv. cbn.
    reflexivity.
  - unfold af_unix_socket_start, vhost_user_start_server. cbn.
    repeat (first [rewrite Hb | rewrite Hl | rewrite Ha | rewrite Hsrv
                  | rewrite !lookup_alter_eq, Haf]; cbn).
    reflexivity.
  - cbn. split; [| repeat split].
    apply map_eq. intros u. destruct (decide (u = vs)) as [-> | Hne].
    + rewrite !lookup_alter_eq, lookup_insert_eq, Haf. reflexivity.
    + rewrite !lookup_alter_ne, lookup_insert_ne by congruence. reflexivity.
Qed.

Lemma server_startup_witness :
  let af := Demo.endpoint_at (-1) true false [2000] in
  let w := Demo.world_of af ∅ ∅ [] 0 [0; 5; 0; 0; 0] in
  let addr := sun_path_of (path (socket af)) in
  let listening :=
    {| socket := socket af; conn_list := []; socket_fd := 5; un := addr |} in
  exists w1 w2,
    af_unix_socket_init O w =
      Some (0, w1, [ETailqInit (ConnQ O); EMutexInit (ConnQ O) 0;
                    Ran (ESocket 5)]) /\
    af_unix_socket_start O w1 =
      Some (0, w2, [EBind 5 addr 0; EListen 5 128 0;
                    Ran (EFdsetAdd 5 vhost_user_server_new_connection_ptr
                           (Z.of_nat O) 0)]) /\
    sockets w2 = <[O := listening]> (sockets w) /\
    conns w2 = conns w /\ reconns w2 = reconns w /\
    reconn_list w2 = reconn_list w /\ errno w2 = errno w /\ script w2 = [].
Proof.
  intros af w.
  apply (server_startup O af 5 0 0 0 [] w); try reflexivity; lia.
Defined.

(** X24: [af_unix_vring_call] always reports success. On a queue whose
    call descriptor is negative it does nothing at all; otherwise it
    writes the value 1 to the descriptor once, and a failure of that write
    is not reported. No list or record is touched. *)
Theorem vring_call_reports_success (callfd : Z) (w w' : world) (r : Z)
    (t : list setup_event) :
  af_unix_vring_call callfd w = Some (r, w', t) ->
  r = 0 /\
  (callfd < 0 -> t = [] /\ w' = w) /\
  (0 <= callfd -> exists a, t = [EEventfdWrite callfd 1 a]) /\
  sockets w' = sockets w /\ conns w' = conns w /\
  reconns w' = reconns w /\ reconn_list w' = reconn_list w.
Proof.
  destruct w as [S C R RL E sc]. unfold af_unix_vring_call.
  exec. all: try ended. all: tests.
  all: match goal with
       | H : (_ <=? _) = true |- _ => apply Z.leb_le in H
       | H : (_ <=? _) = false |- _ => apply Z.leb_gt in H
       end.
  all: split; [reflexivity |].
  all: split; [intros Hneg; first [lia | split; reflexivity] |].
  all: split; [intros Hpos; first [lia | eexists; reflexivity] |].
  all: repeat split.
Qed.

Lemma vring_call_reports_success_witness :
  let w := Demo.world_of (Demo.endpoint false true []) ∅ ∅ [] 0 [-1; 11] in
  let w' := Demo.world_of (Demo.endpoint false true []) ∅ ∅ [] 11 [] in
  let t := [EEventfdWrite 6 1 (-1)] in
  af_unix_vring_call 6 w = Some (0, w', t) /\
  0 = 0 /\
  (6 < 0 -> t = [] /\ w' = w) /\
  (0 <= 6 -> exists a, t = [EEventfdWrite 6 1 a]) /\
  sockets w' = sockets w /\ conns w' = conns w /\
  reconns w' = reconns w /\ reconn_list w' = reconn_list w.
Proof.
  intros w w' t.
  assert (Hrun : af_unix_vring_call 6 w = Some (0, w', t))
    by (vm_compute; reflexivity).
  split; [exact Hrun |].
  exact (vring_call_reports_success 6 w w' 0 t Hrun).
Defined.

End StartupMore.

(** ** From a refused connect to a connection *)

Module ReconnectMore.
Import World Env AfUnix Trace Exec ListFacts.

(** X25: a client with reconnection enabled whose first connect is
    refused, and the next sweep of the reconnect thread in which the
    connect goes through. [vhost_user_start_client] parks the endpoint's
    descriptor and address in a new registry entry and returns 0 without
    closing anything and without touching the descriptor's flags. The
    sweep connects that same descriptor to that same address, finds it
    non-blocking, as [create_unix_socket] makes a client's socket, writes
    its flags back with O_NONBLOCK cleared, hands it with the endpoint to
    [vhost_user_add_connection], and then unlinks and frees the entry, all
    under the registry's mutex. Afterwards the registry is as it was before
    the client started. *)
Theorem parked_client_connects_on_sweep (vs : nat) (af : af_unix_socket)
    (c e p c2 fl : Z) (rest : list Z) (w wb : world) (ta : list event) :
  sockets w !! vs = Some af ->
  reconnect (socket af) = true ->
  reconn_list w = [] ->
  reconns w !! p = None ->
  script w = c :: e :: p :: c2 :: fl :: 0 :: rest ->
  c < 0 -> e <> Sys.EISCONN -> p <> 0 ->
  0 <= c2 -> 0 <= fl -> Z.land fl Sys.O_NONBLOCK <> 0 ->
  let fd := socket_fd af in
  let entry := {| r_un := un af; r_fd := fd; r_vsocket := vs |} in
  let w1 :=
    set_script (c2 :: fl :: 0 :: rest)
      (set_errno e (set_reconn_list (fun _ => [p])
                      (set_reconns (insert p entry) w))) in
  vhost_user_add_connection fd (Some vs) (set_script rest w1) = Some (tt, wb, ta) ->
  vhost_user_start_client vs w =
    Some (0, w1,
          [EConnect fd (un af) c; EMalloc p; ELock ReconnQ;
           EInsertTail ReconnQ p; EUnlock ReconnQ]) /\
  exists w2,
    reconnect_sweep w1 =
      Some (tt, w2,
            [ELock ReconnQ; EConnect fd (un af) c2; EFcntl fd Sys.F_GETFL 0 fl;
             EFcntl fd Sys.F_SETFL (Z.land fl (Z.lnot Sys.O_NONBLOCK)) 0] ++
            ta ++ [ERemove ReconnQ p; EFree p; EUnlock ReconnQ; ESleep 1]) /\
    reconn_list w2 = [] /\ reconns w2 = reconns w /\
    sockets w2 = sockets wb /\ conns w2 = conns wb /\ script w2 = script wb.
Proof.
  destruct w as [S C R RL E sc]. cbn [sockets reconn_list reconns script].
  intros Haf Hre -> Hfresh -> Hc He Hp Hc2 Hfl Hblk. cbn zeta.
  apply Z.ltb_lt in Hc. apply Z.eqb_neq in He, Hp. apply Z.ltb_ge in Hc2, Hfl.
  apply Z.eqb_neq in Hblk.
  intros Hadd. cbn in Hadd.
  destruct (ReconnectFacts.add_connection_keeps_registry _ _ _ _ _ Hadd) as (HR & HL).
  cbn in HR, HL.
  split.
  - unfold vhost_user_start_client, vhost_user_connect_nonblock. cbn.
    repeat (first [rewrite Haf | rewrite Hc | rewrite He | rewrite Hre | rewrite Hp];
            cbn).
    rewrite insert_insert_eq. reflexivity.
  - eexists. split.
    + unfold reconnect_sweep, reconnect_entry, vhost_user_connect_nonblock. cbn.
      repeat (first [rewrite lookup_insert_eq | rewrite Hc2 | rewrite Hfl
                    | rewrite Hblk | rewrite Hadd
                    | progress unfold reconnect_entry
                    | progress unfold vhost_user_connect_nonblock]; cbn).
      rewrite ?app_nil_r, <- ?app_assoc. reflexivity.
    + cbn. rewrite HR, HL. cbn. rewrite Z.eqb_refl. cbn.
      rewrite delete_insert_eq, (delete_id _ _ Hfresh). repeat split.
Qed.

Lemma parked_client_connects_on_sweep_witness :
  let af := Demo.endpoint false true [] in
  let w := Demo.world_of af ∅ ∅ [] 0
             [-1; Sys.ECONNREFUSED; 3000; 0; 2050; 0; 1000; 5; 0; 0] in
  let w1 := Demo.world_of af ∅ {[ 3000 := Demo.parked ]} [3000] Sys.ECONNREFUSED
              [0; 2050; 0; 1000; 5; 0; 0] in
  let wb := Demo.world_of (Demo.endpoint false true [1000])
              {[ 1000 := Demo.live 3 5 ]} {[ 3000 := Demo.parked ]} [3000]
              Sys.ECONNREFUSED [] in
  let ta := [EMalloc 1000; ENewDevice 5; ESetIfname 5 Demo.sock_path 15;
             ESetBuiltinVirtioNet 5 true; EAttachVdpaDevice 5 (-1);
             ENewConnection 5 0; EFdsetAdd 3 vhost_user_read_cb_ptr 1000 0;
             ELock (ConnQ O); EInsertTail (ConnQ O) 1000; EUnlock (ConnQ O);
             EFdsetPipeNotify] in
  vhost_user_start_client O w =
    Some (0, w1,
          [EConnect 3 Demo.sock_path (-1); EMalloc 3000; ELock ReconnQ;
           EInsertTail ReconnQ 3000; EUnlock ReconnQ]) /\
  exists w2,
    reconnect_sweep w1 =
      Some (tt, w2,
            [ELock ReconnQ; EConnect 3 Demo.sock_path 0; EFcntl 3 Sys.F_GETFL 0 2050;
             EFcntl 3 Sys.F_SETFL (Z.land 2050 (Z.lnot Sys.O_NONBLOCK)) 0] ++
            ta ++ [ERemove ReconnQ 3000; EFree 3000; EUnlock ReconnQ; ESleep 1]) /\
    reconn_list w2 = [] /\ reconns w2 = reconns w /\
    sockets w2 = sockets wb /\ conns w2 = conns wb /\ script w2 = script wb.
Proof.
  intros af w w1 wb ta.
  apply (parked_client_connects_on_sweep O af (-1) Sys.ECONNREFUSED 3000 0 2050
           [1000; 5; 0; 0] w wb ta); try reflexivity; try lia; try discriminate.
Defined.

End ReconnectMore.
